(** * clangd_lint: a shallow embedding of [scripts/clangd_lint.py]

    The script drives a [clangd] subprocess over a length-framed JSON-RPC
    channel, collects the diagnostics the server publishes for one file, and
    reports them.  This development embeds

    - the Python values the script manipulates ([str], [bytes], JSON data),
    - the library functions it calls ([json.dumps], [json.loads], [str.strip],
      [int], UTF-8 coding),
    - the five functions of the script ([send_request], [send_notification],
      [read_response], [lint_file], [main]) as state-passing functions over
      an explicit model of the operating system,

    and proves properties of them.  The maintenance scripts
    [add_newlines.py], [fix_lint_issues.py] and [increment_version.py]
    follow, over a model of the files they read and write. *)

From Stdlib Require Import List NArith ZArith Bool Lia String Ascii.
From Stdlib.Strings Require Import Byte.
From Stdlib Require Import DecimalN DecimalPos DecimalFacts.
Import ListNotations.

Set Implicit Arguments.
Set Warnings "-register-all".

Local Open Scope N_scope.

(* ================================================================= *)
(** ** Python text and byte strings *)

(** A Python [str] is a sequence of Unicode code points; a [bytes] object is
    a sequence of octets.  Keeping the two apart is what lets us tell a
    character count ([len(msg)]) from a byte count. *)

Definition str := list N.
Definition bytes := list byte.

(** ASCII literals of the source, as [str]. *)
Definition lit (s : string) : str := map N_of_ascii (list_ascii_of_string s).

Fixpoint str_eqb (a b : str) : bool :=
  match a, b with
  | [], [] => true
  | x :: a', y :: b' => N.eqb x y && str_eqb a' b'
  | _, _ => false
  end.

(** [s.startswith(p)], returning the remainder on success. *)
Fixpoint strip_prefix (p s : str) : option str :=
  match p, s with
  | [], _ => Some s
  | x :: p', y :: s' => if N.eqb x y then strip_prefix p' s' else None
  | _ :: _, [] => None
  end.

(** [Py_UNICODE_ISSPACE]: the code points [str.strip()] removes and [int()]
    tolerates around a number. *)
Definition py_isspace (c : N) : bool :=
  ((9 <=? c) && (c <=? 13)) || ((28 <=? c) && (c <=? 32))
  || (c =? 133) || (c =? 160) || (c =? 5760)
  || ((8192 <=? c) && (c <=? 8202))
  || (c =? 8232) || (c =? 8233) || (c =? 8239) || (c =? 8287) || (c =? 12288).

Section Strip.
Variable space : N -> bool.

Fixpoint lstrip (s : str) : str :=
  match s with
  | c :: t => if space c then lstrip t else s
  | [] => []
  end.

Definition strip (s : str) : str := rev (lstrip (rev (lstrip s))).
End Strip.

(** [s.strip()] *)
Definition py_strip (s : str) : str := strip py_isspace s.

(** [sep in s] and [s.split(sep, 1)] for the separator [": "]: the text
    before and after the first occurrence. *)
Fixpoint split_colon_space (s : str) : option (str * str) :=
  match s with
  | [] => None
  | c :: t =>
      match (if N.eqb c 58 then strip_prefix [32] t else None) with
      | Some rest => Some ([], rest)
      | None =>
          match split_colon_space t with
          | Some (k, v) => Some (c :: k, v)
          | None => None
          end
      end
  end.

(* ----------------------------------------------------------------- *)
(** *** Decimal numerals: [str(n)] and digit runs *)

Fixpoint uint_chars (d : Decimal.uint) : str :=
  match d with
  | Decimal.Nil => []
  | Decimal.D0 d => 48 :: uint_chars d
  | Decimal.D1 d => 49 :: uint_chars d
  | Decimal.D2 d => 50 :: uint_chars d
  | Decimal.D3 d => 51 :: uint_chars d
  | Decimal.D4 d => 52 :: uint_chars d
  | Decimal.D5 d => 53 :: uint_chars d
  | Decimal.D6 d => 54 :: uint_chars d
  | Decimal.D7 d => 55 :: uint_chars d
  | Decimal.D8 d => 56 :: uint_chars d
  | Decimal.D9 d => 57 :: uint_chars d
  end.

(** [str(n)] for a non-negative integer, [str(z)] for any integer. *)
Definition str_of_N (n : N) : str := uint_chars (N.to_uint n).

Definition str_of_Z (z : Z) : str :=
  match z with
  | Z0 => str_of_N 0
  | Zpos p => str_of_N (Npos p)
  | Zneg p => 45 :: str_of_N (Npos p)
  end.

Definition is_digit (c : N) : bool := (48 <=? c) && (c <=? 57).

(** The longest prefix of decimal digits, and what follows it. *)
Fixpoint span_digits (s : str) : str * str :=
  match s with
  | c :: t =>
      if is_digit c then let (ds, r) := span_digits t in (c :: ds, r)
      else ([], s)
  | [] => ([], [])
  end.

(** The number a run of decimal digits denotes. *)
Definition digits_value (ds : str) : N :=
  fold_left (fun acc c => 10 * acc + (c - 48)) ds 0.

(* ----------------------------------------------------------------- *)
(** *** UTF-8 *)

Definition byte_of_N (n : N) : byte :=
  match Byte.of_N n with Some b => b | None => x00 end.

(** [chr(c).encode()]; [None] is [UnicodeEncodeError] (a surrogate). *)
Definition utf8_encode_char (c : N) : option bytes :=
  if c <? 128 then Some [byte_of_N c]
  else if c <? 2048 then
    Some [byte_of_N (192 + c / 64); byte_of_N (128 + c mod 64)]
  else if c <? 65536 then
    if (55296 <=? c) && (c <=? 57343) then None
    else Some [byte_of_N (224 + c / 4096);
               byte_of_N (128 + (c / 64) mod 64);
               byte_of_N (128 + c mod 64)]
  else if c <? 1114112 then
    Some [byte_of_N (240 + c / 262144);
          byte_of_N (128 + (c / 4096) mod 64);
          byte_of_N (128 + (c / 64) mod 64);
          byte_of_N (128 + c mod 64)]
  else None.

Fixpoint utf8_encode (s : str) : option bytes :=
  match s with
  | [] => Some []
  | c :: t =>
      match utf8_encode_char c, utf8_encode t with
      | Some b, Some bs => Some (b ++ bs)
      | _, _ => None
      end
  end.

Definition is_cont (b : byte) : bool :=
  let n := Byte.to_N b in (128 <=? n) && (n <? 192).

Definition cont_bits (b : byte) : N := Byte.to_N b - 128.

(** [bs.decode()] with the default strict UTF-8 codec; [None] is
    [UnicodeDecodeError] (stray continuation byte, truncated or overlong
    sequence, surrogate, code point above U+10FFFF). *)
Fixpoint utf8_decode (bs : bytes) : option str :=
  match bs with
  | [] => Some []
  | b0 :: r0 =>
      let n0 := Byte.to_N b0 in
      if n0 <? 128 then option_map (cons n0) (utf8_decode r0)
      else if n0 <? 194 then None
      else if n0 <? 224 then
        match r0 with
        | b1 :: r1 =>
            if is_cont b1
            then option_map (cons ((n0 - 192) * 64 + cont_bits b1)) (utf8_decode r1)
            else None
        | _ => None
        end
      else if n0 <? 240 then
        match r0 with
        | b1 :: b2 :: r2 =>
            let c := (n0 - 224) * 4096 + cont_bits b1 * 64 + cont_bits b2 in
            if is_cont b1 && is_cont b2 && (2048 <=? c)
               && negb ((55296 <=? c) && (c <=? 57343))
            then option_map (cons c) (utf8_decode r2)
            else None
        | _ => None
        end
      else if n0 <? 245 then
        match r0 with
        | b1 :: b2 :: b3 :: r3 =>
            let c := (n0 - 240) * 262144 + cont_bits b1 * 4096
                     + cont_bits b2 * 64 + cont_bits b3 in
            if is_cont b1 && is_cont b2 && is_cont b3
               && (65536 <=? c) && (c <? 1114112)
            then option_map (cons c) (utf8_decode r3)
            else None
        | _ => None
        end
      else None
  end.

(** Text made of ASCII characters only. *)
Definition is_ascii (s : str) : Prop := Forall (fun c => c < 128) s.

(* ================================================================= *)
(** ** JSON data and Python dictionaries *)

(** The Python values [json.loads] builds and [json.dumps] prints: [None],
    [bool], [int], [str], [list] and [dict] with [str] keys.  A [dict] is
    kept as an association list in insertion order (which Python preserves)
    with pairwise distinct keys.  Floating-point numbers are not part of the
    model. *)
Inductive json : Type :=
| JNull
| JBool (b : bool)
| JInt (z : Z)
| JStr (s : str)
| JList (l : list json)
| JDict (d : list (str * json)).

Section Dict.
Context {V : Type}.

(** [d.get(k)] as an option. *)
Fixpoint dict_get (k : str) (d : list (str * V)) : option V :=
  match d with
  | [] => None
  | (k', v) :: r => if str_eqb k k' then Some v else dict_get k r
  end.

(** [d[k] = v]: overwrite in place, or append a new key. *)
Fixpoint dict_set (k : str) (v : V) (d : list (str * V)) : list (str * V) :=
  match d with
  | [] => [(k, v)]
  | (k', v') :: r =>
      if str_eqb k k' then (k', v) :: r else (k', v') :: dict_set k v r
  end.

(** [dict(pairs)]. *)
Definition py_dict (pairs : list (str * V)) : list (str * V) :=
  fold_left (fun d kv => dict_set (fst kv) (snd kv) d) pairs [].

Definition mem_key (k : str) (d : list (str * V)) : bool :=
  match dict_get k d with Some _ => true | None => false end.

Fixpoint distinct_keys (d : list (str * V)) : bool :=
  match d with
  | [] => true
  | (k, _) :: r => negb (mem_key k r) && distinct_keys r
  end.
End Dict.

(* ----------------------------------------------------------------- *)
(** *** [json.dumps] with its default settings

    [ensure_ascii=True], item separator [", "], key separator [": "]. *)

Definition hex_digit (k : N) : N := if k <? 10 then 48 + k else 87 + k.

(** ['\\u{0:04x}'.format(n)] *)
Definition hex4 (n : N) : str :=
  [92; 117; hex_digit (n / 4096); hex_digit ((n / 256) mod 16);
   hex_digit ((n / 16) mod 16); hex_digit (n mod 16)].

(** The replacement [py_encode_basestring_ascii] makes for one character:
    [ESCAPE_DCT] for the quote, the backslash and the named control
    characters, the character itself from the space to the tilde, a
    [\uXXXX] escape otherwise (a surrogate pair above U+FFFF). *)
Definition escape_char (c : N) : str :=
  if c =? 34 then [92; 34]
  else if c =? 92 then [92; 92]
  else if c =? 10 then [92; 110]
  else if c =? 13 then [92; 114]
  else if c =? 9 then [92; 116]
  else if c =? 12 then [92; 102]
  else if c =? 8 then [92; 98]
  else if (32 <=? c) && (c <=? 126) then [c]
  else if c <? 65536 then hex4 c
  else
    let n := c - 65536 in
    hex4 (N.lor 55296 (N.land (N.shiftr n 10) 1023))
    ++ hex4 (N.lor 56320 (N.land n 1023)).

Definition encode_string (s : str) : str :=
  34 :: flat_map escape_char s ++ [34].

(** [sep.join(items)] for [sep = ", "]. *)
Fixpoint join_items (items : list str) : str :=
  match items with
  | [] => []
  | [x] => x
  | x :: r => x ++ 44 :: 32 :: join_items r
  end.

Definition s_null : str := Eval vm_compute in lit "null".
Definition s_true : str := Eval vm_compute in lit "true".
Definition s_false : str := Eval vm_compute in lit "false".

Fixpoint json_dumps (v : json) : str :=
  match v with
  | JNull => s_null
  | JBool true => s_true
  | JBool false => s_false
  | JInt z => str_of_Z z
  | JStr s => encode_string s
  | JList l => 91 :: join_items (map json_dumps l) ++ [93]
  | JDict d =>
      123 :: join_items
               (map (fun kv => encode_string (fst kv) ++ 58 :: 32 :: json_dumps (snd kv)) d)
          ++ [125]
  end.

(* ----------------------------------------------------------------- *)
(** *** [json.loads]

    The default decoder, restricted to the values of [json].  A result is
    a value, [Invalid] ([json.JSONDecodeError]) or [Beyond]: the text lies
    outside the model (it holds a floating-point literal, or the fuel of the
    recursive descent ran out). *)

Inductive parse (A : Type) : Type :=
| Parsed (a : A)
| Invalid
| Beyond.
Arguments Parsed {A} a.
Arguments Invalid {A}.
Arguments Beyond {A}.

Definition parse_bind {A B} (p : parse A) (k : A -> parse B) : parse B :=
  match p with
  | Parsed a => k a
  | Invalid => Invalid
  | Beyond => Beyond
  end.

(** [WHITESPACE = [ \t\n\r]*] *)
Definition is_json_ws (c : N) : bool :=
  (c =? 32) || (c =? 9) || (c =? 10) || (c =? 13).

Fixpoint skip_ws (s : str) : str :=
  match s with
  | c :: t => if is_json_ws c then skip_ws t else s
  | [] => []
  end.

Definition hex_value (c : N) : option N :=
  if (48 <=? c) && (c <=? 57) then Some (c - 48)
  else if (97 <=? c) && (c <=? 102) then Some (c - 87)
  else if (65 <=? c) && (c <=? 70) then Some (c - 55)
  else None.

Definition parse_hex4 (h1 h2 h3 h4 : N) : option N :=
  match hex_value h1, hex_value h2, hex_value h3, hex_value h4 with
  | Some a, Some b, Some c, Some d => Some (((a * 16 + b) * 16 + c) * 16 + d)
  | _, _, _, _ => None
  end.

(** The [BACKSLASH] table of the decoder. *)
Definition unescape (e : N) : option N :=
  if e =? 34 then Some 34
  else if e =? 92 then Some 92
  else if e =? 47 then Some 47
  else if e =? 98 then Some 8
  else if e =? 102 then Some 12
  else if e =? 110 then Some 10
  else if e =? 114 then Some 13
  else if e =? 116 then Some 9
  else None.

Definition is_high_surrogate (u : N) : bool := (55296 <=? u) && (u <=? 56319).
Definition is_low_surrogate (u : N) : bool := (56320 <=? u) && (u <=? 57343).

(** [Py_UNICODE_JOIN_SURROGATES] *)
Definition join_surrogates (u u2 : N) : N :=
  65536 + N.lor (N.shiftl (u - 55296) 10) (u2 - 56320).

Definition prepend (c : N) (p : parse (str * str)) : parse (str * str) :=
  parse_bind p (fun xr => Parsed (c :: fst xr, snd xr)).

(** [scanstring] in strict mode, entered after the opening quote: the
    decoded text and what follows the closing quote. *)
Fixpoint scanstring (s : str) : parse (str * str) :=
  match s with
  | [] => Invalid
  | c :: t =>
      if c =? 34 then Parsed ([], t)
      else if c =? 92 then
        match t with
        | [] => Invalid
        | e :: t1 =>
            if e =? 117 then
              match t1 with
              | h1 :: h2 :: h3 :: h4 :: t2 =>
                  match parse_hex4 h1 h2 h3 h4 with
                  | None => Invalid
                  | Some u =>
                      let single := prepend u (scanstring t2) in
                      if is_high_surrogate u then
                        match t2 with
                        | b :: x :: g1 :: g2 :: g3 :: g4 :: t3 =>
                            if (b =? 92) && (x =? 117) then
                              match parse_hex4 g1 g2 g3 g4 with
                              | None => Invalid
                              | Some u2 =>
                                  if is_low_surrogate u2
                                  then prepend (join_surrogates u u2) (scanstring t3)
                                  else single
                              end
                            else single
                        | _ => single
                        end
                      else single
                  end
              | _ => Invalid
              end
            else
              match unescape e with
              | Some ch => prepend ch (scanstring t1)
              | None => Invalid
              end
        end
      else if c <? 32 then Invalid
      else prepend c (scanstring t)
  end.

(** Does a fraction ([\.\d+]) or an exponent ([[eE][-+]?\d+]) follow?  Then
    the literal is a float. *)
Definition float_follows (s : str) : bool :=
  match s with
  | c :: d :: r =>
      if c =? 46 then is_digit d
      else if (c =? 101) || (c =? 69) then
        if (d =? 43) || (d =? 45)
        then match r with d' :: _ => is_digit d' | [] => false end
        else is_digit d
      else false
  | _ => false
  end.

(** [NUMBER_RE] at the head of [s], whose first character is a digit or a
    minus sign; also the constants [-Infinity], which is a float. *)
Definition parse_number (s : str) : parse (json * str) :=
  let (neg, s1) :=
    match s with
    | c :: t => if c =? 45 then (true, t) else (false, s)
    | [] => (false, s)
    end in
  match span_digits s1 with
  | ([], _) =>
      if neg then
        match strip_prefix (lit "Infinity") s1 with
        | Some _ => Beyond
        | None => Invalid
        end
      else Invalid
  | (c0 :: cs, rest) =>
      let (int_part, rest') :=
        if c0 =? 48 then ([c0], tl s1) else (c0 :: cs, rest) in
      if float_follows rest' then Beyond
      else
        let n := Z.of_N (digits_value int_part) in
        Parsed (JInt (if neg then Z.opp n else n), rest')
  end.

Fixpoint parse_value (fuel : nat) (s : str) {struct fuel} : parse (json * str) :=
  match fuel with
  | O => Beyond
  | S f =>
      match s with
      | [] => Invalid
      | c :: t =>
          if c =? 34 then
            parse_bind (scanstring t) (fun xr => Parsed (JStr (fst xr), snd xr))
          else if c =? 123 then
            match skip_ws t with
            | c1 :: t1 =>
                if c1 =? 125 then Parsed (JDict [], t1)
                else if c1 =? 34 then
                  parse_bind (parse_members f t1)
                    (fun pr => Parsed (JDict (py_dict (fst pr)), snd pr))
                else Invalid
            | [] => Invalid
            end
          else if c =? 91 then
            match skip_ws t with
            | c1 :: t1 =>
                if c1 =? 93 then Parsed (JList [], t1)
                else
                  parse_bind (parse_elems f (c1 :: t1))
                    (fun lr => Parsed (JList (fst lr), snd lr))
            | [] => Invalid
            end
          else
            match strip_prefix s_null s, strip_prefix s_true s,
                  strip_prefix s_false s with
            | Some r, _, _ => Parsed (JNull, r)
            | _, Some r, _ => Parsed (JBool true, r)
            | _, _, Some r => Parsed (JBool false, r)
            | None, None, None =>
                if is_digit c || (c =? 45) then parse_number s
                else
                  match strip_prefix (lit "NaN") s,
                        strip_prefix (lit "Infinity") s with
                  | None, None => Invalid
                  | _, _ => Beyond
                  end
            end
      end
  end
with parse_elems (fuel : nat) (s : str) {struct fuel} : parse (list json * str) :=
  match fuel with
  | O => Beyond
  | S f =>
      parse_bind (parse_value f s) (fun vr =>
        match skip_ws (snd vr) with
        | c :: t =>
            if c =? 93 then Parsed ([fst vr], t)
            else if c =? 44 then
              parse_bind (parse_elems f (skip_ws t))
                (fun lr => Parsed (fst vr :: fst lr, snd lr))
            else Invalid
        | [] => Invalid
        end)
  end
with parse_members (fuel : nat) (s : str) {struct fuel}
  : parse (list (str * json) * str) :=
  match fuel with
  | O => Beyond
  | S f =>
      parse_bind (scanstring s) (fun kr =>
        match skip_ws (snd kr) with
        | c :: t =>
            if c =? 58 then
              parse_bind (parse_value f (skip_ws t)) (fun vr =>
                match skip_ws (snd vr) with
                | c1 :: t1 =>
                    if c1 =? 125 then Parsed ([(fst kr, fst vr)], t1)
                    else if c1 =? 44 then
                      match skip_ws t1 with
                      | q :: t2 =>
                          if q =? 34 then
                            parse_bind (parse_members f t2)
                              (fun pr => Parsed ((fst kr, fst vr) :: fst pr, snd pr))
                          else Invalid
                      | [] => Invalid
                      end
                    else Invalid
                | [] => Invalid
                end)
            else Invalid
        | [] => Invalid
        end)
  end.

(** [json.loads(s)] for a [str] argument: no byte-order mark, one value,
    nothing but whitespace after it. *)
Definition json_loads (s : str) : parse json :=
  if match s with c :: _ => c =? 65279 | [] => false end then Invalid
  else
    parse_bind (parse_value (2 * List.length s + 2) (skip_ws s)) (fun vr =>
      match skip_ws (snd vr) with
      | [] => Parsed (fst vr)
      | _ :: _ => Invalid
      end).

(* ================================================================= *)
(** ** Exceptions and results *)

(** The exception classes the script can let escape. *)
Inductive exception : Type :=
| UnicodeDecodeError
| UnicodeEncodeError
| JSONDecodeError
| ValueError
| AttributeError
| TypeError
| FileNotFoundError
| BrokenPipeError.

Inductive outcome (A : Type) : Type :=
| Return (a : A)
| Raise (e : exception).
Arguments Return {A} a.
Arguments Raise {A} e.

(* ----------------------------------------------------------------- *)
(** *** [int(text)] *)

(** [Py_ISSPACE]: what [PyLong_FromString] skips around the digits. *)
Definition c_isspace (c : N) : bool := ((9 <=? c) && (c <=? 13)) || (c =? 32).

(** Digits with single underscores between them; [after_us] tells that the
    previous character was an underscore. *)
Fixpoint int_digits (after_us : bool) (s : str) : option str :=
  match s with
  | [] => if after_us then None else Some []
  | c :: t =>
      if is_digit c then option_map (cons c) (int_digits false t)
      else if (c =? 95) && negb after_us then int_digits true t
      else None
  end.

(** [int(s)] in base ten.  [None]: the text holds a character from U+007F
    on, which only the Unicode tables of decimal digits and spaces can
    judge; [Some (Raise ValueError)]: invalid literal. *)
Definition py_int (s : str) : option (outcome Z) :=
  if existsb (fun c => 127 <=? c) s then None
  else
    let t := strip c_isspace s in
    let (neg, u) :=
      match t with
      | c :: r => if c =? 45 then (true, r) else if c =? 43 then (false, r) else (false, t)
      | [] => (false, t)
      end in
    match u with
    | c :: _ =>
        if is_digit c then
          match int_digits false u with
          | Some ds =>
              let n := Z.of_N (digits_value ds) in
              Some (Return (if neg then Z.opp n else n))
          | None => Some (Raise ValueError)
          end
        else Some (Raise ValueError)
    | [] => Some (Raise ValueError)
    end.

(* ================================================================= *)
(** ** Framing: what goes over the pipes *)

Definition s_content_length : str := Eval vm_compute in lit "Content-Length".

(** The f-string of both senders:
    [f"Content-Length: {len(msg)}\r\n\r\n{msg}"]. *)
Definition content_of (msg : str) : str :=
  s_content_length ++ 58 :: 32 :: str_of_N (N.of_nat (List.length msg))
    ++ 13 :: 10 :: 13 :: 10 :: msg.

(** The message of [send_request]:
    [{"jsonrpc": "2.0", "id": msg_id, "method": method, "params": params}] *)
Definition request_message (method : str) (params : json) (msg_id : json) : json :=
  JDict [(lit "jsonrpc", JStr (lit "2.0")); (lit "id", msg_id);
         (lit "method", JStr method); (lit "params", params)].

(** The message of [send_notification]:
    [{"jsonrpc": "2.0", "method": method, "params": params}] *)
Definition notification_message (method : str) (params : json) : json :=
  JDict [(lit "jsonrpc", JStr (lit "2.0"));
         (lit "method", JStr method); (lit "params", params)].

(** [stream.readline()]: up to and including the first newline, or all
    that is left. *)
Fixpoint readline (bs : bytes) : bytes * bytes :=
  match bs with
  | [] => ([], [])
  | b :: t =>
      if Byte.eqb b x0a then ([b], t)
      else let (l, r) := readline t in (b :: l, r)
  end.

(** The header loop of [read_response] (lines 30-37). *)
Fixpoint read_headers (fuel : nat) (stream : bytes) (headers : list (str * str))
  : option (outcome (list (str * str)) * bytes) :=
  match fuel with
  | O => None
  | S f =>
      let (raw, rest) := readline stream in
      match utf8_decode raw with
      | None => Some (Raise UnicodeDecodeError, rest)
      | Some text =>
          match py_strip text with
          | [] => Some (Return headers, rest)
          | line =>
              match split_colon_space line with
              | Some (key, value) => read_headers f rest (dict_set key value headers)
              | None => read_headers f rest headers
              end
          end
      end
  end.

(** [stream.read(length)] on a buffered reader: at most [length] bytes,
    everything for [-1], [ValueError] below. *)
Definition stream_read (length : Z) (stream : bytes) : outcome bytes * bytes :=
  if (length <? -1)%Z then (Raise ValueError, stream)
  else if (length =? -1)%Z then (Return stream, [])
  else (Return (firstn (Z.to_nat length) stream), skipn (Z.to_nat length) stream).

(** Lines 30-42 of [read_response]: one message off a readable stream whose
    bytes are [stream], and the bytes left unread.  [None]: outside the
    model. *)
Definition read_message (stream : bytes) : option (outcome (option json) * bytes) :=
  match read_headers (S (List.length stream)) stream [] with
  | None => None
  | Some (Raise e, rest) => Some (Raise e, rest)
  | Some (Return headers, rest) =>
      match (match dict_get s_content_length headers with
             | None => Some (Return 0%Z)
             | Some value => py_int value
             end) with
      | None => None
      | Some (Raise e) => Some (Raise e, rest)
      | Some (Return length) =>
          if (length =? 0)%Z then Some (Return None, rest)
          else
            match stream_read length rest with
            | (Raise e, rest') => Some (Raise e, rest')
            | (Return raw, rest') =>
                match utf8_decode raw with
                | None => Some (Raise UnicodeDecodeError, rest')
                | Some body =>
                    match json_loads body with
                    | Parsed v => Some (Return (Some v), rest')
                    | Invalid => Some (Raise JSONDecodeError, rest')
                    | Beyond => None
                    end
                end
            end
      end
  end.

(* ================================================================= *)
(** ** The operating system, as far as the script sees it *)

(** What a poll of the child's standard output finds: nothing for the whole
    time-out (and [extra] milliseconds of scheduling delay on top), or a
    readable pipe holding [data]. *)
Inductive chunk : Type :=
| Idle (extra : N)
| Ready (data : bytes).

(** A child process: what it will still put on its standard output, the
    bytes already taken off the pipe but not yet consumed by the reader,
    whether its standard input takes writes, what was written to it (oldest
    first), and whether it was sent the termination signal and waited for. *)
Record process : Type := mkProcess {
  script : list chunk;
  buffer : bytes;
  stdin_ok : bool;
  written : list bytes;
  terminated : bool;
  reaped : bool }.

(** How a child started by [Popen] will behave. *)
Record launch : Type := mkLaunch {
  accepts_input : bool;
  emits : list chunk }.

(** The state of the world: the clock in milliseconds, the outcome of the
    [Popen] calls to come ([None]: the program cannot be started), the
    children started so far, the file system, the answers of
    [os.path.abspath(os.path.join(_, _))], [os.getpid()], [os.getcwd()] and
    [glob.glob("src/**/*.cpp", recursive=True)], and the time in
    milliseconds each child, by handle, takes to exit once it was sent
    the termination signal.  Every child is taken to exit in the end: one
    that ignores the signal would keep [proc.wait()] from returning at
    all. *)
Record world : Type := mkWorld {
  clock : Z;
  pending : list (option launch);
  procs : list process;
  files : str -> option str;
  resolve : str -> str -> str;
  getpid : Z;
  getcwd : str;
  glob_cpp : list str;
  exit_delay : nat -> N }.

Definition set_clock (t : Z) (w : world) : world :=
  mkWorld t (pending w) (procs w) (files w) (resolve w) (getpid w) (getcwd w) (glob_cpp w)
          (exit_delay w).

Definition set_pending (l : list (option launch)) (w : world) : world :=
  mkWorld (clock w) l (procs w) (files w) (resolve w) (getpid w) (getcwd w) (glob_cpp w)
          (exit_delay w).

Definition set_procs (ps : list process) (w : world) : world :=
  mkWorld (clock w) (pending w) ps (files w) (resolve w) (getpid w) (getcwd w) (glob_cpp w)
          (exit_delay w).

Definition set_exit_delay (d : nat -> N) (w : world) : world :=
  mkWorld (clock w) (pending w) (procs w) (files w) (resolve w) (getpid w) (getcwd w)
          (glob_cpp w) d.

Fixpoint list_update {A} (i : nat) (f : A -> A) (l : list A) : list A :=
  match l, i with
  | [], _ => []
  | x :: r, O => f x :: r
  | x :: r, S j => x :: list_update j f r
  end.

Definition update_proc (p : nat) (f : process -> process) (w : world) : world :=
  set_procs (list_update p f (procs w)) w.

Definition tick (ms : Z) (w : world) : world := set_clock (clock w + ms)%Z w.

(* ----------------------------------------------------------------- *)
(** *** Computations

    A computation takes the world to a result (a value or an exception) and
    a new world.  It has no answer ([None]) where the model ends: the fuel
    of a loop ran out, or a library function left the modelled fragment. *)

Definition M (A : Type) : Type := world -> option (outcome A * world).

Definition ret {A} (a : A) : M A := fun w => Some (Return a, w).

Definition raise {A} (e : exception) : M A := fun w => Some (Raise e, w).

Definition unmodelled {A} : M A := fun _ => None.

Definition bind {A B} (c : M A) (k : A -> M B) : M B :=
  fun w =>
    match c w with
    | None => None
    | Some (Raise e, w') => Some (Raise e, w')
    | Some (Return a, w') => k a w'
    end.

Definition lift {A} (o : outcome A) : M A :=
  match o with
  | Return a => ret a
  | Raise e => raise e
  end.

Declare Scope m_scope.
Delimit Scope m_scope with M.
Notation "x <- c ;; k" := (bind c (fun x => k))
  (at level 61, c at next level, right associativity) : m_scope.
Notation "c ;;; k" := (bind c (fun _ => k))
  (at level 61, right associativity) : m_scope.

Definition obind {A B} (o : outcome A) (k : A -> outcome B) : outcome B :=
  match o with
  | Return a => k a
  | Raise e => Raise e
  end.

(* ----------------------------------------------------------------- *)
(** *** System calls *)

(** [subprocess.Popen(["clangd", ...], stdin=PIPE, stdout=PIPE, ...)]: the
    handle of the new child is its index among [procs]. *)
Definition Popen : M nat := fun w =>
  match pending w with
  | Some l :: rest =>
      Some (Return (List.length (procs w)),
            set_procs (procs w ++ [mkProcess (emits l) [] (accepts_input l) [] false false])
              (set_pending rest w))
  | None :: rest => Some (Raise FileNotFoundError, set_pending rest w)
  | [] => Some (Raise FileNotFoundError, w)
  end.

(** [proc.stdin.write(data); proc.stdin.flush()] *)
Definition stdin_write (p : nat) (data : bytes) : M unit := fun w =>
  match nth_error (procs w) p with
  | None => None
  | Some pr =>
      if stdin_ok pr then
        Some (Return tt,
              update_proc p (fun pr =>
                mkProcess (script pr) (buffer pr) (stdin_ok pr) (written pr ++ [data])
                          (terminated pr) (reaped pr)) w)
      else Some (Raise BrokenPipeError, w)
  end.

(** [time.time()], in milliseconds. *)
Definition time : M Z := fun w => Some (Return (clock w), w).

(** [time.sleep(ms / 1000)] *)
Definition sleep (ms : Z) : M unit := fun w => Some (Return tt, tick ms w).

(** [proc.terminate()] *)
Definition terminate (p : nat) : M unit := fun w =>
  match nth_error (procs w) p with
  | None => None
  | Some _ =>
      Some (Return tt,
            update_proc p (fun pr =>
              mkProcess (script pr) (buffer pr) (stdin_ok pr) (written pr) true (reaped pr)) w)
  end.

(** [proc.wait()], which has no time-out: it returns when the child has
    exited, [exit_delay] milliseconds after the termination signal.  For
    a child that was not signalled the model has no answer. *)
Definition wait (p : nat) : M unit := fun w =>
  match nth_error (procs w) p with
  | None => None
  | Some pr =>
      if terminated pr then
        Some (Return tt,
              tick (Z.of_N (exit_delay w p))
                (update_proc p (fun pr =>
                   mkProcess (script pr) (buffer pr) (stdin_ok pr) (written pr)
                             (terminated pr) true) w))
      else None
  end.

(** [with open(path) as f: text = f.read()] *)
Definition open_read (path : str) : M str := fun w =>
  match files w path with
  | Some text => Some (Return text, w)
  | None => Some (Raise FileNotFoundError, w)
  end.

(* ================================================================= *)
(** ** The script *)

Local Open Scope m_scope.

(** [content.encode()] then the write. *)
Definition write_content (proc : nat) (content : str) : M unit :=
  match utf8_encode content with
  | Some data => stdin_write proc data
  | None => raise UnicodeEncodeError
  end.

Definition send_request (proc : nat) (method : str) (params msg_id : json) : M unit :=
  let msg := json_dumps (request_message method params msg_id) in
  let content := content_of msg in
  write_content proc content.

Definition send_notification (proc : nat) (method : str) (params : json) : M unit :=
  let msg := json_dumps (notification_message method params) in
  let content := content_of msg in
  write_content proc content.

(** Whether the header loop finds every line it reads complete, newline
    included, among the bytes at hand. *)
Fixpoint lines_at_hand (fuel : nat) (stream : bytes) : bool :=
  match fuel with
  | O => false
  | S f =>
      let (raw, rest) := readline stream in
      existsb (Byte.eqb x0a) raw
      && match utf8_decode raw with
         | None => true
         | Some text =>
             match py_strip text with
             | [] => true
             | _ => lines_at_hand f rest
             end
         end
  end.

(** Whether lines 30-42 find among the bytes at hand every byte they wait
    for: complete header lines and a body as long as announced.  The
    pipe of a living child is never at its end, so [readline()] and
    [read(length)] would otherwise block until the child writes more, and
    [read(-1)] for ever. *)
Definition at_hand (stream : bytes) : bool :=
  lines_at_hand (S (List.length stream)) stream
  && match read_headers (S (List.length stream)) stream [] with
     | Some (Return headers, rest) =>
         match dict_get s_content_length headers with
         | Some value =>
             match py_int value with
             | Some (Return length) =>
                 (length <? -1)%Z
                 || ((0 <=? length)%Z && (Z.to_nat length <=? List.length rest)%nat)
             | _ => true
             end
         | None => true
         end
     | _ => true
     end.

(** [select] on the child's output for [timeout] milliseconds, then lines
    30-42 on what the pipe holds.  A child whose script is over stays
    silent.  Where the reader would have to wait for bytes the child has
    not written yet, the model has no answer. *)
Definition read_response (proc : nat) (timeout : Z) : M (option json) := fun w =>
  match nth_error (procs w) proc with
  | None => None
  | Some pr =>
      match script pr with
      | [] => Some (Return None, tick timeout w)
      | Idle extra :: rest =>
          Some (Return None,
                tick (timeout + Z.of_N extra)
                  (update_proc proc (fun pr =>
                     mkProcess rest (buffer pr) (stdin_ok pr) (written pr)
                               (terminated pr) (reaped pr)) w))
      | Ready data :: rest =>
          if at_hand (buffer pr ++ data) then
            match read_message (buffer pr ++ data) with
            | None => None
            | Some (r, unread) =>
                lift r
                  (update_proc proc (fun pr =>
                     mkProcess rest unread (stdin_ok pr) (written pr)
                               (terminated pr) (reaped pr)) w)
            end
          else None
      end
  end.

(* ----------------------------------------------------------------- *)
(** *** Python operations on the decoded messages *)

(** [bool(v)] *)
Definition truthy (v : json) : bool :=
  match v with
  | JNull => false
  | JBool b => b
  | JInt z => negb (z =? 0)%Z
  | JStr [] | JList [] | JDict [] => false
  | JStr _ | JList _ | JDict _ => true
  end.

(** [obj.get(key, default)]: only a dict has the method. *)
Definition py_get (obj : json) (key : str) (default : json) : outcome json :=
  match obj with
  | JDict d =>
      Return (match dict_get key d with Some v => v | None => default end)
  | _ => Raise AttributeError
  end.

(** [key in obj] for a dict. *)
Definition py_in (key : str) (obj : json) : bool :=
  match obj with
  | JDict d => mem_key key d
  | _ => false
  end.

(** [v == text] *)
Definition is_str (v : json) (text : str) : bool :=
  match v with
  | JStr s => str_eqb s text
  | _ => false
  end.

(** [l.extend(it)]: the items of a list, the keys of a dict, the characters
    of a string; nothing else is iterable. *)
Definition py_extend (l : list json) (it : json) : outcome (list json) :=
  match it with
  | JList x => Return (l ++ x)
  | JDict d => Return (l ++ map (fun kv => JStr (fst kv)) d)
  | JStr s => Return (l ++ map (fun c => JStr [c]) s)
  | _ => Raise TypeError
  end.

Definition s_publish : str := Eval vm_compute in lit "textDocument/publishDiagnostics".
Definition s_method : str := Eval vm_compute in lit "method".
Definition s_params : str := Eval vm_compute in lit "params".
Definition s_diagnostics : str := Eval vm_compute in lit "diagnostics".
Definition s_result : str := Eval vm_compute in lit "result".

(** [diagnostics.extend(resp.get("params", {}).get("diagnostics", []))] *)
Definition extend_from (resp : json) (diagnostics : list json) : outcome (list json) :=
  obind (py_get resp s_params (JDict [])) (fun params =>
  obind (py_get params s_diagnostics (JList [])) (fun found =>
  py_extend diagnostics found)).

(* ----------------------------------------------------------------- *)
(** *** [lint_file] *)

(** The local variables of [lint_file] that its loop updates. *)
Record session : Type := mkSession {
  diagnostics : list json;
  initialized : bool;
  file_opened : bool }.

(** Lines 72-77: what the loop does with the result of a poll. *)
Definition on_response (proc : nat) (resp : option json) (st : session) : M session :=
  match resp with
  | None => ret st
  | Some r =>
      if truthy r then
        m <- lift (py_get r s_method JNull) ;;
        if is_str m s_publish then
          ds <- lift (extend_from r (diagnostics st)) ;;
          ret (mkSession ds (initialized st) (file_opened st))
        else if py_in s_result r && negb (initialized st) then
          send_notification proc (lit "initialized") (JDict []) ;;;
          ret (mkSession (diagnostics st) true (file_opened st))
        else ret st
      else ret st
  end.

Definition did_open_params (abs_path text : str) : json :=
  JDict [(lit "textDocument",
          JDict [(lit "uri", JStr (lit "file://" ++ abs_path));
                 (lit "languageId", JStr (lit "cpp"));
                 (lit "version", JInt 1);
                 (lit "text", JStr text)])].

(** Lines 79-90. *)
Definition open_document (proc : nat) (abs_path : str) (st : session) : M session :=
  if initialized st && negb (file_opened st) then
    text <- open_read abs_path ;;
    send_notification proc (lit "textDocument/didOpen") (did_open_params abs_path text) ;;;
    ret (mkSession (diagnostics st) (initialized st) true)
  else ret st.

(** Lines 94-96: the loop that drains what follows the first diagnostics. *)
Fixpoint settle (fuel : nat) (proc : nat) (diags : list json) : M (list json) :=
  match fuel with
  | O => unmodelled
  | S f =>
      resp <- read_response proc 100 ;;
      match resp with
      | None => ret diags
      | Some r =>
          if truthy r then
            m <- lift (py_get r s_method JNull) ;;
            ds <- (if is_str m s_publish then lift (extend_from r diags) else ret diags) ;;
            settle f proc ds
          else ret diags
      end
  end.

Definition nonempty {A} (l : list A) : bool :=
  match l with [] => false | _ :: _ => true end.

(** Lines 69-97. *)
Fixpoint lint_loop (fuel : nat) (proc : nat) (abs_path : str) (start : Z)
    (st : session) : M (list json) :=
  match fuel with
  | O => unmodelled
  | S f =>
      t <- time ;;
      if (t - start <? 5000)%Z then
        resp <- read_response proc 100 ;;
        st1 <- on_response proc resp st ;;
        st2 <- open_document proc abs_path st1 ;;
        if file_opened st2 && nonempty (diagnostics st2) then
          sleep 200 ;;;
          settle f proc (diagnostics st2)
        else lint_loop f proc abs_path start st2
      else ret (diagnostics st)
  end.

Definition initialize_params (pid : Z) (root_dir : str) : json :=
  JDict [(lit "processId", JInt pid);
         (lit "rootUri", JStr (lit "file://" ++ root_dir));
         (lit "capabilities", JDict [])].

Definition lint_file (fuel : nat) (filepath root_dir : str) : M (list json) :=
  proc <- Popen ;;
  abs_path <- (fun w => Some (Return (resolve w root_dir filepath), w)) ;;
  pid <- (fun w => Some (Return (getpid w), w)) ;;
  send_request proc (lit "initialize") (initialize_params pid root_dir) (JInt 1) ;;;
  start <- time ;;
  diags <- lint_loop fuel proc abs_path start (mkSession [] false false) ;;
  terminate proc ;;;
  wait proc ;;;
  ret diags.

(* ----------------------------------------------------------------- *)
(** *** [main] *)

(** [v <= 2] *)
Definition le_2 (v : json) : outcome bool :=
  match v with
  | JInt z => Return (z <=? 2)%Z
  | JBool _ => Return true
  | _ => Raise TypeError
  end.

(** [v + 1] *)
Definition plus_1 (v : json) : outcome Z :=
  match v with
  | JInt z => Return (z + 1)%Z
  | JBool b => Return (if b then 2 else 1)%Z
  | _ => Raise TypeError
  end.

(** [str(v)], as an f-string prints a value.  The text of a list or of a
    dict needs [repr] and is left out of the model. *)
Definition py_str (v : json) : option str :=
  match v with
  | JNull => Some (lit "None")
  | JBool true => Some (lit "True")
  | JBool false => Some (lit "False")
  | JInt z => Some (str_of_Z z)
  | JStr s => Some s
  | JList _ | JDict _ => None
  end.

Definition s_severity : str := Eval vm_compute in lit "severity".
Definition s_range : str := Eval vm_compute in lit "range".
Definition s_start : str := Eval vm_compute in lit "start".
Definition s_line : str := Eval vm_compute in lit "line".
Definition s_character : str := Eval vm_compute in lit "character".
Definition s_message : str := Eval vm_compute in lit "message".
Definition s_code : str := Eval vm_compute in lit "code".

(** [d.get("severity", 1) <= 2] *)
Definition qualifies (d : json) : outcome bool :=
  obind (py_get d s_severity (JInt 1)) le_2.

(** [d.get("range", {}).get("start", {}).get(field, 0) + 1] *)
Definition start_plus_1 (d : json) (field : str) : outcome Z :=
  obind (py_get d s_range (JDict [])) (fun r =>
  obind (py_get r s_start (JDict [])) (fun s =>
  obind (py_get s field (JInt 0)) plus_1)).

(** [f"{filepath}:{line}:{col}: warning: {msg} [{code}]"] *)
Definition warning_line (filepath : str) (line col : Z) (msg code : str) : str :=
  filepath ++ 58 :: str_of_Z line ++ 58 :: str_of_Z col
    ++ lit ": warning: " ++ msg ++ 32 :: 91 :: code ++ [93].

(** [print(text)]: standard output is taken to encode as UTF-8 with the
    strict error handler, so a text that holds a surrogate code point
    cannot be written and raises [UnicodeEncodeError]. *)
Definition py_print (text : str) : outcome str :=
  match utf8_encode text with
  | Some _ => Return text
  | None => Raise UnicodeEncodeError
  end.

(** Lines 122-128 for one diagnostic: the line printed, if any. *)
Definition report_one (filepath : str) (d : json) : option (outcome (option str)) :=
  match qualifies d with
  | Raise e => Some (Raise e)
  | Return false => Some (Return None)
  | Return true =>
      match start_plus_1 d s_line with
      | Raise e => Some (Raise e)
      | Return line =>
          match start_plus_1 d s_character with
          | Raise e => Some (Raise e)
          | Return col =>
              match obind (py_get d s_message (JStr [])) (fun msg =>
                    obind (py_get d s_code (JStr [])) (fun code =>
                    Return (msg, code))) with
              | Raise e => Some (Raise e)
              | Return (msg, code) =>
                  match py_str msg, py_str code with
                  | Some m, Some c =>
                      match py_print (warning_line filepath line col m c) with
                      | Return printed => Some (Return (Some printed))
                      | Raise e => Some (Raise e)
                      end
                  | _, _ => None
                  end
              end
          end
      end
  end.

(** The inner loop of [main] (lines 121-128): the result is the number
    added to [total_warnings]; the lines are what was printed, also when an
    exception ends the loop. *)
Fixpoint report (filepath : str) (diags : list json) : option (outcome Z * list str) :=
  match diags with
  | [] => Some (Return 0%Z, [])
  | d :: rest =>
      match report_one filepath d with
      | None => None
      | Some (Raise e) => Some (Raise e, [])
      | Some (Return printed) =>
          match report filepath rest with
          | None => None
          | Some (r, lines) =>
              match printed with
              | Some l => Some (obind r (fun n => Return (n + 1)%Z), l :: lines)
              | None => Some (r, lines)
              end
          end
      end
  end.

(** The outer loop of [main] (lines 119-128): [total_warnings] at the end,
    the lines printed, the world left behind. *)
Fixpoint main_loop (fuel : nat) (todo : list str) (root_dir : str) (total : Z)
    (w : world) : option (outcome Z * list str * world) :=
  match todo with
  | [] => Some (Return total, [], w)
  | filepath :: rest =>
      match lint_file fuel filepath root_dir w with
      | None => None
      | Some (Raise e, w1) => Some (Raise e, [], w1)
      | Some (Return diags, w1) =>
          match report filepath diags with
          | None => None
          | Some (Raise e, lines) => Some (Raise e, lines, w1)
          | Some (Return n, lines) =>
              match main_loop fuel rest root_dir (total + n)%Z w1 with
              | None => None
              | Some (r, lines', w2) => Some (r, lines ++ lines', w2)
              end
          end
      end
  end.

Definition rule : str := repeat 61 40.

(** Lines 107-110: the files named on the command line, or else the
    sources found under [src]. *)
Definition files_of (argv : list str) (w : world) : list str :=
  if (1 <? List.length argv)%nat then tl argv else glob_cpp w.

(** [print(f"Checking {len(files)} file(s) with clangd...")] *)
Definition heading (todo : list str) : str :=
  lit "Checking " ++ str_of_N (N.of_nat (List.length todo))
    ++ lit " file(s) with clangd...".

(** The three [print] calls that end a batch (lines 130-132). *)
Definition summary (total : Z) : list str :=
  [10 :: rule; lit "clangd lint: " ++ str_of_Z total ++ lit " warning(s)"; rule].

(** [main()]: the value it returns (the exit status of the script) or the
    exception that ends it, the texts given to [print] in order, the world
    left behind.  [argv] is [sys.argv]. *)
Definition main (fuel : nat) (argv : list str) (w : world)
  : option (outcome Z * list str * world) :=
  let root_dir := getcwd w in
  let todo := files_of argv w in
  match todo with
  | [] => Some (Return 0%Z, [lit "No files to check"], w)
  | _ :: _ =>
      match main_loop fuel todo root_dir 0 w with
      | None => None
      | Some (Raise e, lines, w') => Some (Raise e, heading todo :: lines, w')
      | Some (Return total, lines, w') =>
          Some (Return (if (total =? 0)%Z then 0 else 1)%Z,
                heading todo :: lines ++ summary total,
                w')
      end
  end.

(* ================================================================= *)
(** ** Notions used to state the properties *)

(** The test of line 122, read as a predicate: a diagnostic that counts. *)
Definition error_or_warning (d : json) : bool :=
  match qualifies d with
  | Return true => true
  | _ => false
  end.

(** The sessions of a batch, one after the other, without the reporting in
    between: the diagnostics each file's session returns. *)
Fixpoint collect (fuel : nat) (todo : list str) (root_dir : str) (w : world)
  : option (outcome (list (list json)) * world) :=
  match todo with
  | [] => Some (Return [], w)
  | filepath :: rest =>
      match lint_file fuel filepath root_dir w with
      | None => None
      | Some (Raise e, w1) => Some (Raise e, w1)
      | Some (Return diags, w1) =>
          match collect fuel rest root_dir w1 with
          | None => None
          | Some (Raise e, w2) => Some (Raise e, w2)
          | Some (Return dss, w2) => Some (Return (diags :: dss), w2)
          end
      end
  end.

(** The number [main] adds up over a batch. *)
Definition batch_total (dss : list (list json)) : Z :=
  Z.of_nat (List.length (filter error_or_warning (List.concat dss))).

(** A field of a diagnostic as the server sent it. *)
Definition field (d : json) (key : str) : option json :=
  match d with
  | JDict kv => dict_get key kv
  | _ => None
  end.

(** The zero-based position the server sent: [range.start.<key>]. *)
Definition received_position (d : json) (key : str) : option json :=
  match field d s_range with
  | Some r =>
      match field r s_start with
      | Some s => field s key
      | None => None
      end
  | None => None
  end.

(** The zero-based line or character a diagnostic carries. *)
Definition zero_based (d : json) (key : str) : Z :=
  match received_position d key with
  | Some (JInt z) => z
  | _ => 0%Z
  end.












(** What the inner loop of [main] prints for the diagnostics of a file. *)
Definition printed_by (filepath : str) (ds : list json) : list str :=
  match report filepath ds with
  | Some (_, lines) => lines
  | None => []
  end.

(** A Unicode scalar value: a code point that is not a surrogate.  These
    are the characters of the texts that can be encoded at all. *)
Definition valid_char (c : N) : bool :=
  (c <? 55296) || ((57343 <? c) && (c <? 1114112)).

Definition valid_str (s : str) : bool := forallb valid_char s.


(** A valid message: its texts are made of scalar values and the keys of
    each of its dictionaries are distinct. *)
Fixpoint valid_json (v : json) : bool :=
  match v with
  | JNull | JBool _ | JInt _ => true
  | JStr s => valid_str s
  | JList l => forallb valid_json l
  | JDict d =>
      distinct_keys d
      && forallb (fun kv => valid_str (fst kv) && valid_json (snd kv)) d
  end.

(** The fuel the recursive descent needs to read a value back. *)
Fixpoint weight (v : json) : nat :=
  match v with
  | JList l => S (fold_right (fun x n => S (weight x + n)) O l)
  | JDict d => S (fold_right (fun kv n => S (weight (snd kv) + n)) O d)
  | _ => 1
  end.

Definition elems_weight (l : list json) : nat :=
  fold_right (fun x n => S (weight x + n)) O l.

Definition members_weight (d : list (str * json)) : nat :=
  fold_right (fun kv n => S (weight (snd kv) + n)) O d.

(** What may follow a number in a text without changing how it reads. *)
Definition number_end (rest : str) : bool :=
  match rest with
  | [] => true
  | c :: _ => negb (is_digit c || (c =? 46) || (c =? 101) || (c =? 69))
  end.

(** The text that follows the first element of a printed list: the other
    elements, each after its separator, then the closing bracket and
    [rest]. *)
Fixpoint elems_tail (l : list json) (rest : str) : str :=
  match l with
  | [] => 93 :: rest
  | v :: l' => 44 :: 32 :: json_dumps v ++ elems_tail l' rest
  end.

(** A printed dictionary entry after its opening quote, followed by
    [tail]. *)
Definition entry_text (kv : str * json) (tail : str) : str :=
  flat_map escape_char (fst kv) ++ 34 :: 58 :: 32 :: json_dumps (snd kv) ++ tail.

(** The text that follows the first entry of a printed dictionary. *)
Fixpoint members_tail (d : list (str * json)) (rest : str) : str :=
  match d with
  | [] => 125 :: rest
  | kv :: d' => 44 :: 32 :: 34 :: entry_text kv (members_tail d' rest)
  end.

(** The characters a printed value can start with. *)
Definition token_start (c : N) : bool :=
  is_digit c || (c =? 45) || (c =? 34) || (c =? 91) || (c =? 123)
  || (c =? 110) || (c =? 116) || (c =? 102).

(** A visible ASCII character: anything from [!] to [~]. *)
Definition visible (c : N) : bool := (33 <=? c) && (c <=? 126).

(** A header line as a peer writes it: printable ASCII that neither starts
    nor ends with a space. *)
Definition header_line (line : str) : Prop :=
  Forall (fun c => 32 <= c <= 126) line
  /\ (exists c t, line = c :: t /\ visible c = true)
  /\ (exists c t, rev line = c :: t /\ visible c = true).

(** The bytes of an ASCII text. *)
Definition ascii_bytes (s : str) : bytes := map byte_of_N s.

(** A silent child: every poll of its output times out, at most [eps]
    milliseconds late. *)
Definition silent_script (eps : Z) (s : list chunk) : Prop :=
  Forall (fun c => match c with
                   | Idle extra => (Z.of_N extra <= eps)%Z
                   | Ready _ => False
                   end) s.

(** An invariant of a computation: whatever its result, a world that
    satisfies [I] before satisfies it after. *)
Definition preserves {A} (I : world -> Prop) (c : M A) : Prop :=
  forall w r w', I w -> c w = Some (r, w') -> I w'.

(** The child [p] is running: it was neither signalled nor waited for. *)
Definition running (p : nat) (w : world) : Prop :=
  exists pr, nth_error (procs w) p = Some pr
             /\ terminated pr = false /\ reaped pr = false.

(** The child [p] was terminated and reaped. *)
Definition reaped_child (p : nat) (w : world) : Prop :=
  exists pr, nth_error (procs w) p = Some pr
             /\ terminated pr = true /\ reaped pr = true.


(** A server that sends no message with a [result] member: whatever it
    writes is the frame of a valid message without one (a notification). *)
Definition quiet_script (s : list chunk) : Prop :=
  Forall (fun c => match c with
                   | Idle _ => True
                   | Ready data =>
                       exists m, data = ascii_bytes (content_of (json_dumps m))
                                 /\ valid_json m = true
                                 /\ py_in s_result m = false
                   end) s.

(** The child [p] has been sent [sent] and nothing else, its pipe is
    drained and what it will still write is quiet. *)
Definition quiet_at (p : nat) (sent : list bytes) (w : world) : Prop :=
  exists pr, nth_error (procs w) p = Some pr
             /\ written pr = sent /\ buffer pr = [] /\ quiet_script (script pr).

(** The child [p] is at the point of its script where [todo] is left, its
    pipe is drained, and its standard input takes writes. *)
Definition child_at (p : nat) (todo : list chunk) (w : world) : Prop :=
  exists pr, nth_error (procs w) p = Some pr
             /\ script pr = todo /\ buffer pr = [] /\ stdin_ok pr = true.

(** What was written so far to the child [p]. *)
Definition written_to (p : nat) (w : world) : list bytes :=
  match nth_error (procs w) p with
  | Some pr => written pr
  | None => []
  end.

(* ================================================================= *)
(** ** Sample data

    A small world to run the script in: one source file [/r/a.cpp], the
    working directory [/r], and servers that answer as scripted. *)

(** The bytes a server puts on its output to send [v]. *)
Definition frame_bytes (v : json) : bytes :=
  match utf8_encode (content_of (json_dumps v)) with
  | Some data => data
  | None => []
  end.

Definition sample_world (launches : list (option launch)) : world :=
  mkWorld 1000%Z launches []
    (fun path => if str_eqb path (lit "/r/a.cpp") then Some (lit "int x;") else None)
    (fun root name => root ++ 47 :: name)
    42%Z (lit "/r") [] (fun _ => 0).

Definition sample_diagnostic (severity : option Z) (line : Z) (msg : str) : json :=
  JDict ((lit "range",
          JDict [(lit "start", JDict [(lit "line", JInt line); (lit "character", JInt 2)])])
         :: match severity with
            | Some s => [(lit "severity", JInt s)]
            | None => []
            end
         ++ [(lit "message", JStr msg); (lit "code", JStr (lit "misc-unused"))]).

(** A [publishDiagnostics] notification for the document [uri]. *)
Definition publish_message (uri : str) (ds : list json) : json :=
  notification_message s_publish
    (JDict [(lit "uri", JStr uri); (lit "diagnostics", JList ds)]).

(** The response to the request numbered [id]. *)
Definition response_message (id : Z) : json :=
  JDict [(lit "jsonrpc", JStr (lit "2.0")); (lit "id", JInt id);
         (lit "result", JDict [(lit "capabilities", JDict [])])].

(** A server that answers the handshake and then publishes [ds] for
    [/r/a.cpp]. *)
Definition sample_server (ds : list json) : launch :=
  mkLaunch true
    [Idle 0; Ready (frame_bytes (response_message 1)); Idle 3;
     Ready (frame_bytes (publish_message (lit "file:///r/a.cpp") ds))].

(** What arrives when a server publishes the diagnostics [snd ud] for the
    document [fst ud]. *)
Definition publication (ud : str * list json) : chunk :=
  Ready (frame_bytes (publish_message (fst ud) (snd ud))).

(** What a server sends once the document is open: the publication of
    diagnostics for some document, or a message of another kind. *)
Inductive inbound : Type :=
| Publication (uri : str) (ds : list json)
| Another (m : json).

Definition message_of (i : inbound) : json :=
  match i with
  | Publication uri ds => publish_message uri ds
  | Another m => m
  end.

(** The diagnostics a message publishes. *)
Definition published (i : inbound) : list json :=
  match i with
  | Publication _ ds => ds
  | Another _ => []
  end.

(** A message the reader gets back as it was sent, and, where it is of
    another kind, a non-empty object whose method is not the one of
    publications. *)
Definition wellformed (i : inbound) : Prop :=
  match i with
  | Publication uri ds => valid_str uri = true /\ forallb valid_json ds = true
  | Another m =>
      valid_json m = true
      /\ exists kv, m = JDict kv /\ kv <> []
           /\ is_str (match dict_get s_method kv with Some v => v | None => JNull end)
                     s_publish = false
  end.

(** The arrival of a message. *)
Definition arrival (i : inbound) : chunk := Ready (frame_bytes (message_of i)).

(** The end of what a session reads in its draining loop: the script is
    over, or a poll finds nothing. *)
Definition pause (tail : list chunk) : Prop :=
  match tail with
  | Ready _ :: _ => False
  | _ => True
  end.

(** A server that never writes anything. *)
Definition silent_server : launch := mkLaunch true [Idle 0; Idle 7; Idle 2].

(** A server that never writes anything and whose standard input is
    closed. *)
Definition deaf_server : launch := mkLaunch false [Idle 0; Idle 7; Idle 2].

(** The sample world with children that take [ms] milliseconds to exit
    once they are signalled. *)
Definition lingering_world (ms : N) (launches : list (option launch)) : world :=
  set_exit_delay (fun _ => ms) (sample_world launches).

(** A server that only notifies: it publishes one diagnostic and never
    answers the handshake. *)
Definition notifying_server : launch :=
  mkLaunch true
    [Ready (frame_bytes
              (publish_message (lit "file:///r/a.cpp")
                 [sample_diagnostic (Some 2%Z) 4 (lit "unused")]))].
(* ================================================================= *)
(** ** Diagnostics with missing members *)





(* ================================================================= *)
(** ** What a sender leaves behind *)

(** The outcome of sending the message [m] to the child [proc]: either
    one frame was added to what the child was sent, made of the header,
    which gives the number of bytes of the body, and of the body, which is
    the printed message and holds ASCII only; or the pipe was broken and
    nothing changed. *)
Definition one_frame_sent (proc : nat) (m : json) (w : world)
    (r : outcome unit) (w' : world) : Prop :=
  exists body,
    utf8_encode (json_dumps m) = Some body
    /\ Forall (fun b => Byte.to_N b < 128) body
    /\ ((r = Return tt
         /\ written_to proc w'
            = written_to proc w
                ++ [ascii_bytes (s_content_length ++ 58 :: 32
                                   :: str_of_N (N.of_nat (List.length body))
                                   ++ [13; 10; 13; 10])
                      ++ body])
        \/ (r = Raise BrokenPipeError /\ w' = w)).

(* ================================================================= *)
(** ** Header blocks *)

(** What lines 35-37 make of one header line. *)
Definition add_header (headers : list (str * str)) (line : str) : list (str * str) :=
  match split_colon_space line with
  | Some (key, value) => dict_set key value headers
  | None => headers
  end.

(** Lines 38-42 of [read_response], given the headers and the bytes that
    follow the header block. *)
Definition read_body (headers : list (str * str)) (rest : bytes)
  : option (outcome (option json) * bytes) :=
  match (match dict_get s_content_length headers with
         | None => Some (Return 0%Z)
         | Some value => py_int value
         end) with
  | None => None
  | Some (Raise e) => Some (Raise e, rest)
  | Some (Return length) =>
      if (length =? 0)%Z then Some (Return None, rest)
      else
        match stream_read length rest with
        | (Raise e, rest') => Some (Raise e, rest')
        | (Return raw, rest') =>
            match utf8_decode raw with
            | None => Some (Raise UnicodeDecodeError, rest')
            | Some body =>
                match json_loads body with
                | Parsed v => Some (Return (Some v), rest')
                | Invalid => Some (Raise JSONDecodeError, rest')
                | Beyond => None
                end
            end
        end
  end.

(** White space a peer may leave between the end of a line and its
    newline: blanks, tabs, carriage returns. *)
Definition padding (pad : str) : Prop :=
  Forall (fun c => c = 32 \/ c = 9 \/ c = 13) pad.

(** A header block on the wire: the lines, each with its padding and a
    newline, then a line that holds padding only. *)
Definition header_block (lines : list (str * str)) (last : str) : str :=
  flat_map (fun lp => fst lp ++ snd lp ++ [10]) lines ++ last ++ [10].

(** The header block as the protocol has it: every line ends in a carriage
    return and a newline. *)
Definition crlf_block (lines : list str) : str :=
  header_block (map (fun l => (l, [13])) lines) [13].

(** The header line that announces a body of [n] bytes. *)
Definition length_line (n : nat) : str :=
  s_content_length ++ 58 :: 32 :: str_of_N (N.of_nat n).

(* ================================================================= *)
(** ** What a session sends *)

(** The three messages of a session, as they go over the pipe. *)
Definition initialize_frame (pid : Z) (root_dir : str) : bytes :=
  frame_bytes (request_message (lit "initialize") (initialize_params pid root_dir) (JInt 1)).

Definition initialized_frame : bytes :=
  frame_bytes (notification_message (lit "initialized") (JDict [])).

Definition did_open_frame (abs_path text : str) : bytes :=
  frame_bytes (notification_message (lit "textDocument/didOpen")
                 (did_open_params abs_path text)).

(** The loop of [lint_file] at the start of an iteration, for the child
    [p] that was sent [first] and the file [path] of the file system [fs]:
    the session either is not initialized and the child was sent nothing
    more, or is initialized, has opened the document and the child was
    sent [initialized] and [didOpen] with the text of the file. *)
Definition at_head (p : nat) (first : bytes) (path : str) (fs : str -> option str)
    (st : session) (w : world) : Prop :=
  initialized st = file_opened st
  /\ files w = fs
  /\ if file_opened st
     then exists text,
            fs path = Some text
            /\ written_to p w = [first; initialized_frame; did_open_frame path text]
     else written_to p w = [first].

(** What the child [p] was sent when a session ends with [r]: the first
    message only; or, when the session ends by an exception, the first
    message and [initialized]; or these two and [didOpen] with the text of
    the file. *)
Definition sent_in_order (p : nat) (first : bytes) (path : str) (fs : str -> option str)
    (r : outcome (list json)) (w : world) : Prop :=
  written_to p w = [first]
  \/ ((exists e, r = Raise e) /\ written_to p w = [first; initialized_frame])
  \/ (exists text,
        fs path = Some text
        /\ written_to p w = [first; initialized_frame; did_open_frame path text]).

(* ================================================================= *)
(** ** The children of a batch *)

(** The processes are [ps] and one child more, and the launches still to
    come are [pend]. *)
Definition framed (ps : list process) (pend : list (option launch)) (w : world) : Prop :=
  pending w = pend /\ exists pr, procs w = ps ++ [pr].

(* ================================================================= *)
(** * [add_newlines.py] *)

(** The regular files of a file system: the bytes that each path holds. *)
Definition disk : Type := str -> option bytes.

(** The file system after the file [path] was given the content [data]. *)
Definition disk_set (path : str) (data : bytes) (fs : disk) : disk :=
  fun q => if str_eqb q path then Some data else fs q.

(** What reading a text file with the default [newline=None] makes of the
    line ends: a carriage return followed by a newline becomes a newline,
    and so does a carriage return alone. *)
Fixpoint universal_newlines (s : str) : str :=
  match s with
  | [] => []
  | c :: t =>
      if c =? 13 then
        10 :: match t with
              | d :: t' => if d =? 10 then universal_newlines t' else universal_newlines t
              | [] => []
              end
      else c :: universal_newlines t
  end.

(** [with open(path, 'r', encoding='utf-8') as f: content = f.read()] *)
Definition read_text (fs : disk) (path : str) : outcome str :=
  match fs path with
  | None => Raise FileNotFoundError
  | Some raw =>
      match utf8_decode raw with
      | None => Raise UnicodeDecodeError
      | Some text => Return (universal_newlines text)
      end
  end.

(** [s.endswith(suffix)] *)
Definition py_endswith (s suffix : str) : bool :=
  match strip_prefix (rev suffix) (rev s) with
  | Some _ => true
  | None => false
  end.

(** [add_newline_if_missing(filepath)]: the result, the lines printed and
    the file system left behind.  [linesep] is what a text file opened for
    writing puts for a newline, the bytes of [os.linesep]. *)
Definition add_newline_if_missing (linesep : bytes) (filepath : str) (fs : disk)
  : outcome unit * list str * disk :=
  match read_text fs filepath with
  | Raise e => (Raise e, [], fs)
  | Return content =>
      if negb (py_endswith content [10]) then
        (Return tt, [lit "Adding newline to: " ++ filepath],
         match fs filepath with
         | Some raw => disk_set filepath (raw ++ linesep) fs
         | None => fs
         end)
      else (Return tt, [lit "Newline already present: " ++ filepath], fs)
  end.

(** [os.path.join(a, b)] of [posixpath]. *)
Definition os_path_join (a b : str) : str :=
  match strip_prefix [47] b with
  | Some _ => b
  | None =>
      if match a with [] => true | _ :: _ => py_endswith a [47] end then a ++ b
      else a ++ 47 :: b
  end.

(** The inner loop of [process_directory] (lines 17-20) for the files of
    one directory. *)
Fixpoint process_files (linesep : bytes) (root : str) (names : list str) (fs : disk)
  : outcome unit * list str * disk :=
  match names with
  | [] => (Return tt, [], fs)
  | file :: rest =>
      if py_endswith file (lit ".cpp") || py_endswith file (lit ".h") then
        match add_newline_if_missing linesep (os_path_join root file) fs with
        | (Raise e, out, fs1) => (Raise e, out, fs1)
        | (Return _, out, fs1) =>
            match process_files linesep root rest fs1 with
            | (r, out', fs2) => (r, out ++ out', fs2)
            end
        end
      else process_files linesep root rest fs
  end.

(** The outer loop of [process_directory] over what [os.walk] yields: the
    directories with the names of their files. *)
Fixpoint process_walk (linesep : bytes) (walked : list (str * list str)) (fs : disk)
  : outcome unit * list str * disk :=
  match walked with
  | [] => (Return tt, [], fs)
  | (root, names) :: rest =>
      match process_files linesep root names fs with
      | (Raise e, out, fs1) => (Raise e, out, fs1)
      | (Return _, out, fs1) =>
          match process_walk linesep rest fs1 with
          | (r, out', fs2) => (r, out ++ out', fs2)
          end
      end
  end.

(** [process_directory(directory)]; [walk] is [os.walk]. *)
Definition process_directory (linesep : bytes) (walk : str -> list (str * list str))
    (directory : str) (fs : disk) : outcome unit * list str * disk :=
  process_walk linesep (walk directory) fs.

(** A small source tree: a file without a final newline, a header that
    ends in a carriage return and a newline, and a file that is no
    source. *)
Definition sample_disk : disk := fun q =>
  if str_eqb q (lit "/p/src/a.cpp") then Some (ascii_bytes (lit "int x;"))
  else if str_eqb q (lit "/p/src/b.h") then Some (ascii_bytes (lit "int y;" ++ [13; 10]))
  else if str_eqb q (lit "/p/src/notes.txt") then Some (ascii_bytes (lit "todo"))
  else None.

Definition sample_walk (directory : str) : list (str * list str) :=
  if str_eqb directory (lit "/p/src")
  then [(lit "/p/src", [lit "a.cpp"; lit "b.h"; lit "notes.txt"])]
  else [].

(* ================================================================= *)
(** * [fix_lint_issues.py] *)

(** [s.split('\n')] *)
Fixpoint split_lines (s : str) : list str :=
  match s with
  | [] => [[]]
  | c :: t =>
      if c =? 10 then [] :: split_lines t
      else match split_lines t with
           | l :: ls => (c :: l) :: ls
           | [] => [[c]]
           end
  end.

(** [line.rstrip()] *)
Definition py_rstrip (s : str) : str := rev (lstrip py_isspace (rev s)).

(** The lines from the last one backwards, without the leading empty
    ones. *)
Fixpoint drop_empty (lines : list str) : list str :=
  match lines with
  | [] :: rest => drop_empty rest
  | _ => lines
  end.

(** [while lines and lines[-1] == '': lines.pop()] *)
Definition pop_empty_lines (lines : list str) : list str :=
  rev (drop_empty (rev lines)).

(** ['\n'.join(lines)] *)
Fixpoint join_lines (lines : list str) : str :=
  match lines with
  | [] => []
  | l :: rest =>
      match rest with
      | [] => l
      | _ :: _ => l ++ 10 :: join_lines rest
      end
  end.

(** [re.sub(pattern, repl, s)] for a pattern and a replacement that hold
    no special character: from left to right, every occurrence of the
    pattern that does not overlap an earlier one is replaced. *)
Fixpoint sub_literal (fuel : nat) (pattern repl s : str) : str :=
  match fuel with
  | O => s
  | S f =>
      match strip_prefix pattern s with
      | Some rest => repl ++ sub_literal f pattern repl rest
      | None =>
          match s with
          | c :: t => c :: sub_literal f pattern repl t
          | [] => []
          end
      end
  end.

Definition s_comment : str := Eval vm_compute in lit " // ".

(** A match of [([^ ]) // ([^/])] at the start of [s]: the characters the
    two groups take and what follows the match. *)
Definition match_comment (s : str) : option (N * N * str) :=
  match s with
  | c :: t =>
      if c =? 32 then None
      else
        match strip_prefix s_comment t with
        | Some (d :: rest) => if d =? 47 then None else Some (c, d, rest)
        | _ => None
        end
  | [] => None
  end.

(** [re.sub(r'([^ ]) // ([^/])', r'\1  // \2', s)] *)
Fixpoint sub_comment (fuel : nat) (s : str) : str :=
  match fuel with
  | O => s
  | S f =>
      match match_comment s with
      | Some (c, d, rest) => c :: 32 :: s_comment ++ d :: sub_comment f rest
      | None =>
          match s with
          | c :: t => c :: sub_comment f t
          | [] => []
          end
      end
  end.

(** Lines 24-42 of [fix_file]: the text it wants the file to hold. *)
Definition fixed_content (content : str) : str :=
  let lines := split_lines content in
  let lines := map py_rstrip lines in
  let lines := pop_empty_lines lines in
  let content := join_lines lines ++ [10] in
  let content :=
    sub_literal (S (List.length content)) (lit "// TODO:") (lit "// TODO(dev):") content in
  let content :=
    sub_literal (S (List.length content)) (lit "} // namespace") (lit "}  // namespace")
      content in
  sub_comment (S (List.length content)) content.

(** What writing a text to a file opened with [encoding='utf-8'] puts in
    it: every newline becomes [linesep], every other character its UTF-8
    bytes; [None] is [UnicodeEncodeError]. *)
Fixpoint encode_text (linesep : bytes) (s : str) : option bytes :=
  match s with
  | [] => Some []
  | c :: t =>
      match (if c =? 10 then Some linesep else utf8_encode_char c),
            encode_text linesep t with
      | Some b, Some bs => Some (b ++ bs)
      | _, _ => None
      end
  end.

(** What [fix_file] prints. *)
Inductive fix_message : Type :=
| Fixed (file_path : str)
| ErrorProcessing (file_path : str) (e : exception).

(** [fix_file(file_path)]: the value returned, what was printed and the
    file system left behind.  Opening the file for writing empties it
    before anything is written. *)
Definition fix_file (linesep : bytes) (file_path : str) (fs : disk)
  : bool * list fix_message * disk :=
  match read_text fs file_path with
  | Raise e => (false, [ErrorProcessing file_path e], fs)
  | Return content =>
      let original_content := content in
      let content := fixed_content content in
      if negb (str_eqb content original_content) then
        match encode_text linesep content with
        | Some data => (true, [Fixed file_path], disk_set file_path data fs)
        | None =>
            (false, [ErrorProcessing file_path UnicodeEncodeError],
             disk_set file_path [] fs)
        end
      else (false, [], fs)
  end.

(** [s'] is [s] with texts that hold no newline put in before characters
    that are no newline. *)
Inductive inserted : str -> str -> Prop :=
| inserted_nil : inserted [] []
| inserted_keep c s s' : inserted s s' -> inserted (c :: s) (c :: s')
| inserted_before ins d s s' :
    inserted (d :: s) (d :: s') -> d <> 10 -> ~ In 10 ins ->
    inserted (d :: s) (ins ++ d :: s').

(** Two lines that are both empty or end with the same character. *)
Definition same_end (l l' : str) : Prop :=
  (l = [] /\ l' = []) \/ exists a a' c, l = a ++ [c] /\ l' = a' ++ [c].

(** A text with every newline replaced by the text [sep]. *)
Definition expand_newlines (sep : str) (s : str) : str :=
  flat_map (fun c => if c =? 10 then sep else [c]) s.

(* ================================================================= *)
(** * [increment_version.py] *)

Definition VERSION_FILE : str := Eval vm_compute in lit "VERSION".
Definition MANIFEST_FILE : str := Eval vm_compute in lit "chip_carving_paths_cpp.manifest".

(** The files of the working directory as texts: what [f.read()] gives
    for a file opened with [open(path, 'r')], which is also what
    [f.write] has put into a file opened with [open(path, 'w')]. *)
Definition texts : Type := str -> option str.

Definition texts_set (path text : str) (fs : texts) : texts :=
  fun q => if str_eqb q path then Some text else fs q.

(** [\d+] at the start of [s]: the digits it takes and what follows them,
    or nothing when [s] does not start with a digit.  [None]: the run of
    ASCII digits is followed by a character from U+0080 on, which only
    the Unicode tables can tell from a decimal digit. *)
Definition digit_run (s : str) : option (option (str * str)) :=
  let (ds, rest) := span_digits s in
  if match rest with c :: _ => 128 <=? c | [] => false end then None
  else
    match ds with
    | [] => Some None
    | _ :: _ => Some (Some (ds, rest))
    end.

(** [\.] and then [\d+]. *)
Definition dot_digit_run (s : str) : option (option (str * str)) :=
  match s with
  | c :: t => if c =? 46 then digit_run t else Some None
  | [] => Some None
  end.

(** A match of [(\d+)\.(\d+)\.(\d+)] at the start of [s]: the three groups
    and what follows the match. *)
Definition match_triple (s : str) : option (option (str * str * str * str)) :=
  match digit_run s with
  | None => None
  | Some None => Some None
  | Some (Some (a, r1)) =>
      match dot_digit_run r1 with
      | None => None
      | Some None => Some None
      | Some (Some (b, r2)) =>
          match dot_digit_run r2 with
          | None => None
          | Some None => Some None
          | Some (Some (c, r3)) => Some (Some (a, b, c, r3))
          end
      end
  end.

(** The limit on the number of digits of a conversion between [int] and
    [str] ([sys.int_info.default_max_str_digits], in Python 3.11 and
    later and in the security releases of 3.7 to 3.10). *)
Definition max_str_digits : nat := 4300.

(** [int(group)] for a group of digits: [ValueError] for more digits,
    leading zeros included, than the limit. *)
Definition int_of_group (ds : str) : option (outcome Z) :=
  if (max_str_digits <? List.length ds)%nat then Some (Raise ValueError) else py_int ds.

(** An integer field of an f-string, [format(z, "")]: [ValueError] for a
    number of more digits than the limit. *)
Definition format_int (z : Z) : outcome str :=
  if (max_str_digits <? List.length (str_of_N (Z.abs_N z)))%nat then Raise ValueError
  else Return (str_of_Z z).

(** The text before the digits of a version entry of the manifest. *)
Definition version_key : str :=
  Eval vm_compute in 34 :: lit "version" ++ 34 :: 58 :: 32 :: [34].

(** A match of ["version": "\d+\.\d+\.\d+"] at the start of [s]: what
    follows the match. *)
Definition match_entry (s : str) : option (option str) :=
  match strip_prefix version_key s with
  | None => Some None
  | Some r =>
      match match_triple r with
      | None => None
      | Some None => Some None
      | Some (Some (_, _, _, r3)) =>
          match r3 with
          | c :: rest => if c =? 34 then Some (Some rest) else Some None
          | [] => Some None
          end
      end
  end.

(** [re.sub(r'"version": "\d+\.\d+\.\d+"', repl, s)] for a replacement
    without backslash. *)
Fixpoint sub_entry (fuel : nat) (repl s : str) : option str :=
  match fuel with
  | O => None
  | S f =>
      match match_entry s with
      | None => None
      | Some (Some rest) => option_map (app repl) (sub_entry f repl rest)
      | Some None =>
          match s with
          | c :: t => option_map (cons c) (sub_entry f repl t)
          | [] => Some []
          end
      end
  end.

(** [f"{major}.{minor}.{new_patch}"] *)
Definition format_version (major minor new_patch : Z) : outcome str :=
  obind (format_int major) (fun a =>
  obind (format_int minor) (fun b =>
  obind (format_int new_patch) (fun c =>
  Return (a ++ 46 :: b ++ 46 :: c)))).

(** The text [major.minor.patch], the numbers in decimal. *)
Definition version_text (major minor patch : Z) : str :=
  str_of_Z major ++ 46 :: str_of_Z minor ++ 46 :: str_of_Z patch.

(** Lines 37-51: the manifest, when there is one. *)
Definition update_manifest (new_version : str) (fs : texts)
  : option (list str * texts) :=
  match fs MANIFEST_FILE with
  | Some manifest_content =>
      match sub_entry (S (List.length manifest_content))
              (version_key ++ new_version ++ [34]) manifest_content with
      | None => None
      | Some manifest_content' =>
          Some ([lit "Updated manifest version to " ++ new_version],
                texts_set MANIFEST_FILE manifest_content' fs)
      end
  | None => Some ([], fs)
  end.

(** [increment_version()]: the value returned or the exception raised,
    the lines printed and the files left behind.  [None]: outside the
    model. *)
Definition increment_version (fs : texts) : option (outcome bool * list str * texts) :=
  match fs VERSION_FILE with
  | None => Some (Return false, [lit "Error: " ++ VERSION_FILE ++ lit " not found"], fs)
  | Some text =>
      let current_version := py_strip text in
      match match_triple current_version with
      | None => None
      | Some None =>
          match py_print (lit "Error: Invalid version format in " ++ VERSION_FILE
                            ++ lit ": " ++ current_version) with
          | Return printed => Some (Return false, [printed], fs)
          | Raise e => Some (Raise e, [], fs)
          end
      | Some (Some (a, b, c, _)) =>
          match int_of_group a, int_of_group b, int_of_group c with
          | Some (Return major), Some (Return minor), Some (Return patch) =>
              let new_patch := (patch + 1)%Z in
              match format_version major minor new_patch with
              | Raise e => Some (Raise e, [], fs)
              | Return new_version =>
                  let fs1 := texts_set VERSION_FILE new_version fs in
                  match update_manifest new_version fs1 with
                  | None => None
                  | Some (out, fs2) =>
                      Some (Return true,
                            out ++ [lit "Version incremented to " ++ new_version],
                            fs2)
                  end
              end
          | Some (Raise e), _, _ => Some (Raise e, [], fs)
          | Some (Return _), Some (Raise e), _ => Some (Raise e, [], fs)
          | Some (Return _), Some (Return _), Some (Raise e) => Some (Raise e, [], fs)
          | _, _, _ => None
          end
      end
  end.

(** A group of the pattern: one digit or more. *)
Definition digits_only (ds : str) : Prop :=
  ds <> [] /\ Forall (fun x => is_digit x = true) ds.

(** A group of digits that [int] converts: at most as many as the
    limit. *)
Definition digit_group (ds : str) : Prop :=
  ds <> [] /\ Forall (fun x => is_digit x = true) ds
  /\ (List.length ds <= max_str_digits)%nat.

(** The number after [c] is written with at most as many digits as the
    limit. *)
Definition next_within_limit (c : str) : Prop :=
  (List.length (str_of_N (digits_value c + 1)) <= max_str_digits)%nat.

(** A conversion of line 28 or 30 is beyond the limit: a group has more
    digits, or the number after the last one has. *)
Definition exceeds_limit (a b c : str) : Prop :=
  (max_str_digits < List.length a)%nat
  \/ (max_str_digits < List.length b)%nat
  \/ (max_str_digits < List.length c)%nat
  \/ (max_str_digits < List.length (str_of_N (digits_value c + 1)))%nat.

(** A text that does not go on with a digit or with a character from
    U+0080 on. *)
Definition ends_number (tail : str) : Prop :=
  match tail with
  | [] => True
  | x :: _ => is_digit x = false /\ x < 128
  end.

Definition sample_texts (version : str) (manifest : option str) : texts :=
  fun q => if str_eqb q VERSION_FILE then Some version
           else if str_eqb q MANIFEST_FILE then manifest
           else None.
(* ================================================================= *)
(** * Properties *)

Unset Implicit Arguments.

(* ================================================================= *)
(** ** Text and dictionaries *)

Lemma str_eqb_eq (a b : str) : str_eqb a b = true <-> a = b.
Proof.
  revert b; induction a as [|x a IH]; intros [|y b]; simpl; split;
    try congruence; try reflexivity.
  - intros H. apply andb_true_iff in H as [H1 H2].
    apply N.eqb_eq in H1. apply IH in H2. congruence.
  - intros H. inversion H; subst. rewrite N.eqb_refl. simpl. now apply IH.
Qed.

Lemma str_eqb_refl (a : str) : str_eqb a a = true.
Proof. now apply str_eqb_eq. Qed.

Lemma str_eqb_neq (a b : str) : str_eqb a b = false <-> a <> b.
Proof.
  split.
  - intros H E. apply str_eqb_eq in E. congruence.
  - intros H. destruct (str_eqb a b) eqn:E; [|reflexivity].
    apply str_eqb_eq in E. contradiction.
Qed.

Section DictFacts.
Context {V : Type}.
Implicit Types (d : list (str * V)) (k : str) (v : V).

Lemma dict_get_set_same k v d : dict_get k (dict_set k v d) = Some v.
Proof.
  induction d as [|[k' v'] d IH]; simpl.
  - now rewrite str_eqb_refl.
  - destruct (str_eqb k k') eqn:E; simpl; rewrite E; [reflexivity|exact IH].
Qed.

Lemma dict_get_set_other k k' v d :
  k <> k' -> dict_get k (dict_set k' v d) = dict_get k d.
Proof.
  intros N. induction d as [|[k2 v2] d IH]; simpl.
  - apply str_eqb_neq in N. now rewrite N.
  - destruct (str_eqb k' k2) eqn:E; simpl.
    + apply str_eqb_eq in E. subst k2.
      apply str_eqb_neq in N. now rewrite N.
    + now rewrite IH.
Qed.

Lemma dict_set_fresh k v d :
  dict_get k d = None -> dict_set k v d = d ++ [(k, v)].
Proof.
  induction d as [|[k' v'] d IH]; simpl; [reflexivity|].
  destruct (str_eqb k k'); [discriminate|].
  intros H. now rewrite IH.
Qed.
End DictFacts.

(* ================================================================= *)
(** ** Reporting *)

Lemma report_one_printed filepath d l :
  report_one filepath d = Some (Return (Some l)) -> error_or_warning d = true.
Proof.
  unfold report_one, error_or_warning.
  destruct (qualifies d) as [[|]|]; congruence.
Qed.

Lemma report_one_silent filepath d :
  report_one filepath d = Some (Return None) -> error_or_warning d = false.
Proof.
  unfold report_one, error_or_warning.
  destruct (qualifies d) as [[|]|]; try congruence.
  destruct (start_plus_1 d s_line); try congruence.
  destruct (start_plus_1 d s_character); try congruence.
  destruct (obind _ _) as [[m c]|]; try congruence.
  destruct (py_str m), (py_str c); try congruence.
  destruct (py_print _); congruence.
Qed.

(** What [report] returns is the number of diagnostics that count, and it
    prints one line for each. *)
Lemma report_counts filepath ds n lines :
  report filepath ds = Some (Return n, lines) ->
  n = Z.of_nat (List.length (filter error_or_warning ds))
  /\ List.length lines = List.length (filter error_or_warning ds).
Proof.
  revert n lines. induction ds as [|d ds IH]; intros n lines H; cbn [report] in H.
  - inversion H; subst. split; reflexivity.
  - cbn [filter].
    destruct (report_one filepath d) as [[[l|]|e]|] eqn:E; try discriminate.
    + apply report_one_printed in E. rewrite E.
      destruct (report filepath ds) as [[[m|e] ls]|]; try discriminate.
      cbn [obind] in H. injection H as Hn Hls. subst n lines.
      destruct (IH m ls eq_refl) as [Hm Hl]. cbn [List.length].
      split; [lia|now rewrite Hl].
    + apply report_one_silent in E. rewrite E.
      destruct (report filepath ds) as [[r ls]|]; try discriminate.
      inversion H; subst; clear H. now apply IH.
Qed.

Lemma batch_total_cons ds dss :
  batch_total (ds :: dss)
  = (Z.of_nat (List.length (filter error_or_warning ds)) + batch_total dss)%Z.
Proof.
  unfold batch_total. simpl. rewrite filter_app, length_app. lia.
Qed.

Lemma batch_total_zero dss :
  (batch_total dss =? 0)%Z = negb (existsb error_or_warning (List.concat dss)).
Proof.
  unfold batch_total. induction (List.concat dss) as [|d l IH]; [reflexivity|].
  cbn [filter existsb].
  destruct (error_or_warning d); cbn [orb negb]; [|exact IH].
  apply Z.eqb_neq. cbn [List.length]. lia.
Qed.


(** Conversely: when every session returns and every report goes through,
    so does the loop, and it prints what the reports print. *)
Lemma main_loop_runs fuel todo root total w dss w' :
  collect fuel todo root w = Some (Return dss, w') ->
  Forall2 (fun f ds => exists n ls, report f ds = Some (Return n, ls)) todo dss ->
  main_loop fuel todo root total w
  = Some (Return (total + batch_total dss)%Z,
          List.concat (map (fun fd => printed_by (fst fd) (snd fd)) (combine todo dss)),
          w').
Proof.
  revert total w dss. induction todo as [|f todo IH]; simpl; intros total w dss C F.
  - inversion C; subst. unfold batch_total; simpl. now rewrite Z.add_0_r.
  - destruct (lint_file fuel f root w) as [[[ds|e] w1]|]; try discriminate.
    destruct (collect fuel todo root w1) as [[[dss'|e] w2]|] eqn:C'; try discriminate.
    inversion C; subst; clear C.
    inversion F as [|? ? ? ? (n & ls & R) F']; subst.
    assert (Hp : printed_by f ds = ls) by (unfold printed_by; now rewrite R).
    rewrite R. rewrite (IH (total + n)%Z _ _ C' F').
    cbn [combine map List.concat fst snd]. rewrite Hp.
    rewrite batch_total_cons.
    apply report_counts in R as [-> _]. now rewrite Z.add_assoc.
Qed.

(** The whole of [main] on a batch whose sessions and reports all go
    through. *)
Lemma main_runs fuel argv w dss w' :
  collect fuel (files_of argv w) (getcwd w) w = Some (Return dss, w') ->
  Forall2 (fun f ds => exists n ls, report f ds = Some (Return n, ls))
          (files_of argv w) dss ->
  main fuel argv w
  = Some (Return (if existsb error_or_warning (List.concat dss) then 1 else 0)%Z,
          match files_of argv w with
          | [] => [lit "No files to check"]
          | todo =>
              heading todo
                :: List.concat (map (fun fd => printed_by (fst fd) (snd fd)) (combine todo dss))
                ++ summary (batch_total dss)
          end,
          w').
Proof.
  intros C F. unfold main.
  destruct (files_of argv w) as [|f todo] eqn:E.
  - simpl in C. inversion C; subst. reflexivity.
  - rewrite (main_loop_runs _ _ _ 0%Z _ _ _ C F).
    rewrite Z.add_0_l, batch_total_zero.
    now destruct (existsb error_or_warning (List.concat dss)).
Qed.


Lemma zero_based_received d key z :
  received_position d key = Some (JInt z) -> zero_based d key = z.
Proof. unfold zero_based. now intros ->. Qed.

(** *** What standard output can encode *)

Lemma utf8_encode_valid s : valid_str s = true -> exists b, utf8_encode s = Some b.
Proof.
  induction s as [|c t IH]; cbn [valid_str forallb utf8_encode]; [eauto|].
  intros H. apply andb_true_iff in H as [Hc Ht].
  destruct (IH Ht) as (bs & ->).
  assert (E : exists b, utf8_encode_char c = Some b).
  { unfold valid_char in Hc. unfold utf8_encode_char.
    destruct (c <? 128); [eauto|]. destruct (c <? 2048); [eauto|].
    destruct (N.ltb_spec c 65536).
    - destruct (N.leb_spec 55296 c); cbn [andb]; [|eauto].
      destruct (N.leb_spec c 57343); [|eauto].
      destruct (N.ltb_spec c 55296); [lia|].
      destruct (N.ltb_spec 57343 c); [lia|discriminate Hc].
    - destruct (N.ltb_spec c 1114112); [eauto|].
      destruct (N.ltb_spec c 55296); [lia|].
      rewrite andb_false_r in Hc. discriminate Hc. }
  destruct E as (b & ->). eauto.
Qed.

Lemma utf8_encode_surrogate a c b :
  55296 <= c <= 57343 -> utf8_encode (a ++ c :: b) = None.
Proof.
  intros H. induction a as [|x a IH]; cbn [app utf8_encode].
  - unfold utf8_encode_char.
    destruct (N.ltb_spec c 128); [lia|]. destruct (N.ltb_spec c 2048); [lia|].
    destruct (N.ltb_spec c 65536); [|lia].
    destruct (N.leb_spec 55296 c); [|lia]. destruct (N.leb_spec c 57343); [|lia].
    reflexivity.
  - rewrite IH. now destruct (utf8_encode_char x).
Qed.

Lemma py_print_valid s : valid_str s = true -> py_print s = Return s.
Proof. intros H. unfold py_print. now destruct (utf8_encode_valid s H) as (b & ->). Qed.

Lemma valid_str_app a b : valid_str (a ++ b) = valid_str a && valid_str b.
Proof. apply forallb_app. Qed.





(** *** Diagnostics as the protocol describes them *)


Lemma severity_above_warning d s :
  field d s_severity = Some (JInt s) -> (3 <= s)%Z -> error_or_warning d = false.
Proof.
  unfold field, error_or_warning, qualifies.
  destruct d as [| | | | |kv]; try discriminate. cbn [py_get obind].
  intros -> H. cbn [le_2]. destruct (Z.leb_spec s 2); [lia|reflexivity].
Qed.












Lemma report_one_default_severity filepath kv :
  dict_get s_severity kv = None ->
  report_one filepath (JDict kv)
  = report_one filepath (JDict (dict_set s_severity (JInt 1) kv)).
Proof.
  intros H. unfold report_one, qualifies, start_plus_1. cbn [py_get obind].
  rewrite H, dict_get_set_same.
  rewrite !dict_get_set_other by discriminate. reflexivity.
Qed.

(** C10: a collected diagnostic that has no severity field is treated as
    severity 1 (Error): it is reported and counted exactly as if it carried
    ["severity": 1], it is part of the printed total, and it makes the exit
    status 1. *)
Theorem missing_severity_counts_as_error fuel argv w dss w' kv :
  dict_get s_severity kv = None ->
  collect fuel (files_of argv w) (getcwd w) w = Some (Return dss, w') ->
  Forall2 (fun f ds => exists n ls, report f ds = Some (Return n, ls))
          (files_of argv w) dss ->
  In (JDict kv) (List.concat dss) ->
  error_or_warning (JDict kv) = true
  /\ (forall f, report_one f (JDict kv)
                = report_one f (JDict (dict_set s_severity (JInt 1) kv)))
  /\ (1 <= batch_total dss)%Z
  /\ exists body,
       main fuel argv w
       = Some (Return 1%Z,
               heading (files_of argv w) :: body ++ summary (batch_total dss),
               w').
Proof.
  intros H C F I.
  assert (Q : error_or_warning (JDict kv) = true).
  { unfold error_or_warning, qualifies. cbn [py_get obind]. now rewrite H. }
  split; [exact Q|]. split; [intros f; now apply report_one_default_severity|].
  assert (I' : In (JDict kv) (filter error_or_warning (List.concat dss))).
  { apply filter_In. now split. }
  split.
  - unfold batch_total.
    destruct (filter error_or_warning (List.concat dss)); [contradiction|].
    cbn [List.length]. lia.
  - rewrite (main_runs _ _ _ _ _ C F).
    assert (X : existsb error_or_warning (List.concat dss) = true).
    { apply existsb_exists. eauto. }
    rewrite X.
    destruct (files_of argv w) as [|f todo].
    + simpl in C. inversion C; subst. contradiction.
    + eauto.
Qed.

Lemma missing_severity_counts_as_error_witness :
  exists body w',
    main 60 [lit "clangd_lint.py"; lit "a.cpp"]
         (sample_world
            [Some (sample_server [sample_diagnostic None 4 (lit "unused")])])
    = Some (Return 1%Z,
            lit "Checking 1 file(s) with clangd..." :: body ++ summary 1,
            w').
Proof.
  edestruct (missing_severity_counts_as_error 60 [lit "clangd_lint.py"; lit "a.cpp"]
               (sample_world
                  [Some (sample_server [sample_diagnostic None 4 (lit "unused")])]))
    as (_ & _ & _ & body & R).
  - shelve.
  - vm_compute. reflexivity.
  - repeat constructor. eexists _, _. vm_compute. reflexivity.
  - left. reflexivity.
  - eexists _, _. exact R.
  Unshelve. reflexivity.
Defined.

(* ================================================================= *)
(** ** A failing session and the batch *)

(** An exception that leaves a session leaves the outer loop at once. *)
Lemma main_loop_aborts fuel done f rest root total w dss w1 e w2 :
  collect fuel done root w = Some (Return dss, w1) ->
  Forall2 (fun f ds => exists n ls, report f ds = Some (Return n, ls)) done dss ->
  lint_file fuel f root w1 = Some (Raise e, w2) ->
  main_loop fuel (done ++ f :: rest) root total w
  = Some (Raise e,
          List.concat (map (fun fd => printed_by (fst fd) (snd fd)) (combine done dss)),
          w2).
Proof.
  revert total w dss. induction done as [|g done IH]; simpl; intros total w dss C F L.
  - inversion C; subst. now rewrite L.
  - destruct (lint_file fuel g root w) as [[[ds|e'] w0]|]; try discriminate.
    destruct (collect fuel done root w0) as [[[dss'|e'] w3]|] eqn:C'; try discriminate.
    inversion C; subst; clear C.
    inversion F as [|? ? ? ? (n & ls & R) F']; subst.
    assert (Hp : printed_by g ds = ls) by (unfold printed_by; now rewrite R).
    rewrite R. rewrite (IH (total + n)%Z _ _ C' F' L).
    cbn [combine map List.concat fst snd]. now rewrite Hp.
Qed.

(** C4, as the code has it: nothing catches an exception at the session
    boundary.  When the session of one file raises, after the files before
    it went through, [main] ends with that same exception, in the world
    the failing session left: no session is started for any later file,
    and no exit status is computed. *)
Theorem session_failure_aborts_batch fuel argv w done f rest dss w1 e w2 :
  files_of argv w = done ++ f :: rest ->
  collect fuel done (getcwd w) w = Some (Return dss, w1) ->
  Forall2 (fun f ds => exists n ls, report f ds = Some (Return n, ls)) done dss ->
  lint_file fuel f (getcwd w) w1 = Some (Raise e, w2) ->
  main fuel argv w
  = Some (Raise e,
          heading (files_of argv w)
            :: List.concat (map (fun fd => printed_by (fst fd) (snd fd)) (combine done dss)),
          w2).
Proof.
  intros E C F L. unfold main. rewrite E.
  destruct (done ++ f :: rest) as [|x l] eqn:D.
  - destruct done; discriminate.
  - rewrite <- D.
    now rewrite (main_loop_aborts fuel done f rest (getcwd w) 0%Z w dss w1 e w2 C F L).
Qed.

Lemma session_failure_aborts_batch_witness :
  exists lines w2,
    main 60 [lit "clangd_lint.py"; lit "a.cpp"; lit "b.cpp"; lit "a.cpp"]
         (sample_world
            [Some (sample_server [sample_diagnostic (Some 2%Z) 4 (lit "unused")]);
             Some (sample_server []); Some (sample_server [])])
    = Some (Raise FileNotFoundError, lines, w2).
Proof.
  eexists _, _.
  eapply (session_failure_aborts_batch 60
            [lit "clangd_lint.py"; lit "a.cpp"; lit "b.cpp"; lit "a.cpp"] _
            [lit "a.cpp"] (lit "b.cpp") [lit "a.cpp"]).
  - reflexivity.
  - vm_compute. reflexivity.
  - repeat constructor. eexists _, _. vm_compute. reflexivity.
  - vm_compute. reflexivity.
Defined.

(** C4 as stated fails.  When [clangd] cannot be started for the first of
    two files, or when a server sends a body that is not JSON, the
    exception leaves [main]: there is no empty result for the bad file, and
    the launch meant for the second file is never used. *)
Lemma one_bad_file_aborts_run :
  main 60 [lit "clangd_lint.py"; lit "a.cpp"; lit "a.cpp"]
       (sample_world [None; Some (sample_server [])])
  = Some (Raise FileNotFoundError, [lit "Checking 2 file(s) with clangd..."],
          sample_world [Some (sample_server [])])
  /\ exists w',
       main 60 [lit "clangd_lint.py"; lit "a.cpp"; lit "a.cpp"]
            (sample_world
               [Some (mkLaunch true
                        [Ready (match utf8_encode (content_of (lit "{]")) with
                                | Some b => b
                                | None => []
                                end)]);
                Some (sample_server [])])
       = Some (Raise JSONDecodeError, [lit "Checking 2 file(s) with clangd..."], w')
       /\ pending w' = [Some (sample_server [])].
Proof.
  split.
  - vm_compute. reflexivity.
  - eexists. split; vm_compute; reflexivity.
Qed.

(* ================================================================= *)
(** ** Reasoning about computations *)

Lemma bind_inv {A B} (c : M A) (k : A -> M B) w r w' :
  bind c k w = Some (r, w') ->
  (exists a w1, c w = Some (Return a, w1) /\ k a w1 = Some (r, w'))
  \/ (exists e, c w = Some (Raise e, w') /\ r = Raise e).
Proof.
  unfold bind. destruct (c w) as [[[a|e] w1]|]; intros H.
  - left. eauto.
  - right. inversion H; subst. eauto.
  - discriminate.
Qed.

Section Preservation.
Variable I : world -> Prop.

Lemma preserves_ret {A} (a : A) : preserves I (ret a).
Proof. intros w r w' H E. inversion E; subst. exact H. Qed.

Lemma preserves_raise {A} e : preserves I (@raise A e).
Proof. intros w r w' H E. inversion E; subst. exact H. Qed.

Lemma preserves_unmodelled {A} : preserves I (@unmodelled A).
Proof. intros w r w' H E. discriminate. Qed.

Lemma preserves_lift {A} (o : outcome A) : preserves I (lift o).
Proof. destruct o; [apply preserves_ret|apply preserves_raise]. Qed.

Lemma preserves_bind {A B} (c : M A) (k : A -> M B) :
  preserves I c -> (forall a, preserves I (k a)) -> preserves I (bind c k).
Proof.
  intros Hc Hk w r w' H E.
  apply bind_inv in E as [(a & w1 & E1 & E2)|(e & E1 & _)].
  - exact (Hk a w1 r w' (Hc _ _ _ H E1) E2).
  - exact (Hc _ _ _ H E1).
Qed.

Lemma preserves_if {A} (b : bool) (c d : M A) :
  preserves I c -> preserves I d -> preserves I (if b then c else d).
Proof. now destruct b. Qed.
End Preservation.

Lemma nth_error_list_update {A} (f : A -> A) (l : list A) (i j : nat) :
  nth_error (list_update i f l) j
  = if Nat.eqb i j then option_map f (nth_error l j) else nth_error l j.
Proof.
  revert i j. induction l as [|x l IH]; intros [|i] [|j]; simpl; try reflexivity.
  - now destruct (Nat.eqb _ _).
  - apply IH.
Qed.

(** Updating a child without touching its two flags keeps every running
    child running. *)
Lemma running_update_proc p q f w :
  (forall pr, terminated (f pr) = terminated pr /\ reaped (f pr) = reaped pr) ->
  running p w -> running p (update_proc q f w).
Proof.
  intros Hf (pr & Hn & Ht & Hr). unfold running, update_proc. simpl.
  rewrite nth_error_list_update. destruct (Nat.eqb q p).
  - rewrite Hn. simpl. exists (f pr). destruct (Hf pr) as [-> ->]. auto.
  - exists pr. auto.
Qed.

Lemma running_tick p ms w : running p w -> running p (tick ms w).
Proof. exact (fun H => H). Qed.

Lemma stdin_write_running p q data : preserves (running p) (stdin_write q data).
Proof.
  intros w r w' H. unfold stdin_write.
  destruct (nth_error (procs w) q) as [pr|]; [|discriminate].
  destruct (stdin_ok pr); intros E; inversion E; subst; [|exact H].
  apply running_update_proc; [|exact H]. intros; split; reflexivity.
Qed.

Lemma read_response_running p q timeout : preserves (running p) (read_response q timeout).
Proof.
  intros w r w' H. unfold read_response.
  destruct (nth_error (procs w) q) as [pr|]; [|discriminate].
  destruct (script pr) as [|[extra|data] rest].
  - intros E; inversion E; subst. now apply running_tick.
  - intros E; inversion E; subst. apply running_tick.
    apply running_update_proc; [|exact H]. intros; split; reflexivity.
  - destruct (at_hand (buffer pr ++ data)); [|discriminate].
    destruct (read_message (buffer pr ++ data)) as [[o unread]|]; [|discriminate].
    intros E.
    assert (R : running p (update_proc q (fun pr0 =>
                 mkProcess rest unread (stdin_ok pr0) (written pr0)
                           (terminated pr0) (reaped pr0)) w)).
    { apply running_update_proc; [|exact H]. intros; split; reflexivity. }
    destruct o; inversion E; subst; exact R.
Qed.

Lemma write_content_running p q content : preserves (running p) (write_content q content).
Proof.
  unfold write_content. destruct (utf8_encode content).
  - apply stdin_write_running.
  - apply preserves_raise.
Qed.

Lemma open_read_running p path : preserves (running p) (open_read path).
Proof.
  intros w r w' H. unfold open_read.
  destruct (files w path); intros E; inversion E; subst; exact H.
Qed.

Lemma time_running p : preserves (running p) time.
Proof. intros w r w' H E. inversion E; subst. exact H. Qed.

Lemma sleep_running p ms : preserves (running p) (sleep ms).
Proof. intros w r w' H E. inversion E; subst. exact H. Qed.

Lemma on_response_running p q resp st : preserves (running p) (on_response q resp st).
Proof.
  unfold on_response. destruct resp as [r|]; [|apply preserves_ret].
  apply preserves_if; [|apply preserves_ret].
  apply preserves_bind; [apply preserves_lift|]. intros m.
  apply preserves_if.
  - apply preserves_bind; [apply preserves_lift|]. intros. apply preserves_ret.
  - apply preserves_if; [|apply preserves_ret].
    apply preserves_bind; [apply write_content_running|]. intros. apply preserves_ret.
Qed.

Lemma open_document_running p q path st : preserves (running p) (open_document q path st).
Proof.
  unfold open_document. apply preserves_if; [|apply preserves_ret].
  apply preserves_bind; [apply open_read_running|]. intros text.
  apply preserves_bind; [apply write_content_running|]. intros. apply preserves_ret.
Qed.

Lemma settle_running p q fuel diags : preserves (running p) (settle fuel q diags).
Proof.
  revert diags. induction fuel as [|fuel IH]; intros diags; cbn [settle].
  - apply preserves_unmodelled.
  - apply preserves_bind; [apply read_response_running|]. intros [r|]; [|apply preserves_ret].
    apply preserves_if; [|apply preserves_ret].
    apply preserves_bind; [apply preserves_lift|]. intros m.
    apply preserves_bind.
    + apply preserves_if; [apply preserves_lift|apply preserves_ret].
    + intros ds. apply IH.
Qed.

Lemma lint_loop_running p q fuel path start st :
  preserves (running p) (lint_loop fuel q path start st).
Proof.
  revert st. induction fuel as [|fuel IH]; intros st; cbn [lint_loop].
  - apply preserves_unmodelled.
  - apply preserves_bind; [apply time_running|]. intros t.
    apply preserves_if; [|apply preserves_ret].
    apply preserves_bind; [apply read_response_running|]. intros resp.
    apply preserves_bind; [apply on_response_running|]. intros st1.
    apply preserves_bind; [apply open_document_running|]. intros st2.
    apply preserves_if; [|apply IH].
    apply preserves_bind; [apply sleep_running|]. intros. apply settle_running.
Qed.

Lemma terminate_wait_reaps p w :
  running p w ->
  exists w', bind (terminate p) (fun _ => wait p) w = Some (Return tt, w')
             /\ reaped_child p w'
             /\ clock w' = (clock w + Z.of_N (exit_delay w p))%Z.
Proof.
  intros (pr & Hn & _). unfold bind, terminate, wait. rewrite Hn.
  unfold update_proc at 1 2. simpl. rewrite nth_error_list_update, Nat.eqb_refl, Hn.
  simpl. eexists. split; [reflexivity|]. split; [|reflexivity].
  unfold reaped_child, update_proc, tick. simpl.
  rewrite !nth_error_list_update, Nat.eqb_refl, Hn. simpl. eauto.
Qed.

Lemma Popen_inv w r w' :
  Popen w = Some (r, w') ->
  (r = Return (List.length (procs w)) /\ running (List.length (procs w)) w'
   /\ clock w' = clock w)
  \/ (exists e, r = Raise e /\ procs w' = procs w).
Proof.
  unfold Popen. destruct (pending w) as [|[l|] rest]; intros E; inversion E; subst.
  - right. eauto.
  - left. split; [reflexivity|]. split; [|reflexivity].
    unfold running. simpl. rewrite nth_error_app2 by lia.
    rewrite Nat.sub_diag. simpl. eauto.
  - right. eauto.
Qed.

Lemma finish_reaps {A} p (a : A) w r w' :
  running p w ->
  bind (terminate p) (fun _ => bind (wait p) (fun _ => ret a)) w = Some (r, w') ->
  r = Return a /\ reaped_child p w'
  /\ clock w' = (clock w + Z.of_N (exit_delay w p))%Z.
Proof.
  intros R H. destruct (terminate_wait_reaps p w R) as (w2 & E & Q & C).
  unfold bind in *. destruct (terminate p w) as [[[[]|e] w1]|]; try discriminate.
  destruct (wait p w1) as [[[[]|e] w3]|]; try discriminate.
  inversion E; subst. inversion H; subst. auto.
Qed.

(** C3, as the code has it: [terminate] and [wait] are the last two
    statements of [lint_file] and nothing guards them.  Every execution that
    returns, the one that ends on the five-second deadline included, has
    terminated and reaped its child; an execution that ends by an exception
    leaves its child running, unless the child could not be started. *)
Theorem lint_file_reaps_on_return fuel filepath root w r w' :
  lint_file fuel filepath root w = Some (r, w') ->
  match r with
  | Return _ => reaped_child (List.length (procs w)) w'
  | Raise _ => procs w' = procs w \/ running (List.length (procs w)) w'
  end.
Proof.
  intros H. unfold lint_file in H.
  apply bind_inv in H as [(p & w1 & HP & H)|(e & HP & ->)].
  - apply Popen_inv in HP as [(Ep & R1 & _)|(e & Ep & _)]; [|discriminate].
    inversion Ep; subst p; clear Ep.
    apply bind_inv in H as [(path & w2 & E2 & H)|(e & E2 & _)]; [|discriminate].
    inversion E2; subst; clear E2.
    apply bind_inv in H as [(pid & w3 & E3 & H)|(e & E3 & _)]; [|discriminate].
    inversion E3; subst; clear E3.
    apply bind_inv in H as [(u & w4 & E4 & H)|(e & E4 & ->)].
    + pose proof (write_content_running _ _ _ _ _ _ R1 E4) as R4.
      apply bind_inv in H as [(start & w5 & E5 & H)|(e & E5 & _)]; [|discriminate].
      inversion E5; subst; clear E5.
      apply bind_inv in H as [(diags & w6 & E6 & H)|(e & E6 & ->)].
      * pose proof (lint_loop_running _ _ _ _ _ _ _ _ _ R4 E6) as R6.
        destruct (finish_reaps _ _ _ _ _ R6 H) as (-> & Q & _). exact Q.
      * right. exact (lint_loop_running _ _ _ _ _ _ _ _ _ R4 E6).
    + right. exact (write_content_running _ _ _ _ _ _ R1 E4).
  - apply Popen_inv in HP as [(Ep & _)|(e' & _ & Q)]; [discriminate|]. now left.
Qed.

Lemma lint_file_reaps_on_return_witness :
  exists w',
    lint_file 60 (lit "a.cpp") (lit "/r") (sample_world [Some silent_server])
    = Some (Return [], w')
    /\ reaped_child 0 w'.
Proof.
  eexists. split.
  - vm_compute. reflexivity.
  - apply (lint_file_reaps_on_return 60 (lit "a.cpp") (lit "/r")
             (sample_world [Some silent_server]) (Return [])).
    vm_compute. reflexivity.
Defined.

(** C3 as stated fails: when the file to open does not exist, [open]
    raises in the middle of the session and [lint_file] is left with the
    child neither terminated nor waited for. *)
Lemma missing_file_leaves_child_running :
  exists w',
    lint_file 60 (lit "b.cpp") (lit "/r") (sample_world [Some (sample_server [])])
    = Some (Raise FileNotFoundError, w')
    /\ running 0 w'
    /\ ~ reaped_child 0 w'.
Proof.
  eexists. split; [vm_compute; reflexivity|]. split.
  - vm_compute. eexists. repeat split; reflexivity.
  - intros (pr & Hn & Ht & _). vm_compute in Hn. inversion Hn; subst.
    discriminate.
Qed.

(* ================================================================= *)
(** ** [json.loads] reads back what [json.dumps] prints *)

Ltac Zify.zify_post_hook ::= Z.to_euclidean_division_equations.

Lemma uint_chars_digits d : Forall (fun c => is_digit c = true) (uint_chars d).
Proof. induction d; simpl; constructor; auto. Qed.

Lemma of_uint_acc_chars d p :
  fold_left (fun a c => 10 * a + (c - 48)) (uint_chars d) (Npos p)
  = Npos (Pos.of_uint_acc d p).
Proof.
  revert p. induction d; intros p; cbn [uint_chars fold_left Pos.of_uint_acc];
    try reflexivity; rewrite <- IHd; f_equal; lia.
Qed.

Lemma digits_value_uint d : digits_value (uint_chars d) = Pos.of_uint d.
Proof.
  unfold digits_value.
  induction d; cbn [uint_chars fold_left Pos.of_uint]; try reflexivity;
    try exact IHd;
    (rewrite <- of_uint_acc_chars; f_equal).
Qed.

Lemma digits_value_str_of_N n : digits_value (str_of_N n) = n.
Proof.
  unfold str_of_N. rewrite digits_value_uint.
  exact (DecimalN.Unsigned.of_to n).
Qed.

Ltac Zify.zify_post_hook ::= Z.to_euclidean_division_equations.

Lemma hex_value_digit k : k < 16 -> hex_value (hex_digit k) = Some k.
Proof.
  intros H. unfold hex_value, hex_digit.
  destruct (N.ltb_spec k 10).
  - replace ((48 <=? 48 + k) && (48 + k <=? 57)) with true.
    + f_equal. lia.
    + symmetry. apply andb_true_iff. split; apply N.leb_le; lia.
  - replace ((48 <=? 87 + k) && (87 + k <=? 57)) with false.
    + replace ((97 <=? 87 + k) && (87 + k <=? 102)) with true.
      * f_equal. lia.
      * symmetry. apply andb_true_iff. split; apply N.leb_le; lia.
    + symmetry. apply andb_false_iff. right. apply N.leb_gt. lia.
Qed.

Lemma parse_hex4_hex n :
  n < 65536 ->
  parse_hex4 (hex_digit (n / 4096)) (hex_digit ((n / 256) mod 16))
             (hex_digit ((n / 16) mod 16)) (hex_digit (n mod 16)) = Some n.
Proof.
  intros H. unfold parse_hex4.
  rewrite !hex_value_digit by lia.
  f_equal. lia.
Qed.

Lemma lor_low a x k :
  a mod 2 ^ k = 0 -> x < 2 ^ k -> N.lor a x = a + x.
Proof.
  intros Ha Hx.
  assert (L : N.land a x = 0).
  { rewrite <- (N.mod_small x (2 ^ k)) by exact Hx.
    rewrite <- !N.land_ones.
    rewrite N.land_assoc, (N.land_comm a x), <- N.land_assoc, N.land_ones, Ha.
    apply N.land_0_r. }
  rewrite <- N.lxor_lor by exact L. symmetry. now apply N.add_nocarry_lxor.
Qed.

Lemma high_surrogate_value n :
  N.lor 55296 (N.land (N.shiftr n 10) 1023) = 55296 + (n / 1024) mod 1024.
Proof.
  change 1023 with (N.ones 10). rewrite N.land_ones, N.shiftr_div_pow2.
  change (2 ^ 10) with 1024.
  apply (lor_low 55296 _ 10); [reflexivity|]. change (2 ^ 10) with 1024. lia.
Qed.

Lemma low_surrogate_value n :
  N.lor 56320 (N.land n 1023) = 56320 + n mod 1024.
Proof.
  change 1023 with (N.ones 10). rewrite N.land_ones.
  change (2 ^ 10) with 1024.
  apply (lor_low 56320 _ 10); [reflexivity|]. change (2 ^ 10) with 1024. lia.
Qed.

Lemma join_surrogates_value hi lo :
  hi < 1024 -> lo < 1024 ->
  join_surrogates (55296 + hi) (56320 + lo) = 65536 + hi * 1024 + lo.
Proof.
  intros Hh Hl. unfold join_surrogates.
  replace (55296 + hi - 55296) with hi by lia.
  replace (56320 + lo - 56320) with lo by lia.
  rewrite N.shiftl_mul_pow2. change (2 ^ 10) with 1024.
  rewrite (lor_low (hi * 1024) lo 10).
  - lia.
  - change (2 ^ 10) with 1024. lia.
  - exact Hl.
Qed.

Lemma valid_char_cases c :
  valid_char c = true -> c < 55296 \/ (57343 < c /\ c < 1114112).
Proof.
  unfold valid_char. intros H. apply orb_true_iff in H as [H|H].
  - left. now apply N.ltb_lt.
  - right. apply andb_true_iff in H as [H1 H2]. split; now apply N.ltb_lt.
Qed.

Ltac decide_tests :=
  repeat match goal with
  | |- context [N.eqb ?a ?b] =>
      let E := fresh "E" in destruct (N.eqb_spec a b) as [E|E]; try lia
  | |- context [N.leb ?a ?b] =>
      let E := fresh "E" in destruct (N.leb_spec a b) as [E|E]; try lia
  | |- context [N.ltb ?a ?b] =>
      let E := fresh "E" in destruct (N.ltb_spec a b) as [E|E]; try lia
  end.

Lemma scanstring_unicode_escape u s' :
  u < 65536 -> is_high_surrogate u = false ->
  scanstring (hex4 u ++ s') = prepend u (scanstring s').
Proof.
  intros Hu Hs. unfold hex4. cbn [app scanstring].
  change (92 =? 34) with false. change (92 =? 92) with true.
  change (117 =? 117) with true. cbv beta iota.
  rewrite (parse_hex4_hex u Hu), Hs. reflexivity.
Qed.

Lemma scanstring_escape_char c s' :
  valid_char c = true ->
  scanstring (escape_char c ++ s') = prepend c (scanstring s').
Proof.
  intros V. apply valid_char_cases in V. unfold escape_char.
  destruct (N.eqb_spec c 34) as [->|N34]; [reflexivity|].
  destruct (N.eqb_spec c 92) as [->|N92]; [reflexivity|].
  destruct (N.eqb_spec c 10) as [->|N10]; [reflexivity|].
  destruct (N.eqb_spec c 13) as [->|N13]; [reflexivity|].
  destruct (N.eqb_spec c 9) as [->|N9]; [reflexivity|].
  destruct (N.eqb_spec c 12) as [->|N12]; [reflexivity|].
  destruct (N.eqb_spec c 8) as [->|N8]; [reflexivity|].
  destruct ((32 <=? c) && (c <=? 126)) eqn:P.
  - apply andb_true_iff in P as [P1 P2].
    apply N.leb_le in P1. apply N.leb_le in P2.
    cbn [app scanstring].
    destruct (N.eqb_spec c 34); [contradiction|].
    destruct (N.eqb_spec c 92); [contradiction|].
    destruct (N.ltb_spec c 32); [lia|]. reflexivity.
  - destruct (N.ltb_spec c 65536) as [L|L].
    + apply scanstring_unicode_escape; [exact L|].
      unfold is_high_surrogate. apply andb_false_iff.
      destruct V as [V|[V _]]; [left; apply N.leb_gt; lia|right; apply N.leb_gt; lia].
    + destruct V as [V|[_ V]]; [lia|].
      rewrite high_surrogate_value, low_surrogate_value.
      set (n := c - 65536).
      assert (Hn : n < 1048576) by (unfold n; lia).
      assert (Hhi : (n / 1024) mod 1024 = n / 1024) by (apply N.mod_small; lia).
      rewrite Hhi.
      unfold hex4 at 1. cbn [app scanstring].
      change (92 =? 34) with false. change (92 =? 92) with true.
      change (117 =? 117) with true. cbv beta iota.
      rewrite parse_hex4_hex by lia.
      replace (is_high_surrogate (55296 + n / 1024)) with true
        by (symmetry; unfold is_high_surrogate; apply andb_true_iff;
            split; apply N.leb_le; lia).
      unfold hex4. cbn [app].
      change (92 =? 92) with true. change (117 =? 117) with true.
      cbv beta iota. cbn [andb].
      rewrite parse_hex4_hex by lia.
      replace (is_low_surrogate (56320 + n mod 1024)) with true
        by (symmetry; unfold is_low_surrogate; apply andb_true_iff;
            split; apply N.leb_le; lia).
      rewrite join_surrogates_value by lia.
      replace (65536 + n / 1024 * 1024 + n mod 1024) with c by (unfold n; lia).
      reflexivity.
Qed.

Lemma scanstring_encoded s rest :
  valid_str s = true ->
  scanstring (flat_map escape_char s ++ 34 :: rest) = Parsed (s, rest).
Proof.
  induction s as [|c s IH]; intros V.
  - reflexivity.
  - cbn [valid_str forallb] in V. apply andb_true_iff in V as [Vc Vs].
    cbn [flat_map]. rewrite <- List.app_assoc, scanstring_escape_char by exact Vc.
    rewrite IH by exact Vs. reflexivity.
Qed.

Section JsonInduction.
Variable P : json -> Prop.
Hypothesis HNull : P JNull.
Hypothesis HBool : forall b, P (JBool b).
Hypothesis HInt : forall z, P (JInt z).
Hypothesis HStr : forall s, P (JStr s).
Hypothesis HList : forall l, Forall P l -> P (JList l).
Hypothesis HDict : forall d, Forall (fun kv => P (snd kv)) d -> P (JDict d).

Fixpoint json_nested_ind (v : json) : P v :=
  match v with
  | JNull => HNull
  | JBool b => HBool b
  | JInt z => HInt z
  | JStr s => HStr s
  | JList l =>
      HList l ((fix go (l : list json) : Forall P l :=
                  match l with
                  | [] => Forall_nil P
                  | x :: r => Forall_cons x (json_nested_ind x) (go r)
                  end) l)
  | JDict d =>
      HDict d ((fix go (d : list (str * json)) : Forall (fun kv => P (snd kv)) d :=
                  match d with
                  | [] => Forall_nil _
                  | kv :: r => Forall_cons kv (json_nested_ind (snd kv)) (go r)
                  end) d)
  end.
End JsonInduction.

Lemma str_of_N_shape n :
  exists c t, str_of_N n = c :: t /\ is_digit c = true
              /\ Forall (fun x => is_digit x = true) t
              /\ (c = 48 -> t = []).
Proof.
  unfold str_of_N.
  assert (Hd := uint_chars_digits (N.to_uint n)).
  assert (Hn : Decimal.unorm (N.to_uint n) = N.to_uint n).
  { rewrite <- (DecimalN.Unsigned.to_of (N.to_uint n)).
    now rewrite DecimalN.Unsigned.of_to. }
  destruct (N.to_uint n) as [|d|d|d|d|d|d|d|d|d|d] eqn:E;
    cbn [uint_chars] in *.
  1: { discriminate Hn. }
  1: { inversion Hd; subst. eexists _, _. repeat split; auto.
       intros _. unfold Decimal.unorm in Hn.
       destruct (Decimal.nzhead (Decimal.D0 d)) eqn:Z;
         try (rewrite Hn in Z; now apply nzhead_nonzero in Z).
       inversion Hn. reflexivity. }
  all: inversion Hd; subst; eexists _, _; repeat split; auto; discriminate.
Qed.

Lemma span_digits_run ds rest :
  Forall (fun x => is_digit x = true) ds ->
  number_end rest = true ->
  span_digits (ds ++ rest) = (ds, rest).
Proof.
  intros H E. induction H as [|c ds Hc _ IH]; cbn [app span_digits].
  - destruct rest as [|c r]; [reflexivity|]. cbn [number_end] in E.
    cbn [span_digits]. destruct (is_digit c); [discriminate|reflexivity].
  - now rewrite Hc, IH.
Qed.

Lemma number_end_not_float rest : number_end rest = true -> float_follows rest = false.
Proof.
  destruct rest as [|c [|d r]]; try reflexivity. cbn [number_end float_follows].
  intros H. apply negb_true_iff in H.
  apply orb_false_iff in H as [H H69]. apply orb_false_iff in H as [H H101].
  apply orb_false_iff in H as [_ H46]. now rewrite H46, H101, H69.
Qed.

Lemma is_digit_range c : is_digit c = true -> 48 <= c <= 57.
Proof.
  unfold is_digit. intros H. apply andb_true_iff in H as [H1 H2].
  split; now apply N.leb_le.
Qed.

Lemma parse_number_digits (neg : bool) c t rest :
  is_digit c = true -> Forall (fun x => is_digit x = true) t ->
  (c = 48 -> t = []) ->
  number_end rest = true ->
  parse_number ((if neg then [45] else []) ++ (c :: t) ++ rest)
  = Parsed (JInt (if neg then Z.opp (Z.of_N (digits_value (c :: t)))
                  else Z.of_N (digits_value (c :: t))), rest).
Proof.
  intros Hc Ht Hz E. pose proof (is_digit_range c Hc) as R.
  assert (S : span_digits ((c :: t) ++ rest) = (c :: t, rest))
    by (apply span_digits_run; [constructor; assumption|exact E]).
  assert (F := number_end_not_float rest E).
  unfold parse_number. destruct neg; cbn [app].
  - change (45 =? 45) with true. cbv beta iota.
    change (c :: t ++ rest) with ((c :: t) ++ rest). rewrite S.
    destruct (N.eqb_spec c 48) as [->|N0].
    + rewrite (Hz eq_refl) in *. cbn [app tl]. now rewrite F.
    + now rewrite F.
  - destruct (N.eqb_spec c 45); [lia|]. cbv beta iota.
    change (c :: t ++ rest) with ((c :: t) ++ rest). rewrite S.
    destruct (N.eqb_spec c 48) as [->|N0].
    + rewrite (Hz eq_refl) in *. cbn [app tl]. now rewrite F.
    + now rewrite F.
Qed.

Lemma parse_number_str_of_Z z rest :
  number_end rest = true ->
  parse_number (str_of_Z z ++ rest) = Parsed (JInt z, rest).
Proof.
  intros E.
  assert (G : forall (neg : bool) n,
             parse_number ((if neg then [45] else []) ++ str_of_N n ++ rest)
             = Parsed (JInt (if neg then Z.opp (Z.of_N n) else Z.of_N n), rest)).
  { intros neg n. pose proof (digits_value_str_of_N n) as V.
    destruct (str_of_N_shape n) as (c & t & S & Hc & Ht & Hz).
    rewrite S in *. rewrite parse_number_digits by assumption. now rewrite V. }
  destruct z as [|p|p]; cbn [str_of_Z].
  - exact (G false 0).
  - exact (G false (Npos p)).
  - exact (G true (Npos p)).
Qed.

Lemma token_start_cases c :
  token_start c = true ->
  48 <= c <= 57 \/ c = 45 \/ c = 34 \/ c = 91 \/ c = 123 \/ c = 110 \/ c = 116 \/ c = 102.
Proof.
  unfold token_start. intros H.
  repeat (apply orb_true_iff in H as [H|H]);
    try (apply N.eqb_eq in H; subst; lia).
  left. now apply is_digit_range.
Qed.

Lemma json_dumps_start v :
  exists c t, json_dumps v = c :: t /\ token_start c = true.
Proof.
  destruct v as [|[|]|z|s|l|d]; cbn [json_dumps]; try (eexists _, _; split; reflexivity).
  destruct z as [|p|p]; cbn [str_of_Z].
  - destruct (str_of_N_shape 0) as (c & t & -> & Hc & _).
    eexists _, _. split; [reflexivity|]. unfold token_start. now rewrite Hc.
  - destruct (str_of_N_shape (Npos p)) as (c & t & -> & Hc & _).
    eexists _, _. split; [reflexivity|]. unfold token_start. now rewrite Hc.
  - eexists _, _. split; reflexivity.
Qed.

Lemma skip_ws_token c t : token_start c = true -> skip_ws (c :: t) = c :: t.
Proof.
  intros H. apply token_start_cases in H. cbn [skip_ws]. unfold is_json_ws.
  decide_tests; reflexivity.
Qed.

Lemma skip_ws_dumps v rest : skip_ws (json_dumps v ++ rest) = json_dumps v ++ rest.
Proof.
  destruct (json_dumps_start v) as (c & t & -> & H). now apply skip_ws_token.
Qed.

Lemma parse_value_number fuel c t :
  is_digit c || (c =? 45) = true ->
  parse_value (S fuel) (c :: t) = parse_number (c :: t).
Proof.
  intros H.
  assert (R : 48 <= c <= 57 \/ c = 45).
  { apply orb_true_iff in H as [H|H]; [left; now apply is_digit_range|].
    right. now apply N.eqb_eq. }
  cbn [parse_value]. rewrite H.
  unfold s_null, s_true, s_false. cbn [strip_prefix].
  decide_tests; reflexivity.
Qed.

Lemma parse_value_int fuel z rest :
  number_end rest = true ->
  parse_value (S fuel) (str_of_Z z ++ rest) = Parsed (JInt z, rest).
Proof.
  intros E. rewrite <- (parse_number_str_of_Z z rest E).
  destruct (json_dumps_start (JInt z)) as (c & t & S & H). cbn [json_dumps] in S.
  rewrite S. cbn [app]. apply parse_value_number.
  assert (D : forall n, exists c' t', str_of_N n = c' :: t' /\ is_digit c' = true).
  { intros n. destruct (str_of_N_shape n) as (c' & t' & ? & ? & _). eauto. }
  destruct z as [|p|p]; cbn [str_of_Z] in S.
  - destruct (D 0) as (c' & t' & S' & Hc). rewrite S' in S. inversion S; subst.
    now rewrite Hc.
  - destruct (D (Npos p)) as (c' & t' & S' & Hc). rewrite S' in S. inversion S; subst.
    now rewrite Hc.
  - inversion S; subst. reflexivity.
Qed.

Lemma join_elems v l rest :
  join_items (map json_dumps (v :: l)) ++ 93 :: rest
  = json_dumps v ++ elems_tail l rest.
Proof.
  revert v. induction l as [|v2 l IH]; intros v.
  - cbn [map join_items elems_tail]. reflexivity.
  - change (join_items (map json_dumps (v :: v2 :: l)))
      with (json_dumps v ++ 44 :: 32 :: join_items (map json_dumps (v2 :: l))).
    rewrite <- List.app_assoc. cbn [app elems_tail]. now rewrite IH.
Qed.

Lemma join_members kv d rest :
  join_items
    (map (fun kv => encode_string (fst kv) ++ 58 :: 32 :: json_dumps (snd kv)) (kv :: d))
    ++ 125 :: rest
  = 34 :: entry_text kv (members_tail d rest).
Proof.
  revert kv. induction d as [|kv2 d IH]; intros kv.
  - cbn [map join_items members_tail]. unfold entry_text, encode_string.
    cbn [app]. rewrite <- !List.app_assoc. reflexivity.
  - set (f := fun kv => encode_string (fst kv) ++ 58 :: 32 :: json_dumps (snd kv)) in *.
    change (join_items (map f (kv :: kv2 :: d)))
      with (f kv ++ 44 :: 32 :: join_items (map f (kv2 :: d))).
    rewrite <- List.app_assoc. cbn [app members_tail]. rewrite IH.
    unfold f, entry_text, encode_string. cbn [app]. rewrite <- !List.app_assoc. reflexivity.
Qed.

Lemma number_end_elems_tail l rest : number_end (elems_tail l rest) = true.
Proof. destruct l; reflexivity. Qed.

Lemma number_end_members_tail d rest : number_end (members_tail d rest) = true.
Proof. destruct d; reflexivity. Qed.

Lemma parse_elems_tail l :
  Forall (fun v => forall fuel rest, (weight v <= fuel)%nat -> number_end rest = true ->
                   parse_value fuel (json_dumps v ++ rest) = Parsed (v, rest)) l ->
  forall v fuel rest,
    (forall fuel rest, (weight v <= fuel)%nat -> number_end rest = true ->
                       parse_value fuel (json_dumps v ++ rest) = Parsed (v, rest)) ->
    (S (weight v + elems_weight l) <= fuel)%nat ->
    parse_elems fuel (json_dumps v ++ elems_tail l rest) = Parsed (v :: l, rest).
Proof.
  induction 1 as [|v2 l H2 _ IH]; intros v fuel rest Hv Hf;
    (destruct fuel as [|f]; [lia|]); cbn [parse_elems].
  - rewrite Hv by (cbn in *; try lia; reflexivity). reflexivity.
  - cbn [elems_weight fold_right] in Hf. fold (elems_weight l) in Hf.
    rewrite Hv by (try lia; apply number_end_elems_tail).
    cbn [parse_bind fst snd elems_tail skip_ws]. change (is_json_ws 44) with false.
    cbv iota. change (44 =? 93) with false. change (44 =? 44) with true. cbv iota.
    cbn [skip_ws]. change (is_json_ws 32) with true. cbv iota.
    rewrite skip_ws_dumps, (IH v2 f rest H2) by lia. reflexivity.
Qed.

Lemma parse_members_tail d :
  Forall (fun kv => valid_str (fst kv) = true
                    /\ forall fuel rest, (weight (snd kv) <= fuel)%nat ->
                         number_end rest = true ->
                         parse_value fuel (json_dumps (snd kv) ++ rest)
                         = Parsed (snd kv, rest)) d ->
  forall kv fuel rest,
    valid_str (fst kv) = true ->
    (forall fuel rest, (weight (snd kv) <= fuel)%nat -> number_end rest = true ->
                       parse_value fuel (json_dumps (snd kv) ++ rest)
                       = Parsed (snd kv, rest)) ->
    (S (weight (snd kv) + members_weight d) <= fuel)%nat ->
    parse_members fuel (entry_text kv (members_tail d rest)) = Parsed (kv :: d, rest).
Proof.
  induction 1 as [|kv2 d [K2 H2] _ IH]; intros [k v] fuel rest Hk Hv Hf;
    (destruct fuel as [|f]; [lia|]); cbn [parse_members fst snd] in *;
    unfold entry_text; cbn [fst snd];
    rewrite (scanstring_encoded k _ Hk); cbn [parse_bind fst snd skip_ws];
    change (is_json_ws 58) with false; cbv iota;
    change (58 =? 58) with true; cbv iota;
    cbn [skip_ws]; change (is_json_ws 32) with true; cbv iota;
    rewrite skip_ws_dumps.
  - rewrite Hv by (cbn in *; try lia; reflexivity). reflexivity.
  - cbn [members_weight fold_right] in Hf. fold (members_weight d) in Hf.
    rewrite Hv by (try lia; apply number_end_members_tail).
    cbn [parse_bind fst snd members_tail skip_ws]. change (is_json_ws 44) with false.
    cbv iota. change (44 =? 125) with false. change (44 =? 44) with true. cbv iota.
    cbn [skip_ws]. change (is_json_ws 32) with true. cbv iota.
    cbn [skip_ws]. change (is_json_ws 34) with false. cbv iota.
    change (34 =? 34) with true. cbv iota.
    rewrite (IH kv2 f rest K2 H2) by lia. reflexivity.
Qed.

Lemma dict_get_app_none {V} k (a b : list (str * V)) :
  dict_get k a = None -> dict_get k (a ++ b) = dict_get k b.
Proof.
  induction a as [|[k' v'] a IH]; cbn [app dict_get]; [reflexivity|].
  destruct (str_eqb k k'); [discriminate|exact IH].
Qed.

Lemma fold_dict_set_distinct {V} (pairs acc : list (str * V)) :
  distinct_keys pairs = true ->
  (forall kv, In kv pairs -> dict_get (fst kv) acc = None) ->
  fold_left (fun d kv => dict_set (fst kv) (snd kv) d) pairs acc = acc ++ pairs.
Proof.
  revert acc. induction pairs as [|[k v] pairs IH]; intros acc D F; cbn [fold_left].
  - now rewrite List.app_nil_r.
  - cbn [distinct_keys] in D. apply andb_true_iff in D as [Dk D].
    cbn [fst snd]. rewrite dict_set_fresh by (apply (F (k, v)); now left).
    rewrite IH; [now rewrite <- List.app_assoc|exact D|].
    intros [k2 v2] I. cbn [fst].
    rewrite dict_get_app_none by (apply (F (k2, v2)); now right).
    cbn [dict_get]. destruct (str_eqb k2 k) eqn:E; [|reflexivity].
    apply str_eqb_eq in E. subst k2. exfalso.
    unfold mem_key in Dk. clear - Dk I.
    induction pairs as [|[k3 v3] pairs IH]; [contradiction|].
    cbn [dict_get] in Dk. destruct (str_eqb k k3) eqn:E; [discriminate|].
    destruct I as [I|I]; [|auto].
    inversion I; subst. now rewrite str_eqb_refl in E.
Qed.

Lemma py_dict_distinct {V} (d : list (str * V)) :
  distinct_keys d = true -> py_dict d = d.
Proof.
  intros D. unfold py_dict. now rewrite fold_dict_set_distinct.
Qed.

Lemma parse_value_dumps v :
  valid_json v = true ->
  forall fuel rest,
    (weight v <= fuel)%nat -> number_end rest = true ->
    parse_value fuel (json_dumps v ++ rest) = Parsed (v, rest).
Proof.
  induction v as [|b|z|s|l IH|d IH] using json_nested_ind; intros V fuel rest Hf E;
    (destruct fuel as [|f]; [cbn in Hf; lia|]).
  - reflexivity.
  - destruct b; reflexivity.
  - cbn [json_dumps]. now apply parse_value_int.
  - cbn [json_dumps valid_json] in *. unfold encode_string. cbn [app parse_value].
    change (34 =? 34) with true. cbv iota.
    rewrite <- List.app_assoc. cbn [app]. now rewrite scanstring_encoded.
  - cbn [json_dumps valid_json weight] in *. cbn [app parse_value].
    change (91 =? 34) with false. change (91 =? 123) with false.
    change (91 =? 91) with true. cbv iota.
    destruct l as [|v l].
    + reflexivity.
    + rewrite <- List.app_assoc. cbn [app]. rewrite join_elems.
      destruct (json_dumps_start v) as (c & t & S & H).
      rewrite S. cbn [app]. rewrite skip_ws_token by exact H.
      replace (c =? 93) with false
        by (apply token_start_cases in H; symmetry; apply N.eqb_neq; lia).
      change (c :: t ++ elems_tail l rest) with ((c :: t) ++ elems_tail l rest).
      rewrite <- S.
      cbn [forallb] in V. apply andb_true_iff in V as [Vv Vl].
      inversion IH as [|? ? Hv Hl]; subst.
      rewrite (parse_elems_tail l).
      * reflexivity.
      * clear - Hl Vl. induction Hl as [|x l Hx _ IHl]; constructor.
        -- cbn [forallb] in Vl. apply andb_true_iff in Vl as [Vx _]. now apply Hx.
        -- cbn [forallb] in Vl. apply andb_true_iff in Vl as [_ Vl]. now apply IHl.
      * now apply Hv.
      * cbn [fold_right] in Hf. unfold elems_weight. lia.
  - cbn [json_dumps valid_json weight] in *. cbn [app parse_value].
    change (123 =? 34) with false. change (123 =? 123) with true. cbv iota.
    apply andb_true_iff in V as [D V].
    destruct d as [|kv d].
    + reflexivity.
    + rewrite <- List.app_assoc. cbn [app]. rewrite join_members.
      cbn [skip_ws]. change (is_json_ws 34) with false. cbv iota.
      change (34 =? 125) with false. change (34 =? 34) with true. cbv iota.
      cbn [forallb] in V. apply andb_true_iff in V as [Vkv Vd].
      apply andb_true_iff in Vkv as [Vk Vv].
      inversion IH as [|? ? Hv Hd]; subst.
      rewrite (parse_members_tail d).
      * cbn [parse_bind fst snd]. now rewrite py_dict_distinct.
      * clear - Hd Vd. induction Hd as [|x d Hx _ IHd]; constructor.
        -- cbn [forallb] in Vd. apply andb_true_iff in Vd as [Vx _].
           apply andb_true_iff in Vx as [Vk Vv]. split; [exact Vk|now apply Hx].
        -- cbn [forallb] in Vd. apply andb_true_iff in Vd as [_ Vd]. now apply IHd.
      * exact Vk.
      * now apply Hv.
      * cbn [fold_right] in Hf. unfold members_weight. lia.
Qed.

Lemma length_join_items (xs : list str) :
  (fold_right (fun x n => List.length x + n) 0 xs <= List.length (join_items xs))%nat.
Proof.
  induction xs as [|x [|y xs] IH]; cbn [fold_right join_items] in *.
  - lia.
  - lia.
  - rewrite length_app. cbn [List.length]. lia.
Qed.

Lemma json_dumps_nonempty v : (1 <= List.length (json_dumps v))%nat.
Proof.
  destruct (json_dumps_start v) as (c & t & -> & _). cbn [List.length]. lia.
Qed.

Lemma weight_le_length v : (weight v + 1 <= 2 * List.length (json_dumps v))%nat.
Proof.
  induction v as [|b|z|s|l IH|d IH] using json_nested_ind.
  - pose proof (json_dumps_nonempty JNull). cbn [weight]. lia.
  - pose proof (json_dumps_nonempty (JBool b)). cbn [weight]. lia.
  - pose proof (json_dumps_nonempty (JInt z)). cbn [weight]. lia.
  - pose proof (json_dumps_nonempty (JStr s)). cbn [weight]. lia.
  - cbn [weight json_dumps List.length]. rewrite length_app. cbn [List.length].
    pose proof (length_join_items (map json_dumps l)) as J.
    assert (W : (fold_right (fun x n => S (weight x + n)) 0 l
                 <= 2 * fold_right (fun x n => List.length x + n) 0 (map json_dumps l))%nat).
    { clear J. induction IH as [|x l Hx _ IHl]; cbn [fold_right map]; lia. }
    lia.
  - cbn [weight json_dumps List.length]. rewrite length_app. cbn [List.length].
    set (f := fun kv : str * json => encode_string (fst kv) ++ 58 :: 32 :: json_dumps (snd kv)).
    pose proof (length_join_items (map f d)) as J.
    assert (W : (fold_right (fun kv n => S (weight (snd kv) + n)) 0 d
                 <= 2 * fold_right (fun x n => List.length x + n) 0 (map f d))%nat).
    { clear J. induction IH as [|x d Hx _ IHd]; cbn [fold_right map]; [lia|].
      unfold f at 1. rewrite length_app. cbn [List.length]. lia. }
    lia.
Qed.

Lemma json_loads_dumps v : valid_json v = true -> json_loads (json_dumps v) = Parsed v.
Proof.
  intros V. unfold json_loads.
  pose proof (weight_le_length v) as W.
  destruct (json_dumps_start v) as (c & t & S & H).
  pose proof (skip_ws_dumps v []) as K. rewrite List.app_nil_r in K. rewrite K.
  pose proof (parse_value_dumps v V (2 * List.length (json_dumps v) + 2) []) as R.
  rewrite List.app_nil_r in R. rewrite R by (try lia; reflexivity).
  rewrite S. replace (c =? 65279) with false
    by (apply token_start_cases in H; symmetry; apply N.eqb_neq; lia).
  reflexivity.
Qed.

(* ----------------------------------------------------------------- *)
(** *** What [json.dumps] prints is ASCII *)

Lemma is_ascii_app a b : is_ascii a -> is_ascii b -> is_ascii (a ++ b).
Proof. unfold is_ascii. intros. apply Forall_app. now split. Qed.

Lemma digits_ascii ds : Forall (fun x => is_digit x = true) ds -> is_ascii ds.
Proof.
  unfold is_ascii. intros H. eapply Forall_impl; [|exact H].
  intros c Hc. apply is_digit_range in Hc. lia.
Qed.

Lemma str_of_N_ascii n : is_ascii (str_of_N n).
Proof. apply digits_ascii, uint_chars_digits. Qed.

Lemma str_of_Z_ascii z : is_ascii (str_of_Z z).
Proof.
  destruct z; cbn [str_of_Z]; try apply str_of_N_ascii.
  constructor; [lia|apply str_of_N_ascii].
Qed.

Lemma hex_digit_ascii k : k < 16 -> hex_digit k < 128.
Proof. unfold hex_digit. destruct (k <? 10); lia. Qed.

Lemma hex4_ascii n : n < 65536 -> is_ascii (hex4 n).
Proof.
  intros H. unfold hex4, is_ascii.
  repeat constructor; try lia; apply hex_digit_ascii; lia.
Qed.

Lemma escape_char_ascii c : is_ascii (escape_char c).
Proof.
  unfold escape_char.
  do 7 (match goal with
        | |- is_ascii (if ?b then _ else _) =>
            destruct b; [repeat constructor; lia|]
        end).
  destruct ((32 <=? c) && (c <=? 126)) eqn:P.
  - apply andb_true_iff in P as [_ H]. apply N.leb_le in H.
    repeat constructor. lia.
  - destruct (N.ltb_spec c 65536) as [L|L]; [now apply hex4_ascii|].
    rewrite high_surrogate_value, low_surrogate_value.
    apply is_ascii_app; apply hex4_ascii; lia.
Qed.

Lemma encode_string_ascii s : is_ascii (encode_string s).
Proof.
  unfold encode_string. constructor; [lia|].
  apply is_ascii_app; [|repeat constructor; lia].
  induction s as [|c s IH]; cbn [flat_map]; [constructor|].
  apply is_ascii_app; [apply escape_char_ascii|exact IH].
Qed.

Lemma join_items_ascii xs : Forall is_ascii xs -> is_ascii (join_items xs).
Proof.
  induction 1 as [|x xs Hx Hxs IH]; [constructor|].
  destruct xs as [|y xs]; [exact Hx|].
  change (join_items (x :: y :: xs)) with (x ++ 44 :: 32 :: join_items (y :: xs)).
  apply is_ascii_app; [exact Hx|]. repeat (constructor; [lia|]). exact IH.
Qed.

(** With [ensure_ascii], the default, [json.dumps] prints ASCII only. *)
Lemma json_dumps_ascii v : is_ascii (json_dumps v).
Proof.
  induction v as [|b|z|s|l IH|d IH] using json_nested_ind; cbn [json_dumps].
  - repeat constructor; lia.
  - destruct b; repeat constructor; lia.
  - apply str_of_Z_ascii.
  - apply encode_string_ascii.
  - constructor; [lia|]. apply is_ascii_app; [|repeat constructor; lia].
    apply join_items_ascii. induction IH; constructor; auto.
  - constructor; [lia|]. apply is_ascii_app; [|repeat constructor; lia].
    apply join_items_ascii. induction IH as [|kv d H _ IHd]; constructor; auto.
    apply is_ascii_app; [apply encode_string_ascii|].
    repeat (constructor; [lia|]). exact H.
Qed.

Lemma content_of_ascii msg : is_ascii msg -> is_ascii (content_of msg).
Proof.
  intros H. unfold content_of. apply is_ascii_app; [repeat constructor; lia|].
  repeat (constructor; [lia|]).
  apply is_ascii_app; [apply str_of_N_ascii|].
  repeat (constructor; [lia|]). exact H.
Qed.

(* ----------------------------------------------------------------- *)
(** *** UTF-8 on ASCII text *)

Lemma to_N_byte_of_N c : c < 256 -> Byte.to_N (byte_of_N c) = c.
Proof.
  intros H. unfold byte_of_N. destruct (Byte.of_N c) as [b|] eqn:E.
  - now apply Byte.to_of_N.
  - apply Byte.of_N_None_iff in E. lia.
Qed.

(** An ASCII text encodes to one byte for each character. *)
Lemma utf8_encode_ascii s : is_ascii s -> utf8_encode s = Some (map byte_of_N s).
Proof.
  induction 1 as [|c s Hc _ IH]; [reflexivity|].
  cbn [utf8_encode map]. unfold utf8_encode_char.
  destruct (N.ltb_spec c 128); [|lia]. now rewrite IH.
Qed.

Lemma utf8_decode_ascii s : is_ascii s -> utf8_decode (map byte_of_N s) = Some s.
Proof.
  induction 1 as [|c s Hc _ IH]; [reflexivity|].
  cbn [map utf8_decode]. rewrite to_N_byte_of_N by lia.
  destruct (N.ltb_spec c 128); [|lia]. now rewrite IH.
Qed.

(* ================================================================= *)
(** ** Reading a frame *)

Lemma byte_of_N_not_newline c : c < 256 -> c <> 10 -> Byte.eqb (byte_of_N c) x0a = false.
Proof.
  intros H N. destruct (Byte.eqb (byte_of_N c) x0a) eqn:E; [|reflexivity].
  apply Byte.byte_dec_bl in E. apply (f_equal Byte.to_N) in E.
  rewrite to_N_byte_of_N in E by exact H. now subst.
Qed.

Lemma readline_line line tail :
  Forall (fun c => c < 128 /\ c <> 10) line ->
  readline (map byte_of_N line ++ x0a :: tail) = (map byte_of_N line ++ [x0a], tail).
Proof.
  induction 1 as [|c line [Hc Hn] _ IH]; [reflexivity|].
  cbn [map app readline]. rewrite byte_of_N_not_newline by (try lia; exact Hn).
  now rewrite IH.
Qed.

Section StripFacts.
Variable space : N -> bool.

Lemma lstrip_spaces ws s :
  Forall (fun c => space c = true) ws -> lstrip space (ws ++ s) = lstrip space s.
Proof. induction 1 as [|c ws Hc _ IH]; [reflexivity|]. cbn [app lstrip]. now rewrite Hc. Qed.

Lemma lstrip_head c t : space c = false -> lstrip space (c :: t) = c :: t.
Proof. intros H. cbn [lstrip]. now rewrite H. Qed.

(** Stripping removes the white space after a text that neither starts
    nor ends with white space, and nothing else. *)
Lemma strip_core core ws :
  (exists c t, core = c :: t /\ space c = false) ->
  (exists c t, rev core = c :: t /\ space c = false) ->
  Forall (fun c => space c = true) ws ->
  strip space (core ++ ws) = core.
Proof.
  intros (c & t & -> & Hc) (c' & t' & R & Hc') W. unfold strip.
  cbn [app]. rewrite lstrip_head by exact Hc.
  change (c :: t ++ ws) with ((c :: t) ++ ws).
  rewrite rev_app_distr, lstrip_spaces by (now apply Forall_rev).
  rewrite R, lstrip_head by exact Hc'. rewrite <- R. apply rev_involutive.
Qed.
End StripFacts.

Lemma digits_rev_head ds :
  ds <> [] -> Forall (fun x => is_digit x = true) ds ->
  exists c t, rev ds = c :: t /\ is_digit c = true.
Proof.
  intros NE F. destruct (rev ds) as [|c t] eqn:E.
  - apply (f_equal (@rev N)) in E. rewrite rev_involutive in E. now subst.
  - exists c, t. split; [reflexivity|].
    apply Forall_rev in F. rewrite E in F. now inversion F.
Qed.

Lemma digit_not_space c : is_digit c = true -> py_isspace c = false /\ c_isspace c = false.
Proof.
  intros H. apply is_digit_range in H. unfold py_isspace, c_isspace.
  split; decide_tests; reflexivity.
Qed.

Lemma int_digits_all ds :
  Forall (fun x => is_digit x = true) ds -> int_digits false ds = Some ds.
Proof.
  induction 1 as [|c ds Hc _ IH]; [reflexivity|].
  cbn [int_digits]. now rewrite Hc, IH.
Qed.

(** [int] reads back what [str] prints for a length. *)
Lemma py_int_digits ds :
  ds <> [] -> Forall (fun x => is_digit x = true) ds ->
  py_int ds = Some (Return (Z.of_N (digits_value ds))).
Proof.
  intros NE F. unfold py_int.
  assert (A : existsb (fun c => 127 <=? c) ds = false).
  { clear NE. induction F as [|c ds Hc _ IH]; [reflexivity|].
    cbn [existsb]. rewrite IH. apply is_digit_range in Hc.
    destruct (N.leb_spec 127 c); [lia|reflexivity]. }
  rewrite A.
  assert (S : strip c_isspace ds = ds).
  { rewrite <- (List.app_nil_r ds) at 1. apply strip_core; [| |constructor].
    - destruct ds as [|c t]; [contradiction|]. inversion F; subst.
      exists c, t. split; [reflexivity|]. now apply digit_not_space.
    - destruct (digits_rev_head ds NE F) as (c & t & R & Hc).
      exists c, t. split; [exact R|]. now apply digit_not_space. }
  rewrite S. destruct ds as [|c t]; [contradiction|].
  inversion F as [|? ? Hc Ht]; subst. pose proof (is_digit_range c Hc).
  destruct (N.eqb_spec c 45); [lia|]. destruct (N.eqb_spec c 43); [lia|].
  rewrite Hc, (int_digits_all (c :: t) F). reflexivity.
Qed.

Lemma read_headers_frame fuel ds tail :
  ds <> [] -> Forall (fun x => is_digit x = true) ds ->
  read_headers (S (S fuel))
    (map byte_of_N (s_content_length ++ 58 :: 32 :: ds ++ [13])
       ++ x0a :: x0d :: x0a :: tail) []
  = Some (Return [(s_content_length, ds)], tail).
Proof.
  intros NE F.
  assert (A : is_ascii (s_content_length ++ 58 :: 32 :: ds ++ [13])).
  { apply is_ascii_app; [repeat constructor; lia|].
    repeat (constructor; [lia|]).
    apply is_ascii_app; [now apply digits_ascii|repeat constructor; lia]. }
  assert (L : Forall (fun c => c < 128 /\ c <> 10)
                     (s_content_length ++ 58 :: 32 :: ds ++ [13])).
  { apply Forall_app. split; [repeat constructor; lia|].
    repeat (constructor; [lia|]). apply Forall_app. split; [|repeat constructor; lia].
    eapply Forall_impl; [|exact F]. intros c Hc. apply is_digit_range in Hc. lia. }
  cbn [read_headers]. rewrite (readline_line _ _ L).
  change [x0a] with (map byte_of_N [10]). rewrite <- map_app.
  rewrite utf8_decode_ascii by (apply is_ascii_app; [exact A|repeat constructor; lia]).
  assert (S : py_strip ((s_content_length ++ 58 :: 32 :: ds ++ [13]) ++ [10])
              = s_content_length ++ 58 :: 32 :: ds).
  { replace ((s_content_length ++ 58 :: 32 :: ds ++ [13]) ++ [10])
      with ((s_content_length ++ 58 :: 32 :: ds) ++ [13; 10])
      by (rewrite <- !List.app_assoc; cbn [app]; rewrite <- List.app_assoc; reflexivity).
    apply strip_core.
    - eexists _, _. split; reflexivity.
    - destruct (digits_rev_head ds NE F) as (c & t & R & Hc).
      exists c, (t ++ rev (s_content_length ++ [58; 32])). split.
      + replace (s_content_length ++ 58 :: 32 :: ds)
          with ((s_content_length ++ [58; 32]) ++ ds)
          by (rewrite <- List.app_assoc; reflexivity).
        now rewrite rev_app_distr, R.
      + now apply digit_not_space.
    - repeat constructor. }
  rewrite S. unfold s_content_length at 1 2. cbn [app split_colon_space N.eqb Pos.eqb strip_prefix].
  cbn [dict_set].
  cbn [readline Byte.eqb]. cbn. reflexivity.
Qed.

Lemma content_of_bytes msg rest :
  map byte_of_N (content_of msg) ++ rest
  = map byte_of_N
      (s_content_length ++ 58 :: 32 :: str_of_N (N.of_nat (List.length msg)) ++ [13])
    ++ x0a :: x0d :: x0a :: map byte_of_N msg ++ rest.
Proof.
  unfold content_of.
  rewrite !map_app. cbn [map]. rewrite !map_app. cbn [map].
  rewrite <- !List.app_assoc. cbn [app]. rewrite <- !List.app_assoc. reflexivity.
Qed.

(** Reading one message off a stream that starts with the frame of [msg]
    gives the value [msg] denotes and leaves what follows the frame. *)
Lemma read_message_frame msg v rest :
  is_ascii msg -> msg <> [] -> json_loads msg = Parsed v ->
  read_message (map byte_of_N (content_of msg) ++ rest) = Some (Return (Some v), rest).
Proof.
  intros A NE J. unfold read_message. rewrite content_of_bytes.
  set (ds := str_of_N (N.of_nat (List.length msg))).
  assert (Fd : Forall (fun x => is_digit x = true) ds) by apply uint_chars_digits.
  assert (Nd : ds <> []).
  { unfold ds. destruct (str_of_N_shape (N.of_nat (List.length msg))) as (c & t & -> & _).
    discriminate. }
  rewrite length_app. cbn [List.length]. rewrite Nat.add_succ_r.
  rewrite (read_headers_frame _ ds _ Nd Fd).
  cbn [dict_get]. rewrite str_eqb_refl.
  rewrite (py_int_digits ds Nd Fd). unfold ds. rewrite digits_value_str_of_N.
  destruct msg as [|c msg]; [contradiction|].
  replace (Z.of_N (N.of_nat (List.length (c :: msg))) =? 0)%Z with false
    by (symmetry; apply Z.eqb_neq; cbn [List.length]; lia).
  unfold stream_read.
  replace (Z.of_N (N.of_nat (List.length (c :: msg))) <? -1)%Z with false
    by (symmetry; apply Z.ltb_ge; lia).
  replace (Z.of_N (N.of_nat (List.length (c :: msg))) =? -1)%Z with false
    by (symmetry; apply Z.eqb_neq; lia).
  replace (Z.to_nat (Z.of_N (N.of_nat (List.length (c :: msg)))))
    with (List.length (c :: msg)) by lia.
  rewrite <- (length_map byte_of_N (c :: msg)).
  rewrite firstn_app, Nat.sub_diag, firstn_all, firstn_O, List.app_nil_r.
  rewrite skipn_app, Nat.sub_diag, skipn_all, skipn_O. cbn [app].
  rewrite utf8_decode_ascii by exact A. now rewrite J.
Qed.

(** The frame the senders write holds all the reader waits for. *)
Lemma lines_at_hand_frame fuel ds tail :
  ds <> [] -> Forall (fun x => is_digit x = true) ds ->
  lines_at_hand (S (S fuel))
    (map byte_of_N (s_content_length ++ 58 :: 32 :: ds ++ [13])
       ++ x0a :: x0d :: x0a :: tail)
  = true.
Proof.
  intros NE F.
  assert (A : is_ascii (s_content_length ++ 58 :: 32 :: ds ++ [13])).
  { apply is_ascii_app; [repeat constructor; lia|].
    repeat (constructor; [lia|]).
    apply is_ascii_app; [now apply digits_ascii|repeat constructor; lia]. }
  assert (L : Forall (fun c => c < 128 /\ c <> 10)
                     (s_content_length ++ 58 :: 32 :: ds ++ [13])).
  { apply Forall_app. split; [repeat constructor; lia|].
    repeat (constructor; [lia|]). apply Forall_app. split; [|repeat constructor; lia].
    eapply Forall_impl; [|exact F]. intros c Hc. apply is_digit_range in Hc. lia. }
  cbn [lines_at_hand]. rewrite (readline_line _ _ L).
  rewrite existsb_app. cbn [existsb Byte.eqb]. rewrite orb_true_r. cbn [andb].
  change [x0a] with (map byte_of_N [10]). rewrite <- map_app.
  rewrite utf8_decode_ascii by (apply is_ascii_app; [exact A|repeat constructor; lia]).
  assert (S : py_strip ((s_content_length ++ 58 :: 32 :: ds ++ [13]) ++ [10])
              = s_content_length ++ 58 :: 32 :: ds).
  { replace ((s_content_length ++ 58 :: 32 :: ds ++ [13]) ++ [10])
      with ((s_content_length ++ 58 :: 32 :: ds) ++ [13; 10])
      by (rewrite <- !List.app_assoc; cbn [app]; rewrite <- List.app_assoc; reflexivity).
    apply strip_core.
    - eexists _, _. split; reflexivity.
    - destruct (digits_rev_head ds NE F) as (c & t & R & Hc).
      exists c, (t ++ rev (s_content_length ++ [58; 32])). split.
      + replace (s_content_length ++ 58 :: 32 :: ds)
          with ((s_content_length ++ [58; 32]) ++ ds)
          by (rewrite <- List.app_assoc; reflexivity).
        now rewrite rev_app_distr, R.
      + now apply digit_not_space.
    - repeat constructor. }
  rewrite S. unfold s_content_length at 1. cbn [app].
  cbn [readline Byte.eqb]. cbn. reflexivity.
Qed.

Lemma at_hand_frame msg rest :
  is_ascii msg -> at_hand (map byte_of_N (content_of msg) ++ rest) = true.
Proof.
  intros A. unfold at_hand. rewrite content_of_bytes.
  set (ds := str_of_N (N.of_nat (List.length msg))).
  assert (Fd : Forall (fun x => is_digit x = true) ds) by apply uint_chars_digits.
  assert (Nd : ds <> []).
  { unfold ds. destruct (str_of_N_shape (N.of_nat (List.length msg))) as (c & t & -> & _).
    discriminate. }
  rewrite length_app. cbn [List.length]. rewrite Nat.add_succ_r.
  rewrite (lines_at_hand_frame _ ds _ Nd Fd), (read_headers_frame _ ds _ Nd Fd).
  cbn [dict_get andb]. rewrite str_eqb_refl.
  rewrite (py_int_digits ds Nd Fd). unfold ds. rewrite digits_value_str_of_N.
  apply orb_true_iff. right. apply andb_true_iff. split.
  - apply Z.leb_le. lia.
  - apply Nat.leb_le. rewrite length_app, length_map. lia.
Qed.

Lemma stdin_write_ok p data w pr :
  nth_error (procs w) p = Some pr -> stdin_ok pr = true ->
  stdin_write p data w
  = Some (Return tt,
          update_proc p (fun pr =>
            mkProcess (script pr) (buffer pr) (stdin_ok pr) (written pr ++ [data])
                      (terminated pr) (reaped pr)) w).
Proof. intros Hn Hs. unfold stdin_write. now rewrite Hn, Hs. Qed.

(** Both senders write the frame of the message they print, whatever the
    message: the text is ASCII, so the encoding cannot fail. *)
Lemma write_content_dumps p m w pr :
  nth_error (procs w) p = Some pr -> stdin_ok pr = true ->
  write_content p (content_of (json_dumps m)) w
  = Some (Return tt,
          update_proc p (fun pr =>
            mkProcess (script pr) (buffer pr) (stdin_ok pr)
                      (written pr ++ [map byte_of_N (content_of (json_dumps m))])
                      (terminated pr) (reaped pr)) w).
Proof.
  intros Hn Hs. unfold write_content.
  rewrite utf8_encode_ascii by apply content_of_ascii, json_dumps_ascii.
  now apply (stdin_write_ok p _ w pr).
Qed.

Lemma written_after_write p m w pr :
  nth_error (procs w) p = Some pr ->
  exists pr',
    nth_error
      (procs (update_proc p (fun pr =>
                mkProcess (script pr) (buffer pr) (stdin_ok pr)
                          (written pr ++ [map byte_of_N (content_of (json_dumps m))])
                          (terminated pr) (reaped pr)) w)) p = Some pr'
    /\ written pr' = written pr ++ [map byte_of_N (content_of (json_dumps m))].
Proof.
  intros Hn. unfold update_proc. cbn [procs set_procs].
  rewrite nth_error_list_update, Nat.eqb_refl, Hn. cbn [option_map]. eauto.
Qed.

(** C6: framing round trip.  For every valid message the senders write a
    header that states the exact number of bytes of the UTF-8 encoding of
    the printed message (which, the text being ASCII, is also its number of
    characters), and decoding the bytes written reads exactly the whole
    payload and yields the message again. *)
Theorem framing_round_trip (m : json) (rest : bytes) :
  valid_json m = true ->
  exists body data,
    utf8_encode (json_dumps m) = Some body
    /\ utf8_encode (content_of (json_dumps m)) = Some data
    /\ data = map byte_of_N
                (s_content_length ++ 58 :: 32 :: str_of_N (N.of_nat (List.length body))
                   ++ [13; 10; 13; 10])
              ++ body
    /\ read_message (data ++ rest) = Some (Return (Some m), rest)
    /\ (forall proc method params msg_id w pr,
          m = request_message method params msg_id ->
          nth_error (procs w) proc = Some pr -> stdin_ok pr = true ->
          exists w' pr',
            send_request proc method params msg_id w = Some (Return tt, w')
            /\ nth_error (procs w') proc = Some pr'
            /\ written pr' = written pr ++ [data])
    /\ (forall proc method params w pr,
          m = notification_message method params ->
          nth_error (procs w) proc = Some pr -> stdin_ok pr = true ->
          exists w' pr',
            send_notification proc method params w = Some (Return tt, w')
            /\ nth_error (procs w') proc = Some pr'
            /\ written pr' = written pr ++ [data]).
Proof.
  intros V.
  pose proof (json_dumps_ascii m) as A.
  exists (map byte_of_N (json_dumps m)), (map byte_of_N (content_of (json_dumps m))).
  split; [now apply utf8_encode_ascii|].
  split; [apply utf8_encode_ascii; now apply content_of_ascii|].
  split.
  { unfold content_of. rewrite length_map, !map_app. cbn [map]. rewrite !map_app.
    cbn [map]. rewrite <- !List.app_assoc. cbn [app]. rewrite <- !List.app_assoc.
    reflexivity. }
  split.
  { apply read_message_frame; [exact A| |now apply json_loads_dumps].
    destruct (json_dumps_start m) as (c & t & -> & _). discriminate. }
  split.
  - intros proc method params msg_id w pr -> Hn Hs. unfold send_request.
    rewrite (write_content_dumps _ _ _ _ Hn Hs).
    destruct (written_after_write proc (request_message method params msg_id) w pr Hn)
      as (pr' & Hn' & Hw).
    eauto.
  - intros proc method params w pr -> Hn Hs. unfold send_notification.
    rewrite (write_content_dumps _ _ _ _ Hn Hs).
    destruct (written_after_write proc (notification_message method params) w pr Hn)
      as (pr' & Hn' & Hw).
    eauto.
Qed.

Lemma framing_round_trip_witness :
  exists data,
    utf8_encode
      (content_of
         (json_dumps (request_message (lit "initialize")
                        (initialize_params 42 (lit "/r")) (JInt 1)))) = Some data
    /\ read_message (data ++ [x7b; x7d])
       = Some (Return (Some (request_message (lit "initialize")
                               (initialize_params 42 (lit "/r")) (JInt 1))),
               [x7b; x7d]).
Proof.
  destruct (framing_round_trip
              (request_message (lit "initialize") (initialize_params 42 (lit "/r")) (JInt 1))
              [x7b; x7d])
    as (body & data & _ & E & _ & R & _).
  - vm_compute. reflexivity.
  - exists data. split; [exact E|exact R].
Defined.

(* ================================================================= *)
(** ** A silent child and the deadline *)

Local Open Scope Z_scope.

Lemma lint_loop_exit fuel p path start st w :
  (clock w - start <? 5000) = false ->
  lint_loop (S fuel) p path start st w = Some (Return (diagnostics st), w).
Proof. intros H. cbn [lint_loop]. unfold bind, time. now rewrite H. Qed.

Lemma lint_loop_idle fuel p path start st w pr :
  nth_error (procs w) p = Some pr ->
  (clock w - start <? 5000) = true ->
  initialized st = false -> file_opened st = false ->
  lint_loop (S fuel) p path start st w
  = lint_loop fuel p path start st
      match script pr with
      | Idle extra :: rest =>
          tick (100 + Z.of_N extra)
            (update_proc p (fun pr =>
               mkProcess rest (buffer pr) (stdin_ok pr) (written pr)
                         (terminated pr) (reaped pr)) w)
      | _ => tick 100 w
      end
  \/ exists data rest, script pr = Ready data :: rest.
Proof.
  intros Hn Ht Hi Ho. destruct (script pr) as [|[extra|data] rest] eqn:Sc.
  - left. cbn [lint_loop]. unfold bind at 1. unfold time. rewrite Ht.
    unfold bind at 1. unfold read_response. rewrite Hn, Sc.
    unfold bind at 1. cbn [on_response]. unfold ret at 1.
    unfold bind at 1. unfold open_document. rewrite Hi. cbn [andb]. unfold ret at 1.
    now rewrite Ho.
  - left. cbn [lint_loop]. unfold bind at 1. unfold time. rewrite Ht.
    unfold bind at 1. unfold read_response. rewrite Hn, Sc.
    unfold bind at 1. cbn [on_response]. unfold ret at 1.
    unfold bind at 1. unfold open_document. rewrite Hi. cbn [andb]. unfold ret at 1.
    now rewrite Ho.
  - right. eauto.
Qed.

Lemma silent_loop eps p path start fuel :
  0 <= eps ->
  forall w pr,
    nth_error (procs w) p = Some pr ->
    silent_script eps (script pr) ->
    start + 5000 - clock w <= 100 * Z.of_nat fuel ->
    clock w < start + 5100 + eps ->
    exists w',
      lint_loop (S fuel) p path start (mkSession [] false false) w = Some (Return [], w')
      /\ start + 5000 <= clock w' < start + 5100 + eps
      /\ exit_delay w' = exit_delay w.
Proof.
  intros He. induction fuel as [|fuel IH]; intros w pr Hn Hs Hf Hc.
  - exists w. rewrite lint_loop_exit by (apply Z.ltb_ge; lia).
    split; [reflexivity|split; [lia|reflexivity]].
  - rewrite Nat2Z.inj_succ in Hf.
    destruct (Z.ltb_spec (clock w - start) 5000) as [T|T].
    + destruct (lint_loop_idle (S fuel) p path start (mkSession [] false false) w pr Hn)
        as [E|(data & rest & E)]; try reflexivity.
      { apply Z.ltb_lt. exact T. }
      * rewrite E. destruct (script pr) as [|[extra|data] rest] eqn:Sc.
        -- destruct (IH (tick 100 w) pr) as (w' & L & B & D);
             [exact Hn|rewrite Sc; exact Hs| | |];
             try (unfold tick; cbn [clock set_clock]; lia).
           exists w'. split; [exact L|]. split; [exact B|exact D].
        -- inversion Hs as [|? ? Hx Hr]; subst.
           edestruct IH as (w' & L & B & D);
             [| | |
              |exists w'; split; [exact L|]; split; [exact B|exact D]].
           ++ unfold tick, update_proc. cbn [procs set_clock set_procs].
              rewrite nth_error_list_update, Nat.eqb_refl, Hn. reflexivity.
           ++ exact Hr.
           ++ unfold tick, update_proc. cbn [clock set_clock set_procs]. lia.
           ++ unfold tick, update_proc. cbn [clock set_clock set_procs]. lia.
        -- inversion Hs as [|? ? Hx Hr]; subst. contradiction.
      * rewrite E in Hs. inversion Hs as [|? ? Hx Hr]; subst. contradiction.
    + exists w. rewrite lint_loop_exit by (apply Z.ltb_ge; lia).
      split; [reflexivity|split; [lia|reflexivity]].
Qed.

Lemma Popen_ok w l rest :
  pending w = Some l :: rest ->
  Popen w
  = Some (Return (List.length (procs w)),
          set_procs (procs w ++ [mkProcess (emits l) [] (accepts_input l) [] false false])
            (set_pending rest w)).
Proof. intros H. unfold Popen. now rewrite H. Qed.

(** A child whose standard input is closed: the first write fails. *)
Lemma write_content_refused p m w pr :
  nth_error (procs w) p = Some pr -> stdin_ok pr = false ->
  write_content p (content_of (json_dumps m)) w = Some (Raise BrokenPipeError, w).
Proof.
  intros Hn Hs. unfold write_content.
  rewrite utf8_encode_ascii by apply content_of_ascii, json_dumps_ascii.
  unfold stdin_write. now rewrite Hn, Hs.
Qed.

(** C2, as the code has it: a child that never emits any output.  When
    the child takes the [initialize] request, every poll times out, at most
    [eps] milliseconds late, and the loop is left once five seconds have
    passed, no later than the deadline plus one poll slice and [eps];
    [lint_file] then returns the empty sequence as soon as the terminated
    child has exited, which [wait] awaits without any limit.  When the
    child does not take the request, [lint_file] raises [BrokenPipeError]
    at once and leaves the child running. *)
Theorem silent_child_deadline fuel filepath root w l rest eps :
  pending w = Some l :: rest ->
  silent_script eps (emits l) ->
  0 <= eps ->
  (50 < fuel)%nat ->
  (accepts_input l = true ->
   exists w' left,
     lint_file fuel filepath root w = Some (Return [], w')
     /\ clock w + 5000 <= left < clock w + 5000 + (100 + eps)
     /\ clock w' = left + Z.of_N (exit_delay w (List.length (procs w)))
     /\ reaped_child (List.length (procs w)) w')
  /\ (accepts_input l = false ->
      exists w',
        lint_file fuel filepath root w = Some (Raise BrokenPipeError, w')
        /\ clock w' = clock w
        /\ running (List.length (procs w)) w').
Proof.
  intros Hp Hs He Hf.
  destruct fuel as [|fuel]; [lia|].
  set (p := List.length (procs w)).
  set (w1 := set_procs (procs w ++ [mkProcess (emits l) [] (accepts_input l) [] false false])
               (set_pending rest w)).
  assert (Hn1 : nth_error (procs w1) p
                = Some (mkProcess (emits l) [] (accepts_input l) [] false false)).
  { unfold w1, p. cbn [procs set_procs]. rewrite nth_error_app2 by lia.
    now rewrite Nat.sub_diag. }
  set (m := request_message (lit "initialize") (initialize_params (getpid w1) root) (JInt 1)).
  split; intros Ha.
  - set (w2 := update_proc p (fun pr =>
                 mkProcess (script pr) (buffer pr) (stdin_ok pr)
                           (written pr ++ [map byte_of_N (content_of (json_dumps m))])
                           (terminated pr) (reaped pr)) w1).
    assert (W : send_request p (lit "initialize") (initialize_params (getpid w1) root)
                  (JInt 1) w1
                = Some (Return tt, w2)).
    { unfold send_request. apply (write_content_dumps p m w1 _ Hn1). exact Ha. }
    assert (Hn2 : exists pr, nth_error (procs w2) p = Some pr
                             /\ script pr = emits l
                             /\ terminated pr = false /\ reaped pr = false).
    { unfold w2, update_proc. cbn [procs set_procs].
      rewrite nth_error_list_update, Nat.eqb_refl, Hn1. cbn [option_map]. eauto. }
    destruct Hn2 as (pr2 & Hn2 & Hs2 & Ht2 & Hr2).
    assert (C2 : clock w2 = clock w) by reflexivity.
    destruct (silent_loop eps p (resolve w1 root filepath) (clock w2) fuel He w2 pr2 Hn2)
      as (w3 & L & B & D); [now rewrite Hs2|lia|lia|].
    assert (R3 : running p w3).
    { apply (lint_loop_running p p (S fuel) (resolve w1 root filepath) (clock w2)
               (mkSession [] false false) w2 (Return []) w3); [|exact L].
      exists pr2. auto. }
    destruct (terminate_wait_reaps p w3 R3) as (w4 & F & Q & C4).
    exists w4, (clock w3).
    split; [|split; [lia|split; [rewrite C4, D; reflexivity|exact Q]]].
    unfold lint_file. unfold bind at 1. rewrite (Popen_ok w l rest Hp).
    fold w1. fold p. unfold bind at 1. unfold bind at 1.
    unfold bind at 1. rewrite W.
    unfold bind at 1. unfold time at 1.
    unfold bind at 1. rewrite L.
    unfold bind in F. unfold bind.
    destruct (terminate p w3) as [[[[]|e] w5]|]; try discriminate.
    destruct (wait p w5) as [[[[]|e] w6]|]; try discriminate.
    inversion F; subst. reflexivity.
  - exists w1. split; [|split; [reflexivity|]].
    + unfold lint_file. unfold bind at 1. rewrite (Popen_ok w l rest Hp).
      fold w1. fold p. unfold bind at 1. unfold bind at 1.
      unfold bind at 1. unfold send_request.
      now rewrite (write_content_refused p _ w1 _ Hn1 Ha).
    + eexists. split; [exact Hn1|]. split; reflexivity.
Qed.

Lemma silent_child_deadline_witness :
  exists w' left,
    lint_file 60 (lit "a.cpp") (lit "/r") (lingering_world 250 [Some silent_server])
    = Some (Return [], w')
    /\ 1000 + 5000 <= left < 1000 + 5000 + (100 + 7)
    /\ clock w' = left + 250
    /\ reaped_child 0 w'.
Proof.
  apply (proj1 (silent_child_deadline 60 (lit "a.cpp") (lit "/r")
                  (lingering_world 250 [Some silent_server]) silent_server [] 7
                  eq_refl
                  ltac:(repeat constructor; cbn; lia) ltac:(lia) ltac:(lia))).
  reflexivity.
Defined.

(** C2 as stated fails.  A child that never emits any output and whose
    standard input is closed makes [lint_file] raise [BrokenPipeError]
    instead of returning the empty sequence; and one that takes a minute
    to exit after the termination signal keeps [lint_file] from returning
    until a minute after the deadline. *)
Lemma silent_child_without_result_or_bound :
  (exists w',
     lint_file 60 (lit "a.cpp") (lit "/r") (sample_world [Some deaf_server])
     = Some (Raise BrokenPipeError, w'))
  /\ (exists w',
        lint_file 60 (lit "a.cpp") (lit "/r") (lingering_world 60000 [Some silent_server])
        = Some (Return [], w')
        /\ clock w' = 1000 + 5000 + 9 + 60000).
Proof.
  split.
  - eexists. vm_compute. reflexivity.
  - eexists. split; vm_compute; reflexivity.
Qed.

Local Close Scope Z_scope.

(* ================================================================= *)
(** ** Malformed header blocks *)

Lemma visible_range c : visible c = true -> 33 <= c <= 126.
Proof.
  unfold visible. intros H. apply andb_true_iff in H as [H1 H2].
  split; now apply N.leb_le.
Qed.

Lemma visible_not_space c : visible c = true -> py_isspace c = false /\ c_isspace c = false.
Proof.
  intros H. apply visible_range in H. unfold py_isspace, c_isspace.
  split; decide_tests; reflexivity.
Qed.

(** One header line and the blank line after it. *)
Lemma read_headers_one_line fuel line tail :
  header_line line ->
  read_headers (S (S fuel)) (ascii_bytes (line ++ [13]) ++ x0a :: x0d :: x0a :: tail) []
  = Some (Return match split_colon_space line with
                 | Some (key, value) => [(key, value)]
                 | None => []
                 end, tail).
Proof.
  intros (F & (c & t & E & Hc) & (c' & t' & R & Hc')). unfold ascii_bytes.
  assert (A : is_ascii (line ++ [13])).
  { apply is_ascii_app; [|repeat constructor; lia].
    eapply Forall_impl; [|exact F]. cbv beta. lia. }
  assert (L : Forall (fun c => c < 128 /\ c <> 10) (line ++ [13])).
  { apply Forall_app. split; [|repeat constructor; lia].
    eapply Forall_impl; [|exact F]. cbv beta. lia. }
  cbn [read_headers]. rewrite (readline_line _ _ L).
  change [x0a] with (map byte_of_N [10]). rewrite <- map_app.
  rewrite utf8_decode_ascii by (apply is_ascii_app; [exact A|repeat constructor; lia]).
  assert (S : py_strip ((line ++ [13]) ++ [10]) = line).
  { rewrite <- List.app_assoc. cbn [app]. apply strip_core.
    - exists c, t. split; [exact E|]. now apply visible_not_space.
    - exists c', t'. split; [exact R|]. now apply visible_not_space.
    - repeat constructor. }
  rewrite S. clear S A L R. destruct line as [|c0 t0]; [discriminate|].
  remember (split_colon_space (c0 :: t0)) as sp eqn:Esp. clear Esp.
  destruct sp as [[key value]|]; cbn; reflexivity.
Qed.

Lemma split_colon_space_parts line key value :
  split_colon_space line = Some (key, value) -> line = key ++ 58 :: 32 :: value.
Proof.
  revert key. induction line as [|c line IH]; intros key; cbn [split_colon_space];
    [discriminate|].
  destruct (N.eqb_spec c 58) as [->|N].
  - destruct line as [|d line]; cbn [strip_prefix].
    + cbn [split_colon_space]. discriminate.
    + destruct (N.eqb_spec 32 d) as [<-|N'].
      * intros H. inversion H; subst. reflexivity.
      * destruct (split_colon_space (d :: line)) as [[k v]|]; [|discriminate].
        intros H. inversion H; subst. cbn [app]. f_equal. now apply IH.
  - destruct (split_colon_space line) as [[k v]|]; [|discriminate].
    intros H. inversion H; subst. cbn [app]. f_equal. now apply IH.
Qed.

Lemma In_lstrip space c s : In c s -> space c = false -> In c (lstrip space s).
Proof.
  intros I H. induction s as [|x s IH]; [contradiction|]. cbn [lstrip].
  destruct (space x) eqn:E; [|exact I].
  destruct I as [->|I]; [congruence|auto].
Qed.

Lemma In_strip space c s : In c s -> space c = false -> In c (strip space s).
Proof.
  intros I H. unfold strip. apply in_rev. rewrite rev_involutive.
  apply In_lstrip; [|exact H]. apply in_rev. rewrite rev_involutive.
  now apply In_lstrip.
Qed.

Lemma int_digits_bad c s b :
  In c s -> is_digit c = false -> c <> 95 -> int_digits b s = None.
Proof.
  intros I D U. revert b. induction s as [|x s IH]; intros b; [contradiction|].
  cbn [int_digits]. destruct I as [->|I].
  - rewrite D. destruct (N.eqb_spec c 95); [contradiction|reflexivity].
  - destruct (is_digit x); [now rewrite IH|].
    destruct ((x =? 95) && negb b); [now apply IH|reflexivity].
Qed.

(** [int] rejects a text that holds a character no number can hold. *)
Lemma py_int_bad c s :
  Forall (fun x => x <= 126) s ->
  In c s -> visible c = true -> is_digit c = false -> c <> 95 -> c <> 43 -> c <> 45 ->
  py_int s = Some (Raise ValueError).
Proof.
  intros F I V D U P M. unfold py_int.
  assert (A : existsb (fun c => 127 <=? c) s = false).
  { clear I. induction F as [|x s Hx _ IH]; [reflexivity|].
    cbn [existsb]. rewrite IH. destruct (N.leb_spec 127 x); [lia|reflexivity]. }
  rewrite A.
  assert (I' : In c (strip c_isspace s))
    by (apply In_strip; [exact I|now apply visible_not_space]).
  destruct (strip c_isspace s) as [|x t]; [contradiction|].
  assert (G : forall (neg : bool) u, In c u ->
              match u with
              | [] => Some (Raise ValueError)
              | c0 :: _ =>
                  if is_digit c0
                  then match int_digits false u with
                       | Some ds =>
                           Some (Return (if neg then Z.opp (Z.of_N (digits_value ds))
                                         else Z.of_N (digits_value ds)))
                       | None => Some (Raise ValueError)
                       end
                  else Some (Raise ValueError)
              end = Some (@Raise Z ValueError)).
  { intros neg [|c0 u] Iu; [reflexivity|].
    destruct (is_digit c0); [|reflexivity].
    now rewrite (int_digits_bad c (c0 :: u) false Iu D U). }
  destruct (N.eqb_spec x 45) as [->|N45].
  - destruct I' as [E|I']; [congruence|]. exact (G true t I').
  - destruct (N.eqb_spec x 43) as [->|N43].
    + destruct I' as [E|I']; [congruence|]. exact (G false t I').
    + exact (G false (x :: t) I').
Qed.

Lemma one_line_stream line rest :
  ascii_bytes (line ++ [13; 10; 13; 10]) ++ rest
  = ascii_bytes (line ++ [13]) ++ x0a :: x0d :: x0a :: rest.
Proof.
  unfold ascii_bytes. rewrite !map_app. cbn [map].
  rewrite <- !List.app_assoc. reflexivity.
Qed.

(** C8, as the code has it: there is no framing error.  A header line
    without the [": "] separator is skipped, so a block that names no
    length makes decoding return nothing, silently; a [Content-Length]
    whose value holds a character no number can hold makes decoding raise
    the [ValueError] of [int]. *)
Theorem malformed_header_outcome line rest :
  header_line line ->
  (split_colon_space line = None ->
   read_message (ascii_bytes (line ++ [13; 10; 13; 10]) ++ rest) = Some (Return None, rest))
  /\ (forall value c,
        split_colon_space line = Some (s_content_length, value) ->
        In c value -> visible c = true ->
        is_digit c = false -> c <> 95 -> c <> 43 -> c <> 45 ->
        read_message (ascii_bytes (line ++ [13; 10; 13; 10]) ++ rest)
        = Some (Raise ValueError, rest)).
Proof.
  intros H.
  assert (R : forall fuel,
             read_headers (S (S fuel))
               (ascii_bytes (line ++ [13; 10; 13; 10]) ++ rest) []
             = Some (Return match split_colon_space line with
                            | Some (key, value) => [(key, value)]
                            | None => []
                            end, rest)).
  { intros fuel. rewrite one_line_stream. now apply read_headers_one_line. }
  assert (L : exists k, List.length (ascii_bytes (line ++ [13; 10; 13; 10]) ++ rest) = S k).
  { unfold ascii_bytes. rewrite length_app, length_map, length_app. cbn [List.length].
    exists (List.length line + 3 + List.length rest)%nat. lia. }
  destruct L as (k & L). split.
  - intros E. unfold read_message. rewrite L, R, E. reflexivity.
  - intros value c E I V D U P M. unfold read_message. rewrite L, R, E.
    cbn [dict_get]. rewrite str_eqb_refl.
    rewrite (py_int_bad c value); try assumption; [reflexivity|].
    apply split_colon_space_parts in E. destruct H as (F & _). rewrite E in F.
    apply Forall_app in F as [_ F]. inversion F as [|? ? _ F']; subst.
    inversion F' as [|? ? _ F'']; subst.
    eapply Forall_impl; [|exact F'']. cbv beta. lia.
Qed.

Lemma malformed_header_outcome_witness :
  read_message (ascii_bytes (lit "Content-Length: 1x" ++ [13; 10; 13; 10]) ++ [x7b; x7d])
  = Some (Raise ValueError, [x7b; x7d]).
Proof.
  refine (proj2 (malformed_header_outcome (lit "Content-Length: 1x") [x7b; x7d] _)
                (lit "1x") 120 _ _ _ _ _ _ _).
  - split; [|split].
    + repeat constructor; cbv; discriminate.
    + eexists _, _. split; reflexivity.
    + eexists _, _. split; reflexivity.
  - reflexivity.
  - right. left. reflexivity.
  - reflexivity.
  - reflexivity.
  - discriminate.
  - discriminate.
  - discriminate.
Defined.

(** C8 as stated fails.  A header that lacks its separator makes decoding
    return nothing without any error; a length that is not a number raises
    [ValueError], the error of [int]; a header block that is not closed by
    an empty line raises [JSONDecodeError] once the stream ends. *)
Lemma malformed_header_is_no_framing_error :
  read_message (ascii_bytes (lit "Content-Length 2" ++ [13; 10; 13; 10] ++ lit "{}"))
  = Some (Return None, ascii_bytes (lit "{}"))
  /\ read_message (ascii_bytes (lit "Content-Length: abc" ++ [13; 10; 13; 10] ++ lit "{}"))
     = Some (Raise ValueError, ascii_bytes (lit "{}"))
  /\ read_message (ascii_bytes (lit "Content-Length: 2" ++ [13; 10] ++ lit "{}"))
     = Some (Raise JSONDecodeError, []).
Proof. repeat split; vm_compute; reflexivity. Qed.

(* ================================================================= *)
(** ** Sessions, message by message *)

Lemma frame_bytes_ascii m : frame_bytes m = ascii_bytes (content_of (json_dumps m)).
Proof.
  unfold frame_bytes, ascii_bytes.
  now rewrite utf8_encode_ascii by apply content_of_ascii, json_dumps_ascii.
Qed.

(** Reading the frame of a valid message off a drained pipe gives the
    message and leaves the pipe drained. *)
Lemma read_message_whole m :
  valid_json m = true ->
  read_message (ascii_bytes (content_of (json_dumps m))) = Some (Return (Some m), []).
Proof.
  intros V. unfold ascii_bytes.
  rewrite <- (List.app_nil_r (map byte_of_N (content_of (json_dumps m)))).
  apply read_message_frame; [apply json_dumps_ascii| |now apply json_loads_dumps].
  destruct (json_dumps_start m) as (c & t & -> & _). discriminate.
Qed.

Lemma at_hand_whole m : at_hand (ascii_bytes (content_of (json_dumps m))) = true.
Proof.
  unfold ascii_bytes.
  rewrite <- (List.app_nil_r (map byte_of_N (content_of (json_dumps m)))).
  apply at_hand_frame, json_dumps_ascii.
Qed.

Lemma child_at_update p todo todo' w (f : process -> process) :
  child_at p todo w ->
  (forall pr, script pr = todo -> buffer pr = [] -> stdin_ok pr = true ->
              script (f pr) = todo' /\ buffer (f pr) = [] /\ stdin_ok (f pr) = true) ->
  child_at p todo' (update_proc p f w).
Proof.
  intros (pr & Hn & Hs & Hb & Hi) Hf. unfold child_at, update_proc.
  cbn [procs set_procs]. rewrite nth_error_list_update, Nat.eqb_refl, Hn.
  cbn [option_map]. exists (f pr). split; [reflexivity|]. now apply Hf.
Qed.

Lemma read_response_message p m rest timeout w :
  child_at p (Ready (ascii_bytes (content_of (json_dumps m))) :: rest) w ->
  valid_json m = true ->
  exists w',
    read_response p timeout w = Some (Return (Some m), w')
    /\ child_at p rest w' /\ clock w' = clock w /\ files w' = files w
    /\ written_to p w' = written_to p w.
Proof.
  intros C V. pose proof C as (pr & Hn & Hs & Hb & Hi).
  unfold read_response. rewrite Hn, Hs, Hb. cbn [app].
  rewrite at_hand_whole.
  rewrite (read_message_whole m V). cbn [lift]. unfold ret.
  eexists. split; [reflexivity|]. split; [|split; [reflexivity|split; [reflexivity|]]].
  - apply (child_at_update p _ rest w _ C). intros. cbn. auto.
  - unfold written_to, update_proc. cbn [procs set_procs].
    rewrite nth_error_list_update, Nat.eqb_refl, Hn. reflexivity.
Qed.

Lemma read_response_none p timeout w :
  child_at p [] w ->
  read_response p timeout w = Some (Return None, tick timeout w).
Proof.
  intros (pr & Hn & Hs & _). unfold read_response. now rewrite Hn, Hs.
Qed.

Lemma send_notification_ok p method params todo w :
  child_at p todo w ->
  exists w',
    send_notification p method params w = Some (Return tt, w')
    /\ child_at p todo w' /\ clock w' = clock w /\ files w' = files w
    /\ written_to p w'
       = written_to p w
           ++ [ascii_bytes (content_of (json_dumps (notification_message method params)))].
Proof.
  intros C. pose proof C as (pr & Hn & Hs & Hb & Hi).
  unfold send_notification. rewrite (write_content_dumps p _ w pr Hn Hi).
  eexists. split; [reflexivity|]. split; [|split; [reflexivity|split; [reflexivity|]]].
  - apply (child_at_update p todo todo w _ C). intros. cbn. auto.
  - unfold written_to, update_proc. cbn [procs set_procs].
    rewrite nth_error_list_update, Nat.eqb_refl, Hn. reflexivity.
Qed.

Lemma on_response_publication p uri ds st w :
  on_response p (Some (publish_message uri ds)) st w
  = Some (Return (mkSession (diagnostics st ++ ds) (initialized st) (file_opened st)), w).
Proof. reflexivity. Qed.

(** The iteration of the loop in which the first message with a [result]
    member arrives: whatever else the message holds, the session sends
    [initialized], opens the document and goes on initialized. *)
Lemma handshake_iteration fuel p path start kv rest text w :
  child_at p (Ready (ascii_bytes (content_of (json_dumps (JDict kv)))) :: rest) w ->
  valid_json (JDict kv) = true ->
  mem_key s_result kv = true ->
  is_str (match dict_get s_method kv with Some v => v | None => JNull end) s_publish = false ->
  files w path = Some text ->
  (clock w - start <? 5000)%Z = true ->
  exists w',
    lint_loop (S fuel) p path start (mkSession [] false false) w
    = lint_loop fuel p path start (mkSession [] true true) w'
    /\ child_at p rest w' /\ clock w' = clock w /\ files w' = files w
    /\ written_to p w'
       = written_to p w
           ++ [ascii_bytes (content_of (json_dumps
                 (notification_message (lit "initialized") (JDict []))));
               ascii_bytes (content_of (json_dumps
                 (notification_message (lit "textDocument/didOpen")
                    (did_open_params path text))))].
Proof.
  intros C V Hr Hm Hf Ht.
  destruct (read_response_message p _ _ 100 w C V) as (w1 & R & C1 & K1 & F1 & W1).
  destruct (send_notification_ok p (lit "initialized") (JDict []) rest w1 C1)
    as (w2 & S2 & C2 & K2 & F2 & W2).
  destruct (send_notification_ok p (lit "textDocument/didOpen")
              (did_open_params path text) rest w2 C2)
    as (w3 & S3 & C3 & K3 & F3 & W3).
  exists w3. split; [|split; [exact C3|split; [congruence|split; [congruence|]]]].
  - cbn [lint_loop]. unfold bind at 1. unfold time at 1. rewrite Ht.
    unfold bind at 1. rewrite R.
    unfold bind at 1. unfold on_response.
    assert (T : truthy (JDict kv) = true).
    { destruct kv; [discriminate|reflexivity]. }
    rewrite T. unfold bind at 1. cbn [py_get lift]. unfold ret at 1.
    rewrite Hm. cbn [py_in]. rewrite Hr. cbn [initialized negb andb].
    unfold bind at 1. rewrite S2. unfold ret at 1.
    unfold bind at 1. unfold open_document. cbn [initialized file_opened negb andb].
    unfold bind at 1. unfold open_read. rewrite F2, F1, Hf.
    unfold bind at 1. rewrite S3. unfold ret at 1. reflexivity.
  - rewrite W3, W2, W1, <- List.app_assoc. reflexivity.
Qed.

(** The iteration in which the first diagnostics arrive once the document
    is open: the loop is left for the settling loop. *)
Lemma publication_iteration fuel p path start uri d ds rest w :
  child_at p (publication (uri, d :: ds) :: rest) w ->
  valid_str uri = true -> forallb valid_json (d :: ds) = true ->
  (clock w - start <? 5000)%Z = true ->
  exists w',
    lint_loop (S fuel) p path start (mkSession [] true true) w
    = settle fuel p (d :: ds) w'
    /\ child_at p rest w'.
Proof.
  intros C Vu Vd Ht. unfold publication in C. rewrite frame_bytes_ascii in C.
  cbn [fst snd] in C.
  assert (V : valid_json (publish_message uri (d :: ds)) = true).
  { cbn in Vd |- *. now rewrite Vu, Vd. }
  destruct (read_response_message p _ _ 100 w C V) as (w1 & R & C1 & _).
  exists (tick 200 w1). split.
  - cbn [lint_loop]. unfold bind at 1. unfold time at 1. rewrite Ht.
    unfold bind at 1. rewrite R.
    unfold bind at 1. rewrite on_response_publication.
    cbn [diagnostics initialized file_opened app].
    unfold bind at 1. unfold open_document. cbn [initialized file_opened negb andb].
    unfold ret at 1. cbn [file_opened diagnostics nonempty andb].
    unfold bind at 1. unfold sleep. reflexivity.
  - destruct C1 as (pr & H). exists pr. exact H.
Qed.

Lemma quiet_at_update p sent w (f : process -> process) :
  quiet_at p sent w ->
  (forall pr, written pr = sent -> buffer pr = [] -> quiet_script (script pr) ->
              written (f pr) = sent /\ buffer (f pr) = [] /\ quiet_script (script (f pr))) ->
  forall q, quiet_at p sent (update_proc q f w).
Proof.
  intros (pr & Hn & Hw & Hb & Hq) Hf q. unfold quiet_at, update_proc.
  cbn [procs set_procs]. rewrite nth_error_list_update. destruct (Nat.eqb q p).
  - rewrite Hn. cbn [option_map]. exists (f pr). split; [reflexivity|]. now apply Hf.
  - exists pr. auto.
Qed.

Lemma quiet_at_tick p sent ms w : quiet_at p sent w -> quiet_at p sent (tick ms w).
Proof. exact (fun H => H). Qed.

Lemma read_response_quiet p sent timeout w r w' :
  quiet_at p sent w ->
  read_response p timeout w = Some (r, w') ->
  quiet_at p sent w'
  /\ forall m, r = Return (Some m) -> py_in s_result m = false.
Proof.
  intros Q. pose proof Q as (pr & Hn & Hw & Hb & Hq). unfold read_response.
  rewrite Hn. destruct (script pr) as [|[extra|data] rest] eqn:Sc.
  - intros E. injection E as <- <-. split; [exact Q|discriminate].
  - intros E. injection E as <- <-. split; [|discriminate].
    apply quiet_at_tick. refine (quiet_at_update p sent w _ Q _ p).
    intros pr0 H1 H2 H3. cbn. repeat split; try assumption.
    exact (Forall_inv_tail Hq).
  - pose proof (Forall_inv Hq) as Hx. pose proof (Forall_inv_tail Hq) as Hq'.
    cbv beta iota in Hx. destruct Hx as (m & Ed & V & Hr). rewrite Ed.
    rewrite Hb. cbn [app]. rewrite at_hand_whole, (read_message_whole m V).
    cbn [lift]. unfold ret.
    intros E. injection E as <- <-. split.
    + refine (quiet_at_update p sent w _ Q _ p).
      intros pr0 H1 H2 H3. cbn. auto.
    + intros m' E'. injection E' as <-. exact Hr.
Qed.

Lemma on_response_quiet p resp st w r w' :
  initialized st = false ->
  (forall m, resp = Some m -> py_in s_result m = false) ->
  on_response p resp st w = Some (r, w') ->
  w' = w
  /\ forall st', r = Return st' ->
       initialized st' = false /\ file_opened st' = file_opened st.
Proof.
  intros Hi Hr. unfold on_response. destruct resp as [m|].
  - specialize (Hr m eq_refl). destruct (truthy m).
    + unfold bind at 1. destruct (py_get m s_method JNull) as [mv|e]; cbn [lift].
      * unfold ret at 1. destruct (is_str mv s_publish).
        -- unfold bind. destruct (extend_from m (diagnostics st)) as [ds|e]; cbn [lift];
             unfold ret, raise; intros E; inversion E; subst;
             (split; [reflexivity|]); intros st' E'; inversion E'; subst; cbn; auto.
        -- rewrite Hr. cbn [andb]. unfold ret. intros E; inversion E; subst.
           split; [reflexivity|]. intros st' E'; inversion E'; subst. auto.
      * unfold raise. intros E; inversion E; subst.
        split; [reflexivity|discriminate].
    + unfold ret. intros E; inversion E; subst.
      split; [reflexivity|]. intros st' E'; inversion E'; subst. auto.
  - unfold ret. intros E; inversion E; subst.
    split; [reflexivity|]. intros st' E'; inversion E'; subst. auto.
Qed.

(** While no message with a [result] member arrives, the loop writes
    nothing to the child. *)
Lemma lint_loop_quiet p sent path start fuel :
  forall st w r w',
    initialized st = false -> file_opened st = false ->
    quiet_at p sent w ->
    lint_loop fuel p path start st w = Some (r, w') ->
    quiet_at p sent w'.
Proof.
  induction fuel as [|fuel IH]; intros st w r w' Hi Ho Q; cbn [lint_loop];
    [discriminate|].
  unfold bind at 1. unfold time at 1.
  destruct (clock w - start <? 5000)%Z.
  - intros H. apply bind_inv in H as [(resp & w1 & R & H)|(e & R & _)].
    + destruct (read_response_quiet p sent 100 w _ w1 Q R) as (Q1 & Hr).
      apply bind_inv in H as [(st1 & w2 & O & H)|(e & O & _)].
      * destruct (on_response_quiet p resp st w1 (Return st1) w2 Hi) as (-> & Hs);
          [|exact O|].
        { intros m ->. now apply Hr. }
        destruct (Hs st1 eq_refl) as (Hi1 & Ho1). rewrite Ho in Ho1.
        unfold bind at 1 in H. unfold open_document in H.
        rewrite Hi1 in H. cbn [andb] in H. unfold ret at 1 in H.
        rewrite Ho1 in H. cbn [andb] in H.
        exact (IH st1 w1 r w' Hi1 Ho1 Q1 H).
      * destruct (on_response_quiet p resp st w1 (Raise e) w' Hi) as (-> & _);
          [|exact O|exact Q1].
        intros m ->. now apply Hr.
    + exact (proj1 (read_response_quiet p sent 100 w _ w' Q R)).
  - unfold ret. intros E. inversion E; subst. exact Q.
Qed.

Lemma written_to_finish {A} p (a : A) sent w r w' :
  quiet_at p sent w ->
  bind (terminate p) (fun _ => bind (wait p) (fun _ => ret a)) w = Some (r, w') ->
  written_to p w' = sent.
Proof.
  intros (pr & Hn & Hw & _). unfold bind, terminate, wait. rewrite Hn.
  unfold update_proc at 1. cbn [procs set_procs].
  rewrite nth_error_list_update, Nat.eqb_refl, Hn. cbn [option_map terminated]. unfold ret.
  intros E. injection E as <- <-. unfold written_to, tick, update_proc.
  cbn [procs set_procs set_clock].
  rewrite !nth_error_list_update, Nat.eqb_refl, Hn. cbn. exact Hw.
Qed.

(** The start of a session, up to the loop. *)
Lemma session_start fuel filepath root w l rest r w' :
  pending w = Some l :: rest ->
  accepts_input l = true ->
  lint_file fuel filepath root w = Some (r, w') ->
  exists w2,
    (exists pr, nth_error (procs w2) (List.length (procs w)) = Some pr
                /\ script pr = emits l /\ buffer pr = [] /\ stdin_ok pr = true
                /\ written pr
                   = [ascii_bytes (content_of (json_dumps
                        (request_message (lit "initialize")
                           (initialize_params (getpid w) root) (JInt 1))))]
                /\ terminated pr = false /\ reaped pr = false)
    /\ clock w2 = clock w /\ files w2 = files w /\ resolve w2 = resolve w
    /\ bind (lint_loop fuel (List.length (procs w)) (resolve w root filepath) (clock w)
               (mkSession [] false false))
            (fun diags =>
               bind (terminate (List.length (procs w)))
                    (fun _ => bind (wait (List.length (procs w))) (fun _ => ret diags)))
            w2
       = Some (r, w').
Proof.
  intros Hp Ha.
  set (p := List.length (procs w)).
  set (w1 := set_procs (procs w ++ [mkProcess (emits l) [] (accepts_input l) [] false false])
               (set_pending rest w)).
  assert (Hn1 : nth_error (procs w1) p
                = Some (mkProcess (emits l) [] (accepts_input l) [] false false)).
  { unfold w1, p. cbn [procs set_procs]. rewrite nth_error_app2 by lia.
    now rewrite Nat.sub_diag. }
  set (m := request_message (lit "initialize") (initialize_params (getpid w) root) (JInt 1)).
  assert (W : send_request p (lit "initialize") (initialize_params (getpid w1) root) (JInt 1) w1
              = Some (Return tt,
                      update_proc p (fun pr =>
                        mkProcess (script pr) (buffer pr) (stdin_ok pr)
                                  (written pr ++ [map byte_of_N (content_of (json_dumps m))])
                                  (terminated pr) (reaped pr)) w1)).
  { unfold send_request. apply (write_content_dumps p m w1 _ Hn1). exact Ha. }
  unfold lint_file. unfold bind at 1. rewrite (Popen_ok w l rest Hp). fold w1. fold p.
  unfold bind at 1. unfold bind at 1. unfold bind at 1. rewrite W.
  unfold bind at 1. unfold time at 1. intros H.
  eexists. split; [|split; [|split; [|split; [|exact H]]]]; try reflexivity.
  unfold update_proc. cbn [procs set_procs].
  rewrite nth_error_list_update, Nat.eqb_refl, Hn1. cbn [option_map].
  eexists. split; [reflexivity|].
  cbn [script buffer stdin_ok written terminated reaped app].
  repeat split; try reflexivity. exact Ha.
Qed.

(** C1, as the code has it: the loop never looks at the identifier of a
    message.  While the server sends only messages without a [result]
    member (notifications), the session sends nothing after its
    [initialize] request: no [initialized], no [didOpen].  The first
    message that has a [result] member and is not a publication makes the
    session send [initialized], open the document and go on initialized,
    whatever identifier the message carries. *)
Theorem initialization_follows_any_result :
  (forall fuel filepath root w l rest r w',
      pending w = Some l :: rest ->
      accepts_input l = true ->
      quiet_script (emits l) ->
      lint_file fuel filepath root w = Some (r, w') ->
      written_to (List.length (procs w)) w'
      = [ascii_bytes (content_of (json_dumps
           (request_message (lit "initialize")
              (initialize_params (getpid w) root) (JInt 1))))])
  /\ (forall fuel p path start kv rest text w,
        child_at p (Ready (ascii_bytes (content_of (json_dumps (JDict kv)))) :: rest) w ->
        valid_json (JDict kv) = true ->
        mem_key s_result kv = true ->
        is_str (match dict_get s_method kv with Some v => v | None => JNull end) s_publish
        = false ->
        files w path = Some text ->
        (clock w - start <? 5000)%Z = true ->
        exists w',
          lint_loop (S fuel) p path start (mkSession [] false false) w
          = lint_loop fuel p path start (mkSession [] true true) w'
          /\ written_to p w'
             = written_to p w
                 ++ [ascii_bytes (content_of (json_dumps
                       (notification_message (lit "initialized") (JDict []))));
                     ascii_bytes (content_of (json_dumps
                       (notification_message (lit "textDocument/didOpen")
                          (did_open_params path text))))]).
Proof.
  split.
  - intros fuel filepath root w l rest r w' Hp Ha Hq H.
    destruct (session_start fuel filepath root w l rest r w' Hp Ha H)
      as (w2 & (pr & Hn & Hs & Hb & Hi & Hw & _) & _ & _ & _ & L).
    assert (Q : quiet_at (List.length (procs w)) (written pr) w2).
    { exists pr. rewrite Hs. auto. }
    rewrite <- Hw.
    apply bind_inv in L as [(diags & w3 & L & F)|(e & L & _)].
    + apply (written_to_finish _ diags (written pr) w3 r w'); [|exact F].
      exact (lint_loop_quiet _ _ _ _ _ (mkSession [] false false) _ _ _
               eq_refl eq_refl Q L).
    + pose proof (lint_loop_quiet _ _ _ _ _ (mkSession [] false false) _ _ _
                    eq_refl eq_refl Q L)
        as (pr' & Hn' & Hw' & _).
      unfold written_to. now rewrite Hn'.
  - intros fuel p path start kv rest text w C V Hr Hm Hf Ht.
    destruct (handshake_iteration fuel p path start kv rest text w C V Hr Hm Hf Ht)
      as (w' & E & _ & _ & _ & W).
    eauto.
Qed.

Lemma initialization_follows_any_result_witness :
  exists r w',
    lint_file 60 (lit "a.cpp") (lit "/r") (sample_world [Some notifying_server])
    = Some (r, w')
    /\ written_to 0 w'
       = [ascii_bytes (content_of (json_dumps
            (request_message (lit "initialize")
               (initialize_params 42 (lit "/r")) (JInt 1))))].
Proof.
  destruct (lint_file 60 (lit "a.cpp") (lit "/r") (sample_world [Some notifying_server]))
    as [[r w']|] eqn:E.
  - exists r, w'. split; [reflexivity|].
    apply (proj1 initialization_follows_any_result 60%nat (lit "a.cpp") (lit "/r")
             (sample_world [Some notifying_server]) notifying_server [] r w').
    + reflexivity.
    + reflexivity.
    + repeat constructor.
      exists (publish_message (lit "file:///r/a.cpp")
                [sample_diagnostic (Some 2%Z) 4 (lit "unused")]).
      split; [apply frame_bytes_ascii|]. split; reflexivity.
    + exact E.
  - vm_compute in E. discriminate E.
Defined.

Lemma on_response_other_method p m st w st' w' :
  on_response p (Some m) st w = Some (Return st', w') ->
  (forall mv, py_get m s_method JNull = Return mv -> is_str mv s_publish = false) ->
  diagnostics st' = diagnostics st.
Proof.
  unfold on_response. intros H Hm. destruct (truthy m).
  - apply bind_inv in H as [(mv & w1 & E & H)|(e & _ & E)]; [|discriminate].
    destruct (py_get m s_method JNull) as [mv'|e]; [|discriminate].
    cbn [lift] in E. injection E as -> ->.
    rewrite (Hm mv eq_refl) in H.
    destruct (py_in s_result m && negb (initialized st)).
    + apply bind_inv in H as [(u & w2 & _ & H)|(e & _ & E)]; [|discriminate].
      injection H as <- _. reflexivity.
    + injection H as <- _. reflexivity.
  - injection H as <- _. reflexivity.
Qed.

(** A publication read by the polling loop: whatever else the message and
    its [params] hold, its diagnostics are appended. *)
Lemma on_response_publishes p kv ps ds st w :
  dict_get s_method kv = Some (JStr s_publish) ->
  dict_get s_params kv = Some (JDict ps) ->
  dict_get s_diagnostics ps = Some (JList ds) ->
  on_response p (Some (JDict kv)) st w
  = Some (Return (mkSession (diagnostics st ++ ds) (initialized st) (file_opened st)), w).
Proof.
  intros Hm Hp Hd.
  assert (T : truthy (JDict kv) = true).
  { destruct kv; [discriminate Hm|reflexivity]. }
  unfold on_response. rewrite T. cbn [py_get lift].
  unfold bind at 1. cbn [ret]. rewrite Hm. cbn [is_str]. rewrite str_eqb_refl.
  unfold extend_from. cbn [py_get obind]. rewrite Hp. cbn [py_get obind]. rewrite Hd.
  reflexivity.
Qed.

Lemma read_response_pause p tail timeout w :
  child_at p tail w -> pause tail ->
  exists w', read_response p timeout w = Some (Return None, w')
             /\ child_at p (tl tail) w'.
Proof.
  intros C P. pose proof C as (pr & Hn & Hs & Hb & Hi).
  unfold read_response. rewrite Hn, Hs.
  destruct tail as [|[e|data] later]; [| |contradiction].
  - eexists. split; [reflexivity|]. exact C.
  - eexists. split; [reflexivity|].
    apply (child_at_update p _ later w _ C). intros. cbn. auto.
Qed.

(** The draining loop: it reads the messages that arrive one after the
    other, appends the diagnostics of every publication and nothing for
    any other message, and ends at the first poll that finds nothing;
    what the server writes later is never read. *)
Lemma settle_arrivals p msgs :
  Forall wellformed msgs ->
  forall fuel acc w tail,
    child_at p (map arrival msgs ++ tail) w ->
    pause tail ->
    (List.length msgs < fuel)%nat ->
    exists w',
      settle fuel p acc w = Some (Return (acc ++ List.concat (map published msgs)), w')
      /\ child_at p (tl tail) w'.
Proof.
  induction 1 as [|i msgs Wi _ IH]; intros fuel acc w tail C P Hf;
    (destruct fuel as [|fuel]; [cbn in Hf; lia|]); cbn [settle].
  - cbn [map app] in C. unfold bind.
    destruct (read_response_pause p tail 100 w C P) as (w' & -> & C').
    exists w'. cbn [List.concat map]. now rewrite List.app_nil_r.
  - cbn [map app] in C. unfold arrival at 1 in C. rewrite frame_bytes_ascii in C.
    assert (V : valid_json (message_of i) = true).
    { destruct i as [uri ds|m]; cbn [message_of wellformed] in *.
      - destruct Wi as [Vu Vd]. cbn. now rewrite Vu, Vd.
      - now destruct Wi. }
    destruct (read_response_message p _ _ 100 w C V) as (w1 & R & C1 & _).
    unfold bind at 1. rewrite R.
    destruct (IH fuel (acc ++ published i) w1 tail C1 P) as (w2 & S & C2);
      [cbn in Hf; lia|].
    exists w2. split; [|exact C2].
    cbn [map List.concat]. rewrite List.app_assoc, <- S.
    destruct i as [uri ds|m]; cbn [message_of published].
    + change (truthy (publish_message uri ds)) with true. cbv iota.
      unfold bind at 1.
      change (lift (py_get (publish_message uri ds) s_method JNull) w1)
        with (Some (Return (JStr s_publish), w1)).
      cbv iota beta. change (is_str (JStr s_publish) s_publish) with true. cbv iota.
      unfold bind at 1.
      change (lift (extend_from (publish_message uri ds) acc) w1)
        with (Some (Return (acc ++ ds), w1)).
      reflexivity.
    + destruct Wi as (_ & kv & -> & NE & Hm).
      assert (T : truthy (JDict kv) = true) by (destruct kv; [contradiction|reflexivity]).
      rewrite T. cbn [py_get lift]. unfold bind at 1. unfold ret at 1. rewrite Hm.
      unfold bind at 1. unfold ret at 1. now rewrite List.app_nil_r.
Qed.

(** C5, as the code has it: the session never looks at the document a
    publication names.  A publication read by the polling loop has its
    diagnostics appended whatever else it holds, and a message with
    another method contributes none; the draining loop does the same with
    the messages that arrive one after the other, and ends at the first
    poll that finds nothing.  So a session whose server answers the
    handshake and publishes diagnostics returns those of every publication
    that arrives before that poll, in order of arrival and whatever
    document each one names, and none that is published later. *)
Theorem publications_collected_whatever_uri :
  (forall p kv ps ds st w,
      dict_get s_method kv = Some (JStr s_publish) ->
      dict_get s_params kv = Some (JDict ps) ->
      dict_get s_diagnostics ps = Some (JList ds) ->
      on_response p (Some (JDict kv)) st w
      = Some (Return (mkSession (diagnostics st ++ ds) (initialized st) (file_opened st)),
              w))
  /\ (forall p m st w st' w',
        on_response p (Some m) st w = Some (Return st', w') ->
        (forall mv, py_get m s_method JNull = Return mv -> is_str mv s_publish = false) ->
        diagnostics st' = diagnostics st)
  /\ (forall p msgs fuel acc w tail,
        Forall wellformed msgs ->
        child_at p (map arrival msgs ++ tail) w ->
        pause tail ->
        (List.length msgs < fuel)%nat ->
        exists w',
          settle fuel p acc w
          = Some (Return (acc ++ List.concat (map published msgs)), w')
          /\ child_at p (tl tail) w')
  /\ (forall fuel filepath root w id uri d ds msgs tail rest text,
        pending w
        = Some (mkLaunch true
                  (Ready (frame_bytes (response_message id))
                     :: arrival (Publication uri (d :: ds))
                     :: map arrival msgs ++ tail)) :: rest ->
        files w (resolve w root filepath) = Some text ->
        Forall wellformed (Publication uri (d :: ds) :: msgs) ->
        pause tail ->
        (List.length msgs + 3 <= fuel)%nat ->
        exists w',
          lint_file fuel filepath root w
          = Some (Return ((d :: ds) ++ List.concat (map published msgs)), w')).
Proof.
  split; [exact on_response_publishes|].
  split; [exact on_response_other_method|].
  split; [intros p msgs fuel acc w tail W; now apply settle_arrivals|].
  intros fuel filepath root w id uri d ds msgs tail rest text Hp Hf V P Hfuel.
  destruct fuel as [|[|fuel]]; try lia.
  set (l := mkLaunch true
              (Ready (frame_bytes (response_message id))
                 :: arrival (Publication uri (d :: ds))
                 :: map arrival msgs ++ tail)) in *.
  set (p := List.length (procs w)).
  set (w1 := set_procs (procs w ++ [mkProcess (emits l) [] (accepts_input l) [] false false])
               (set_pending rest w)).
  assert (Hn1 : nth_error (procs w1) p
                = Some (mkProcess (emits l) [] (accepts_input l) [] false false)).
  { unfold w1, p. cbn [procs set_procs]. rewrite nth_error_app2 by lia.
    now rewrite Nat.sub_diag. }
  set (m := request_message (lit "initialize") (initialize_params (getpid w1) root) (JInt 1)).
  set (w2 := update_proc p (fun pr =>
               mkProcess (script pr) (buffer pr) (stdin_ok pr)
                         (written pr ++ [map byte_of_N (content_of (json_dumps m))])
                         (terminated pr) (reaped pr)) w1).
  assert (W : send_request p (lit "initialize") (initialize_params (getpid w1) root) (JInt 1) w1
              = Some (Return tt, w2)).
  { unfold send_request. apply (write_content_dumps p m w1 _ Hn1). reflexivity. }
  assert (C2 : child_at p (Ready (ascii_bytes (content_of (json_dumps
                               (response_message id))))
                           :: arrival (Publication uri (d :: ds))
                           :: map arrival msgs ++ tail) w2).
  { unfold w2, child_at, update_proc. cbn [procs set_procs].
    rewrite nth_error_list_update, Nat.eqb_refl, Hn1. cbn [option_map].
    eexists. split; [reflexivity|]. cbn [script buffer stdin_ok].
    unfold l. cbn [emits accepts_input]. rewrite frame_bytes_ascii. auto. }
  assert (R2 : running p w2).
  { unfold w2, running, update_proc. cbn [procs set_procs].
    rewrite nth_error_list_update, Nat.eqb_refl, Hn1. cbn [option_map].
    eexists. split; [reflexivity|]. split; reflexivity. }
  destruct (handshake_iteration (S fuel) p (resolve w1 root filepath) (clock w2) _ _ text
              w2 C2)
    as (w3 & E3 & C3 & K3 & F3 & _); try reflexivity.
  { exact Hf. }
  { rewrite Z.sub_diag. reflexivity. }
  pose proof (Forall_inv V) as Wp. cbn [wellformed] in Wp. destruct Wp as [Vu Vd].
  pose proof (Forall_inv_tail V) as V'.
  change (arrival (Publication uri (d :: ds))) with (publication (uri, d :: ds)) in C3.
  destruct (publication_iteration fuel p (resolve w1 root filepath) (clock w2)
              uri d ds _ w3 C3 Vu Vd)
    as (w4 & E4 & C4).
  { rewrite K3, Z.sub_diag. reflexivity. }
  destruct (settle_arrivals p msgs V' fuel (d :: ds) w4 tail C4 P) as (w5 & E5 & _);
    [lia|].
  unfold response_message in E3.
  assert (L : lint_loop (S (S fuel)) p (resolve w1 root filepath) (clock w2)
                (mkSession [] false false) w2
              = Some (Return ((d :: ds) ++ List.concat (map published msgs)), w5)).
  { rewrite E3, E4. exact E5. }
  assert (R5 : running p w5)
    by exact (lint_loop_running p p _ _ _ _ w2 _ w5 R2 L).
  destruct (terminate_wait_reaps p w5 R5) as (w6 & F & _).
  exists w6.
  unfold lint_file. unfold bind at 1. rewrite (Popen_ok w l rest Hp).
  fold w1. fold p. unfold bind at 1. unfold bind at 1.
  unfold bind at 1. rewrite W.
  unfold bind at 1. unfold time at 1.
  unfold bind at 1. rewrite L.
  unfold bind in F |- *.
  destruct (terminate p w5) as [[[[]|e] w7]|]; try discriminate.
  destruct (wait p w7) as [[[[]|e] w8]|]; try discriminate.
  injection F as <-. reflexivity.
Qed.

Lemma publications_collected_whatever_uri_witness :
  exists w',
    lint_file 60 (lit "a.cpp") (lit "/r")
      (sample_world
         [Some (mkLaunch true
                  (Ready (frame_bytes (response_message 1))
                     :: arrival (Publication (lit "file:///r/other.cpp")
                                   [sample_diagnostic (Some 1%Z) 7 (lit "undeclared")])
                     :: map arrival
                          [Another (notification_message (lit "$/progress") (JDict []));
                           Publication (lit "file:///r/a.cpp")
                             [sample_diagnostic (Some 2%Z) 4 (lit "unused")]]
                     ++ [Idle 5;
                         arrival (Publication (lit "file:///r/a.cpp")
                                    [sample_diagnostic (Some 1%Z) 9 (lit "late")])]))])
    = Some (Return [sample_diagnostic (Some 1%Z) 7 (lit "undeclared");
                    sample_diagnostic (Some 2%Z) 4 (lit "unused")], w').
Proof.
  apply (proj2 (proj2 (proj2 publications_collected_whatever_uri))
           60%nat (lit "a.cpp") (lit "/r")
           (sample_world
              [Some (mkLaunch true
                       (Ready (frame_bytes (response_message 1))
                          :: arrival (Publication (lit "file:///r/other.cpp")
                                        [sample_diagnostic (Some 1%Z) 7 (lit "undeclared")])
                          :: map arrival
                               [Another (notification_message (lit "$/progress") (JDict []));
                                Publication (lit "file:///r/a.cpp")
                                  [sample_diagnostic (Some 2%Z) 4 (lit "unused")]]
                          ++ [Idle 5;
                              arrival (Publication (lit "file:///r/a.cpp")
                                         [sample_diagnostic (Some 1%Z) 9 (lit "late")])]))])
           1%Z (lit "file:///r/other.cpp")
           (sample_diagnostic (Some 1%Z) 7 (lit "undeclared")) []
           [Another (notification_message (lit "$/progress") (JDict []));
            Publication (lit "file:///r/a.cpp")
              [sample_diagnostic (Some 2%Z) 4 (lit "unused")]]
           [Idle 5;
            arrival (Publication (lit "file:///r/a.cpp")
                       [sample_diagnostic (Some 1%Z) 9 (lit "late")])]
           [] (lit "int x;")).
  - reflexivity.
  - reflexivity.
  - constructor; [split; reflexivity|].
    constructor; [|constructor; [split; reflexivity|constructor]].
    split; [reflexivity|]. eexists. split; [reflexivity|]. split; [discriminate|reflexivity].
  - exact I.
  - cbn. lia.
Defined.

(** C5 as stated fails: diagnostics published for another document are
    returned for the file being analysed. *)
Lemma other_document_is_collected :
  exists w',
    lint_file 60 (lit "a.cpp") (lit "/r")
      (sample_world
         [Some (mkLaunch true
                  [Ready (frame_bytes (response_message 1));
                   publication (lit "file:///r/other.cpp",
                                [sample_diagnostic (Some 1%Z) 7 (lit "undeclared")])])])
    = Some (Return [sample_diagnostic (Some 1%Z) 7 (lit "undeclared")], w').
Proof. eexists. vm_compute. reflexivity. Qed.

(** C1 as stated fails: the response to some other request, numbered 99,
    arrives and no response to the [initialize] request (numbered 1) ever
    does; the session sends [initialized] and opens the document all the
    same. *)
Lemma unrelated_response_initializes :
  exists r w',
    lint_file 60 (lit "a.cpp") (lit "/r")
      (sample_world [Some (mkLaunch true [Ready (frame_bytes (response_message 99))])])
    = Some (r, w')
    /\ written_to 0 w'
       = [frame_bytes (request_message (lit "initialize")
                         (initialize_params 42 (lit "/r")) (JInt 1));
          frame_bytes (notification_message (lit "initialized") (JDict []));
          frame_bytes (notification_message (lit "textDocument/didOpen")
                         (did_open_params (lit "/r/a.cpp") (lit "int x;")))].
Proof. eexists _, _. split; vm_compute; reflexivity. Qed.

(* ================================================================= *)
(** * Further properties *)

(* ================================================================= *)
(** ** The report, whatever the diagnostics hold *)

Lemma main_loop_total fuel todo root :
  forall total w t lines w',
    main_loop fuel todo root total w = Some (Return t, lines, w') ->
    t = (total + Z.of_nat (List.length lines))%Z.
Proof.
  induction todo as [|f todo IH]; intros total w t lines w' H; cbn [main_loop] in H.
  - injection H as <- <- _. cbn [List.length]. lia.
  - destruct (lint_file fuel f root w) as [[[diags|e] w1]|]; try discriminate.
    destruct (report f diags) as [[[n|e] ls]|] eqn:R; try discriminate.
    destruct (main_loop fuel todo root (total + n)%Z w1) as [[[r ls'] w2]|] eqn:L;
      try discriminate.
    injection H as -> <- _.
    apply IH in L. apply report_counts in R as [Hn Hl].
    rewrite List.length_app, Hl. lia.
Qed.

(** X1: whenever [main] returns, the number its summary gives is the
    number of warning lines it printed between the heading and the
    summary, and its exit status is 1 exactly when it printed such a line;
    this needs nothing of the shape of the diagnostics.  With no file to
    check it prints one line, returns 0 and leaves the world as it was. *)
Theorem summary_counts_printed_lines fuel argv w code out w' :
  main fuel argv w = Some (Return code, out, w') ->
  match files_of argv w with
  | [] => out = [lit "No files to check"] /\ code = 0%Z /\ w' = w
  | todo =>
      exists lines,
        out = heading todo :: lines ++ summary (Z.of_nat (List.length lines))
        /\ code = (if nonempty lines then 1 else 0)%Z
  end.
Proof.
  unfold main. destruct (files_of argv w) as [|f todo].
  - intros H. injection H as <- <- <-. auto.
  - destruct (main_loop fuel (f :: todo) (getcwd w) 0 w) as [[[[total|e] lines] w1]|] eqn:L;
      try discriminate.
    intros H. injection H as <- <- _.
    apply main_loop_total in L. rewrite Z.add_0_l in L. subst total.
    exists lines. split; [reflexivity|].
    destruct lines; reflexivity.
Qed.

Lemma summary_counts_printed_lines_witness :
  exists lines,
    [lit "Checking 1 file(s) with clangd...";
     lit "a.cpp:5:3: warning: unused [misc-unused]";
     lit "a.cpp:8:3: warning: shadow [misc-unused]"] ++ summary 2
    = heading [lit "a.cpp"] :: lines ++ summary (Z.of_nat (List.length lines))
    /\ 1%Z = (if nonempty lines then 1 else 0)%Z.
Proof.
  let r := eval vm_compute in
             (main 60 [lit "clangd_lint.py"; lit "a.cpp"]
                (sample_world
                   [Some (sample_server [sample_diagnostic (Some 2%Z) 4 (lit "unused");
                                         sample_diagnostic (Some 4%Z) 5 (lit "hint");
                                         sample_diagnostic (Some 1%Z) 7 (lit "shadow")])])) in
  assert (E : main 60 [lit "clangd_lint.py"; lit "a.cpp"]
                (sample_world
                   [Some (sample_server [sample_diagnostic (Some 2%Z) 4 (lit "unused");
                                         sample_diagnostic (Some 4%Z) 5 (lit "hint");
                                         sample_diagnostic (Some 1%Z) 7 (lit "shadow")])])
              = r) by (vm_compute; reflexivity).
  exact (summary_counts_printed_lines _ _ _ _ _ _ E).
Defined.











(* ================================================================= *)
(** ** Publications that hold no diagnostics *)

(** X4: what the loop makes of a [publishDiagnostics] message that holds
    no list of diagnostics.  Without [params], or with [params] that have
    no [diagnostics], the message changes nothing and is no error; with
    [params] that are not an object it raises [AttributeError]; with
    [diagnostics] that are [null], a truth value or a number it raises
    [TypeError].  Nothing is written to the server in any of these cases. *)
Theorem publication_without_diagnostics p kv st w :
  dict_get s_method kv = Some (JStr s_publish) ->
  (dict_get s_params kv = None ->
   on_response p (Some (JDict kv)) st w = Some (Return st, w))
  /\ (forall params,
        dict_get s_params kv = Some (JDict params) ->
        dict_get s_diagnostics params = None ->
        on_response p (Some (JDict kv)) st w = Some (Return st, w))
  /\ (forall v,
        dict_get s_params kv = Some v -> (forall params, v <> JDict params) ->
        on_response p (Some (JDict kv)) st w = Some (Raise AttributeError, w))
  /\ (forall params v,
        dict_get s_params kv = Some (JDict params) ->
        dict_get s_diagnostics params = Some v ->
        v = JNull \/ (exists b, v = JBool b) \/ (exists z, v = JInt z) ->
        on_response p (Some (JDict kv)) st w = Some (Raise TypeError, w)).
Proof.
  intros Hm.
  assert (T : truthy (JDict kv) = true).
  { destruct kv; [discriminate Hm|reflexivity]. }
  assert (E : forall o,
             extend_from (JDict kv) (diagnostics st) = o ->
             on_response p (Some (JDict kv)) st w
             = match o with
               | Return ds => Some (Return (mkSession ds (initialized st) (file_opened st)), w)
               | Raise e => Some (Raise e, w)
               end).
  { intros o <-. unfold on_response. rewrite T. cbn [py_get lift].
    unfold bind at 1. cbn [ret]. rewrite Hm. cbn [is_str]. rewrite str_eqb_refl.
    unfold bind. destruct (extend_from (JDict kv) (diagnostics st)); reflexivity. }
  repeat split.
  - intros Hp. rewrite (E (Return (diagnostics st))).
    + now destruct st.
    + unfold extend_from. cbn [py_get obind]. rewrite Hp. cbn [py_get obind dict_get py_extend].
      now rewrite List.app_nil_r.
  - intros params Hp Hd. rewrite (E (Return (diagnostics st))).
    + now destruct st.
    + unfold extend_from. cbn [py_get obind]. rewrite Hp. cbn [py_get obind]. rewrite Hd.
      cbn [py_extend]. now rewrite List.app_nil_r.
  - intros v Hp Hv. rewrite (E (Raise AttributeError)); [reflexivity|].
    unfold extend_from. cbn [py_get obind]. rewrite Hp.
    destruct v as [| | | | |params]; try reflexivity. now elim (Hv params).
  - intros params v Hp Hd Hv. rewrite (E (Raise TypeError)); [reflexivity|].
    unfold extend_from. cbn [py_get obind]. rewrite Hp. cbn [py_get obind]. rewrite Hd.
    destruct Hv as [->|[(b & ->)|(z & ->)]]; reflexivity.
Qed.

Lemma publication_without_diagnostics_witness :
  on_response 0 (Some (notification_message s_publish (JDict [(lit "uri", JStr (lit "file:///r/a.cpp"))])))
    (mkSession [] true true) (sample_world [])
  = Some (Return (mkSession [] true true), sample_world []).
Proof.
  exact (proj1 (proj2 (publication_without_diagnostics 0
                         [(lit "jsonrpc", JStr (lit "2.0")); (lit "method", JStr s_publish);
                          (lit "params", JDict [(lit "uri", JStr (lit "file:///r/a.cpp"))])]
                         (mkSession [] true true) (sample_world []) eq_refl))
           [(lit "uri", JStr (lit "file:///r/a.cpp"))] eq_refl eq_refl).
Defined.

(* ================================================================= *)
(** ** The senders *)

Lemma ascii_bytes_below s : is_ascii s -> Forall (fun b => Byte.to_N b < 128) (ascii_bytes s).
Proof.
  unfold is_ascii, ascii_bytes. induction 1 as [|c s H _ IH]; cbn [map]; constructor; auto.
  rewrite to_N_byte_of_N; lia.
Qed.

Lemma written_to_update p f w pr :
  nth_error (procs w) p = Some pr ->
  written_to p (update_proc p f w) = written (f pr).
Proof.
  intros H. unfold written_to, update_proc. cbn [procs set_procs].
  now rewrite nth_error_list_update, Nat.eqb_refl, H.
Qed.

(** Writing a printed message: one frame more, or a broken pipe. *)
Lemma write_content_inv p m w r w' :
  write_content p (content_of (json_dumps m)) w = Some (r, w') ->
  (exists pr, nth_error (procs w) p = Some pr /\ stdin_ok pr = true
              /\ r = Return tt
              /\ w' = update_proc p (fun pr =>
                        mkProcess (script pr) (buffer pr) (stdin_ok pr)
                                  (written pr ++ [frame_bytes m])
                                  (terminated pr) (reaped pr)) w)
  \/ (exists pr, nth_error (procs w) p = Some pr /\ stdin_ok pr = false
                 /\ r = Raise BrokenPipeError /\ w' = w).
Proof.
  unfold write_content, frame_bytes.
  rewrite (utf8_encode_ascii _ (content_of_ascii _ (json_dumps_ascii m))).
  unfold stdin_write. destruct (nth_error (procs w) p) as [pr|] eqn:Hn; [|discriminate].
  destruct (stdin_ok pr) eqn:Hs; intros H; injection H as <- <-.
  - left. exists pr. auto.
  - right. exists pr. auto.
Qed.

Lemma write_content_frame p m w r w' :
  write_content p (content_of (json_dumps m)) w = Some (r, w') ->
  one_frame_sent p m w r w'.
Proof.
  intros H. exists (ascii_bytes (json_dumps m)).
  split; [exact (utf8_encode_ascii _ (json_dumps_ascii m))|].
  split; [exact (ascii_bytes_below _ (json_dumps_ascii m))|].
  apply write_content_inv in H as [(pr & Hn & Hs & -> & ->)|(pr & _ & _ & -> & ->)];
    [left|right; auto].
  split; [reflexivity|].
  rewrite (written_to_update _ _ _ _ Hn). cbn [written].
  unfold written_to. rewrite Hn. f_equal. f_equal.
  rewrite frame_bytes_ascii. unfold ascii_bytes, content_of.
  rewrite List.length_map.
  change (58 :: 32 :: str_of_N (N.of_nat (List.length (json_dumps m))) ++ [13; 10; 13; 10])
    with ([58; 32] ++ str_of_N (N.of_nat (List.length (json_dumps m))) ++ [13; 10; 13; 10]).
  change (58 :: 32 :: str_of_N (N.of_nat (List.length (json_dumps m)))
            ++ 13 :: 10 :: 13 :: 10 :: json_dumps m)
    with ([58; 32] ++ str_of_N (N.of_nat (List.length (json_dumps m)))
            ++ [13; 10; 13; 10] ++ json_dumps m).
  rewrite !List.map_app, <- !List.app_assoc. reflexivity.
Qed.

(** X5: whatever the parameters hold, a sender either adds exactly one
    frame to what the child was sent or fails with [BrokenPipeError]
    leaving everything as it was; it never fails to encode.  The printed
    message holds ASCII only, so that the character count the header
    announces is the number of bytes of the body. *)
Theorem senders_announce_byte_length :
  (forall proc method params msg_id w r w',
      send_request proc method params msg_id w = Some (r, w') ->
      one_frame_sent proc (request_message method params msg_id) w r w')
  /\ (forall proc method params w r w',
        send_notification proc method params w = Some (r, w') ->
        one_frame_sent proc (notification_message method params) w r w').
Proof.
  split; intros; now apply write_content_frame.
Qed.

Lemma senders_announce_byte_length_witness :
  exists r w',
    send_notification 0 (lit "textDocument/didOpen")
      (did_open_params (lit "/r/a.cpp") [233; 55357; 128512])
      (set_procs [mkProcess [] [] true [] false false] (sample_world []))
    = Some (r, w')
    /\ one_frame_sent 0
         (notification_message (lit "textDocument/didOpen")
            (did_open_params (lit "/r/a.cpp") [233; 55357; 128512]))
         (set_procs [mkProcess [] [] true [] false false] (sample_world [])) r w'.
Proof.
  eexists _, _. split.
  - reflexivity.
  - apply (proj2 senders_announce_byte_length). reflexivity.
Defined.

(* ================================================================= *)
(** ** Reading header blocks *)

Lemma read_message_body stream headers rest :
  read_headers (S (List.length stream)) stream [] = Some (Return headers, rest) ->
  read_message stream = read_body headers rest.
Proof. intros H. unfold read_message, read_body. now rewrite H. Qed.

Lemma padding_space pad : padding pad -> Forall (fun c => py_isspace c = true) pad.
Proof.
  intros H. eapply Forall_impl; [|exact H]. cbv beta.
  intros c [-> | [-> | ->]]; reflexivity.
Qed.

Lemma padding_line pad : padding pad -> Forall (fun c => c < 128 /\ c <> 10) pad.
Proof.
  intros H. eapply Forall_impl; [|exact H]. cbv beta.
  intros c [-> | [-> | ->]]; lia.
Qed.

Lemma strip_spaces space ws : Forall (fun c => space c = true) ws -> strip space ws = [].
Proof.
  intros H. unfold strip.
  rewrite <- (List.app_nil_r ws), (lstrip_spaces space ws [] H). reflexivity.
Qed.

Lemma header_line_chars line : header_line line -> Forall (fun c => c < 128 /\ c <> 10) line.
Proof.
  intros (F & _). eapply Forall_impl; [|exact F]. cbv beta. lia.
Qed.

(** The header loop on a block: every line is taken in, in order. *)
Lemma read_headers_block lines last tail :
  Forall (fun lp => header_line (fst lp) /\ padding (snd lp)) lines ->
  padding last ->
  forall headers fuel,
    (List.length lines < fuel)%nat ->
    read_headers fuel (ascii_bytes (header_block lines last) ++ tail) headers
    = Some (Return (fold_left add_header (map fst lines) headers), tail).
Proof.
  intros F P. induction F as [|[line pad] lines [Hl Hp] _ IH]; intros headers fuel Hf;
    (destruct fuel as [|fuel]; [cbn [List.length] in Hf; lia|]).
  - unfold header_block, ascii_bytes. cbn [flat_map app map fold_left].
    rewrite map_app. cbn [map]. rewrite <- List.app_assoc. cbn [app read_headers].
    rewrite (readline_line _ _ (padding_line _ P)).
    change [x0a] with (map byte_of_N [10]). rewrite <- map_app.
    rewrite utf8_decode_ascii.
    2:{ apply Forall_app. split; [|repeat constructor; lia].
        eapply Forall_impl; [|exact (padding_line _ P)]. cbv beta. lia. }
    unfold py_strip. rewrite strip_spaces; [reflexivity|].
    apply Forall_app. split; [now apply padding_space|repeat constructor].
  - cbn [fst snd] in Hl, Hp. cbn [List.length] in Hf.
    unfold header_block, ascii_bytes. cbn [flat_map fst snd map fold_left].
    replace (((line ++ pad ++ [10])
                ++ flat_map (fun lp => fst lp ++ snd lp ++ [10]) lines) ++ last ++ [10])
      with ((line ++ pad) ++ 10 :: header_block lines last)
      by (unfold header_block; rewrite <- !List.app_assoc; reflexivity).
    rewrite map_app. cbn [map]. rewrite <- List.app_assoc. cbn [app read_headers].
    assert (L : Forall (fun c => c < 128 /\ c <> 10) (line ++ pad)).
    { apply Forall_app. split; [now apply header_line_chars|now apply padding_line]. }
    rewrite (readline_line _ _ L).
    change [x0a] with (map byte_of_N [10]). rewrite <- map_app.
    rewrite utf8_decode_ascii.
    2:{ apply Forall_app. split; [|repeat constructor; lia].
        eapply Forall_impl; [|exact L]. cbv beta. lia. }
    assert (S : py_strip ((line ++ pad) ++ [10]) = line).
    { rewrite <- List.app_assoc. destruct Hl as (_ & (c & t & E & Hc) & (c' & t' & R & Hc')).
      apply strip_core.
      - exists c, t. split; [exact E|]. now apply visible_not_space.
      - exists c', t'. split; [exact R|]. now apply visible_not_space.
      - apply Forall_app. split; [now apply padding_space|repeat constructor]. }
    rewrite S.
    assert (N0 : line <> []).
    { destruct Hl as (_ & (c & t & -> & _) & _). discriminate. }
    fold (ascii_bytes (header_block lines last)).
    rewrite <- (IH (add_header headers line) fuel) by lia.
    unfold add_header. destruct line as [|c0 t0]; [contradiction|].
    destruct (split_colon_space (c0 :: t0)) as [[key value]|]; reflexivity.
Qed.

Lemma header_block_length lines last :
  (List.length lines <= List.length (header_block lines last))%nat.
Proof.
  unfold header_block. rewrite List.length_app.
  apply Nat.le_trans with (2 := Nat.le_add_r _ _).
  induction lines as [|lp lines IH]; cbn [flat_map List.length]; [lia|].
  rewrite !List.length_app. cbn [List.length]. lia.
Qed.

(** One message off a stream that starts with a header block. *)
Lemma read_message_block lines last tail :
  Forall (fun lp => header_line (fst lp) /\ padding (snd lp)) lines ->
  padding last ->
  read_message (ascii_bytes (header_block lines last) ++ tail)
  = read_body (fold_left add_header (map fst lines) []) tail.
Proof.
  intros F P. apply read_message_body. apply read_headers_block; [exact F|exact P|].
  rewrite List.length_app. unfold ascii_bytes. rewrite List.length_map.
  pose proof (header_block_length lines last). lia.
Qed.

Lemma length_line_header n : header_line (length_line n).
Proof.
  unfold length_line.
  destruct (str_of_N_shape (N.of_nat n)) as (c & t & E & Hc & Ht & _).
  assert (F : Forall (fun x => is_digit x = true) (str_of_N (N.of_nat n)))
    by apply uint_chars_digits.
  assert (NE : str_of_N (N.of_nat n) <> []) by (rewrite E; discriminate).
  split; [|split].
  - apply Forall_app. split; [repeat constructor; lia|].
    repeat (constructor; [lia|]).
    eapply Forall_impl; [|exact F]. intros x Hx. apply is_digit_range in Hx. lia.
  - eexists _, _. split; reflexivity.
  - destruct (digits_rev_head _ NE F) as (c' & t' & R & Hc').
    exists c', (t' ++ rev (s_content_length ++ [58; 32])). split.
    + replace (s_content_length ++ 58 :: 32 :: str_of_N (N.of_nat n))
        with ((s_content_length ++ [58; 32]) ++ str_of_N (N.of_nat n))
        by (rewrite <- List.app_assoc; reflexivity).
      now rewrite rev_app_distr, R.
    + apply is_digit_range in Hc'. unfold visible.
      apply andb_true_iff. split; apply N.leb_le; lia.
Qed.

(** A test for header lines. *)
Lemma header_line_test line :
  forallb (fun c => (32 <=? c) && (c <=? 126)) line
  && match line with c :: _ => visible c | [] => false end
  && match rev line with c :: _ => visible c | [] => false end = true ->
  header_line line.
Proof.
  intros H. apply andb_true_iff in H as [H H3]. apply andb_true_iff in H as [H1 H2].
  split; [|split].
  - apply Forall_forall. intros c Hc.
    pose proof (proj1 (forallb_forall _ _) H1 c Hc) as Hb.
    apply andb_true_iff in Hb as [Ha Hb]. apply N.leb_le in Ha, Hb. lia.
  - destruct line as [|c t]; [discriminate|]. now exists c, t.
  - destruct (rev line) as [|c t]; [discriminate|]. now exists c, t.
Qed.

Lemma split_length_line n :
  split_colon_space (length_line n) = Some (s_content_length, str_of_N (N.of_nat n)).
Proof. reflexivity. Qed.

(** Only the [Content-Length] header bears on what is read. *)
Lemma read_body_ext h1 h2 tail :
  dict_get s_content_length h1 = dict_get s_content_length h2 ->
  read_body h1 tail = read_body h2 tail.
Proof. intros H. unfold read_body. now rewrite H. Qed.

Lemma add_header_other headers line :
  (forall v, split_colon_space line <> Some (s_content_length, v)) ->
  dict_get s_content_length (add_header headers line) = dict_get s_content_length headers.
Proof.
  intros H. unfold add_header.
  destruct (split_colon_space line) as [[key value]|]; [|reflexivity].
  apply dict_get_set_other. intros <-. now elim (H value).
Qed.

Lemma fold_add_header_other lines :
  (forall l v, In l lines -> split_colon_space l <> Some (s_content_length, v)) ->
  forall headers,
    dict_get s_content_length (fold_left add_header lines headers)
    = dict_get s_content_length headers.
Proof.
  induction lines as [|l lines IH]; intros H headers; [reflexivity|].
  cbn [fold_left]. rewrite IH by (intros l' v Hl; apply H; now right).
  apply add_header_other. intros v. apply H. now left.
Qed.

Lemma padding_cr : padding [13].
Proof. constructor; [right; right; reflexivity|constructor]. Qed.

Lemma crlf_lines lines :
  Forall header_line lines ->
  Forall (fun lp : str * str => header_line (fst lp) /\ padding (snd lp))
         (map (fun l => (l, [13])) lines).
Proof.
  induction 1 as [|l lines H _ IH]; cbn [map]; constructor; [|exact IH].
  split; [exact H|exact padding_cr].
Qed.

Lemma map_fst_crlf (lines : list str) : map fst (map (fun l => (l, [13])) lines) = lines.
Proof. rewrite map_map. cbn [fst]. apply map_id. Qed.

Lemma read_message_crlf lines tail :
  Forall header_line lines ->
  read_message (ascii_bytes (crlf_block lines) ++ tail)
  = read_body (fold_left add_header lines []) tail.
Proof.
  intros F. unfold crlf_block.
  rewrite (read_message_block _ [13] tail (crlf_lines lines F) padding_cr).
  now rewrite map_fst_crlf.
Qed.

(** What is read after a header block that announces [n] bytes. *)
Lemma read_body_announced headers n body rest :
  dict_get s_content_length headers = Some (str_of_N (N.of_nat n)) ->
  List.length body = n ->
  read_body headers (body ++ rest)
  = match n with
    | O => Some (Return None, rest)
    | S _ =>
        match utf8_decode body with
        | None => Some (Raise UnicodeDecodeError, rest)
        | Some text =>
            match json_loads text with
            | Parsed v => Some (Return (Some v), rest)
            | Invalid => Some (Raise JSONDecodeError, rest)
            | Beyond => None
            end
        end
    end.
Proof.
  intros H L. unfold read_body. rewrite H.
  assert (Fd : Forall (fun x => is_digit x = true) (str_of_N (N.of_nat n)))
    by apply uint_chars_digits.
  assert (Nd : str_of_N (N.of_nat n) <> []).
  { destruct (str_of_N_shape (N.of_nat n)) as (c & t & -> & _). discriminate. }
  rewrite (py_int_digits _ Nd Fd), digits_value_str_of_N.
  destruct n as [|n].
  - destruct body; [|discriminate L]. reflexivity.
  - replace (Z.of_N (N.of_nat (S n)) =? 0)%Z with false
      by (symmetry; apply Z.eqb_neq; lia).
    unfold stream_read.
    replace (Z.of_N (N.of_nat (S n)) <? -1)%Z with false
      by (symmetry; apply Z.ltb_ge; lia).
    replace (Z.of_N (N.of_nat (S n)) =? -1)%Z with false
      by (symmetry; apply Z.eqb_neq; lia).
    replace (Z.to_nat (Z.of_N (N.of_nat (S n)))) with (List.length body) by lia.
    rewrite firstn_app, Nat.sub_diag, firstn_all, firstn_O, List.app_nil_r.
    rewrite skipn_app, Nat.sub_diag, skipn_all, skipn_O. cbn [app].
    destruct (utf8_decode body) as [text|]; [|reflexivity].
    destruct (json_loads text); reflexivity.
Qed.

Lemma read_message_announced body rest :
  read_message (ascii_bytes (crlf_block [length_line (List.length body)]) ++ body ++ rest)
  = match List.length body with
    | O => Some (Return None, rest)
    | S _ =>
        match utf8_decode body with
        | None => Some (Raise UnicodeDecodeError, rest)
        | Some text =>
            match json_loads text with
            | Parsed v => Some (Return (Some v), rest)
            | Invalid => Some (Raise JSONDecodeError, rest)
            | Beyond => None
            end
        end
    end.
Proof.
  rewrite read_message_crlf by (constructor; [apply length_line_header|constructor]).
  apply read_body_announced; [|reflexivity].
  cbn [fold_left]. unfold add_header. rewrite split_length_line.
  cbn [dict_set dict_get]. now rewrite str_eqb_refl.
Qed.

(** X6: the body of a message is the announced number of bytes, whatever
    they hold.  After a header that announces the length of [body], the
    reader takes exactly these bytes and leaves what follows them: it
    raises [UnicodeDecodeError] when they are not UTF-8 and
    [JSONDecodeError] when they are not a JSON text, and returns the value
    they denote otherwise.  A header that announces no byte gives no
    message. *)
Theorem body_is_the_announced_bytes body rest :
  body <> [] ->
  (utf8_decode body = None ->
   read_message (ascii_bytes (crlf_block [length_line (List.length body)]) ++ body ++ rest)
   = Some (Raise UnicodeDecodeError, rest))
  /\ (forall text,
        utf8_decode body = Some text -> json_loads text = Invalid ->
        read_message (ascii_bytes (crlf_block [length_line (List.length body)]) ++ body ++ rest)
        = Some (Raise JSONDecodeError, rest))
  /\ (forall text v,
        utf8_decode body = Some text -> json_loads text = Parsed v ->
        read_message (ascii_bytes (crlf_block [length_line (List.length body)]) ++ body ++ rest)
        = Some (Return (Some v), rest))
  /\ read_message (ascii_bytes (crlf_block [length_line 0]) ++ rest) = Some (Return None, rest).
Proof.
  intros NE. rewrite (read_message_announced body rest).
  destruct body as [|b body]; [contradiction|]. cbn [List.length].
  split; [now intros ->|].
  split; [now intros text -> ->|].
  split; [now intros text v -> ->|].
  exact (read_message_announced [] rest).
Qed.

Lemma body_is_the_announced_bytes_witness :
  read_message (ascii_bytes (crlf_block [length_line 2]) ++ [xc3; x28] ++ [x7b; x7d])
  = Some (Raise UnicodeDecodeError, [x7b; x7d])
  /\ read_message (ascii_bytes (crlf_block [length_line 2]) ++ [x7b; x5d] ++ [x7b; x7d])
     = Some (Raise JSONDecodeError, [x7b; x7d]).
Proof.
  split.
  - apply (proj1 (body_is_the_announced_bytes [xc3; x28] [x7b; x7d] ltac:(discriminate))).
    reflexivity.
  - apply (proj1 (proj2 (body_is_the_announced_bytes [x7b; x5d] [x7b; x7d]
                           ltac:(discriminate)))
             (lit "{]")); reflexivity.
Defined.

(** X7: only the last [Content-Length] header bears on what is read.
    Header lines before it, another [Content-Length] among them, and
    header lines after it that are no [Content-Length] change nothing: the
    result is that of the block that holds the one line. *)
Theorem other_headers_are_ignored before after n tail :
  Forall header_line before ->
  Forall header_line after ->
  (forall l v, In l after -> split_colon_space l <> Some (s_content_length, v)) ->
  read_message (ascii_bytes (crlf_block (before ++ length_line n :: after)) ++ tail)
  = read_message (ascii_bytes (crlf_block [length_line n]) ++ tail).
Proof.
  intros Fb Fa Ha.
  rewrite !read_message_crlf.
  2:{ constructor; [apply length_line_header|constructor]. }
  2:{ apply Forall_app. split; [exact Fb|]. constructor; [apply length_line_header|exact Fa]. }
  apply read_body_ext.
  rewrite fold_left_app. cbn [fold_left].
  rewrite (fold_add_header_other after Ha).
  unfold add_header. rewrite split_length_line.
  cbn [dict_set dict_get]. now rewrite dict_get_set_same, str_eqb_refl.
Qed.

Lemma other_headers_are_ignored_witness :
  read_message
    (ascii_bytes (crlf_block ([lit "Content-Length: 7"] ++ length_line 2
                                :: [lit "Content-Type: application/vscode-jsonrpc; charset=utf-8"]))
       ++ [x7b; x7d; x7b; x7d])
  = Some (Return (Some (JDict [])), [x7b; x7d]).
Proof.
  refine (eq_trans
            (other_headers_are_ignored [lit "Content-Length: 7"]
               [lit "Content-Type: application/vscode-jsonrpc; charset=utf-8"] 2
               [x7b; x7d; x7b; x7d] _ _ _) _).
  - constructor; [|constructor]. apply header_line_test. reflexivity.
  - constructor; [|constructor]. apply header_line_test. reflexivity.
  - intros l v [<-|[]]. discriminate.
  - vm_compute. reflexivity.
Defined.

(** X8: the end of a header line makes no difference.  A block whose
    lines end in a bare newline, or in blanks, tabs and carriage returns
    before the newline, is read as the block whose lines end in a carriage
    return and a newline. *)
Theorem line_ends_make_no_difference lines last tail :
  Forall (fun lp => header_line (fst lp) /\ padding (snd lp)) lines ->
  padding last ->
  read_message (ascii_bytes (header_block lines last) ++ tail)
  = read_message (ascii_bytes (crlf_block (map fst lines)) ++ tail).
Proof.
  intros F P. rewrite (read_message_block lines last tail F P).
  symmetry. apply read_message_crlf.
  induction F as [|lp lines [H _] _ IH]; cbn [map]; constructor; assumption.
Qed.

Lemma line_ends_make_no_difference_witness :
  read_message (ascii_bytes (header_block [(length_line 2, [])] []) ++ [x7b; x7d])
  = Some (Return (Some (JDict [])), []).
Proof.
  refine (eq_trans
            (line_ends_make_no_difference [(length_line 2, [])] [] [x7b; x7d] _ _) _).
  - constructor; [|constructor]. split; [apply length_line_header|constructor].
  - constructor.
  - vm_compute. reflexivity.
Defined.

(* ================================================================= *)
(** ** Sessions, whatever the server does *)

Lemma extend_from_extends resp ds ds' :
  extend_from resp ds = Return ds' -> exists more, ds' = ds ++ more.
Proof.
  unfold extend_from.
  destruct (py_get resp s_params (JDict [])) as [params|]; [|discriminate].
  cbn [obind]. destruct (py_get params s_diagnostics (JList [])) as [found|]; [|discriminate].
  cbn [obind]. destruct found; try discriminate; cbn [py_extend];
    intros H; injection H as <-; eauto.
Qed.

(** The loop that drains the pipe only adds to what was collected. *)
Lemma settle_extends p fuel :
  forall acc w ds w',
    settle fuel p acc w = Some (Return ds, w') -> exists more, ds = acc ++ more.
Proof.
  induction fuel as [|fuel IH]; intros acc w ds w' H; cbn [settle] in H; [discriminate|].
  apply bind_inv in H as [(resp & w1 & _ & H)|(e & _ & E)]; [|discriminate].
  destruct resp as [r|].
  2:{ injection H as <- _. exists []. now rewrite List.app_nil_r. }
  destruct (truthy r).
  2:{ injection H as <- _. exists []. now rewrite List.app_nil_r. }
  apply bind_inv in H as [(m & w2 & _ & H)|(e & _ & E)]; [|discriminate].
  apply bind_inv in H as [(ds1 & w3 & E1 & H)|(e & _ & E)]; [|discriminate].
  apply IH in H as (more & ->).
  destruct (is_str m s_publish).
  - destruct (extend_from r acc) as [ds2|] eqn:X; [|discriminate].
    injection E1 as <- _. apply extend_from_extends in X as (more1 & ->).
    exists (more1 ++ more). now rewrite List.app_assoc.
  - injection E1 as <- _. eauto.
Qed.

(** The loop of [lint_file] returns nothing only when the deadline has
    passed. *)
Lemma lint_loop_empty p path start fuel :
  forall st w w',
    lint_loop fuel p path start st w = Some (Return [], w') ->
    (5000 <= clock w' - start)%Z.
Proof.
  induction fuel as [|fuel IH]; intros st w w' H; cbn [lint_loop] in H; [discriminate|].
  unfold bind at 1 in H. unfold time at 1 in H.
  destruct (clock w - start <? 5000)%Z eqn:T.
  - apply bind_inv in H as [(resp & w1 & _ & H)|(e & _ & E)]; [|discriminate].
    apply bind_inv in H as [(st1 & w2 & _ & H)|(e & _ & E)]; [|discriminate].
    apply bind_inv in H as [(st2 & w3 & _ & H)|(e & _ & E)]; [|discriminate].
    destruct (file_opened st2 && nonempty (diagnostics st2)) eqn:B.
    + apply bind_inv in H as [(u & w4 & _ & H)|(e & _ & E)]; [|discriminate].
      apply settle_extends in H as (more & H).
      apply andb_true_iff in B as [_ B].
      destruct (diagnostics st2); [discriminate B|discriminate H].
    + exact (IH _ _ _ H).
  - injection H as _ <-. apply Z.ltb_ge in T. exact T.
Qed.

Lemma finish_inv {A} p (a : A) w r w' :
  bind (terminate p) (fun _ => bind (wait p) (fun _ => ret a)) w = Some (r, w') ->
  r = Return a
  /\ w' = tick (Z.of_N (exit_delay w p))
            (update_proc p (fun pr =>
               mkProcess (script pr) (buffer pr) (stdin_ok pr) (written pr)
                         (terminated pr) true)
               (update_proc p (fun pr =>
                  mkProcess (script pr) (buffer pr) (stdin_ok pr) (written pr)
                            true (reaped pr)) w)).
Proof.
  unfold bind, terminate, wait.
  destruct (nth_error (procs w) p) as [pr|] eqn:Hn; [|discriminate].
  unfold update_proc at 1. cbn [procs set_procs].
  rewrite nth_error_list_update, Nat.eqb_refl, Hn. cbn [option_map ret terminated].
  intros H. injection H as <- <-. auto.
Qed.

Lemma list_update_last {A} (f : A -> A) (l : list A) (x : A) :
  list_update (List.length l) f (l ++ [x]) = l ++ [f x].
Proof. induction l as [|y l IH]; cbn [List.length app list_update]; [reflexivity|now rewrite IH]. Qed.

(** How a session starts: the server cannot be started; or it is started
    and does not take the [initialize] request; or it is started, was sent
    the request, and the loop runs. *)
Lemma lint_file_cases fuel filepath root w r w' :
  lint_file fuel filepath root w = Some (r, w') ->
  (r = Raise FileNotFoundError
   /\ procs w' = procs w /\ clock w' = clock w /\ files w' = files w
   /\ pending w' = tl (pending w)
   /\ forall l rest, pending w <> Some l :: rest)
  \/ exists l rest,
       pending w = Some l :: rest
       /\ ((accepts_input l = false
            /\ r = Raise BrokenPipeError
            /\ procs w' = procs w ++ [mkProcess (emits l) [] false [] false false]
            /\ clock w' = clock w /\ files w' = files w /\ pending w' = rest)
           \/ exists w2,
                accepts_input l = true
                /\ procs w2
                   = procs w
                       ++ [mkProcess (emits l) [] true
                             [frame_bytes (request_message (lit "initialize")
                                             (initialize_params (getpid w) root) (JInt 1))]
                             false false]
                /\ clock w2 = clock w /\ files w2 = files w /\ resolve w2 = resolve w
                /\ pending w2 = rest
                /\ bind (lint_loop fuel (List.length (procs w)) (resolve w root filepath)
                           (clock w) (mkSession [] false false))
                        (fun diags =>
                           bind (terminate (List.length (procs w)))
                                (fun _ => bind (wait (List.length (procs w)))
                                               (fun _ => ret diags)))
                        w2
                   = Some (r, w')).
Proof.
  unfold lint_file. unfold bind at 1. unfold Popen.
  destruct (pending w) as [|[l|] rest] eqn:Hp.
  - intros H. injection H as <- <-. left. rewrite Hp. repeat split; discriminate.
  - set (p := List.length (procs w)).
    set (w1 := set_procs (procs w ++ [mkProcess (emits l) [] (accepts_input l) [] false false])
                 (set_pending rest w)).
    assert (Hn1 : nth_error (procs w1) p
                  = Some (mkProcess (emits l) [] (accepts_input l) [] false false)).
    { unfold w1, p. cbn [procs set_procs]. rewrite nth_error_app2 by lia.
      now rewrite Nat.sub_diag. }
    unfold bind at 1. unfold bind at 1. unfold bind at 1.
    destruct (send_request p (lit "initialize") (initialize_params (getpid w1) root)
                (JInt 1) w1) as [[r1 w2]|] eqn:W; [|discriminate].
    intros H. right. exists l, rest. split; [reflexivity|].
    unfold send_request in W.
    apply write_content_inv in W as [(pr & Hn & Hs & -> & ->)|(pr & Hn & Hs & -> & ->)];
      rewrite Hn1 in Hn; injection Hn as <-; cbn [stdin_ok] in Hs.
    + right. unfold bind at 1 in H. unfold time at 1 in H.
      eexists. split; [exact Hs|]. split; [|split; [|split; [|split; [|split; [|exact H]]]]];
        try reflexivity.
      unfold update_proc, w1, p. cbn [procs set_procs].
      rewrite list_update_last. cbn [script buffer stdin_ok written terminated reaped app].
      now rewrite Hs.
    + left. injection H as <- <-. unfold w1. cbn [procs set_procs clock files pending].
      rewrite Hs. repeat split; reflexivity.
  - intros H. injection H as <- <-. left. repeat split; discriminate.
Qed.

(** X9: a session that returns no diagnostic lasted five seconds.
    Whatever the server wrote, when [lint_file] returns the empty list the
    clock has advanced by at least the five seconds of the deadline: a file
    without findings always costs the whole waiting time. *)
Theorem empty_result_takes_five_seconds fuel filepath root w w' :
  lint_file fuel filepath root w = Some (Return [], w') ->
  (clock w + 5000 <= clock w')%Z.
Proof.
  intros H.
  apply lint_file_cases in H
    as [(E & _)|(l & rest & _ & [(_ & E & _)|(w2 & _ & _ & C & _ & _ & _ & H)])];
    try discriminate.
  apply bind_inv in H as [(diags & w3 & L & F)|(e & _ & E)]; [|discriminate].
  apply finish_inv in F as [E ->]. injection E as <-.
  apply lint_loop_empty in L.
  unfold tick. cbn [clock set_clock update_proc set_procs]. lia.
Qed.

Lemma empty_result_takes_five_seconds_witness :
  exists w',
    lint_file 60 (lit "a.cpp") (lit "/r") (sample_world [Some (sample_server [])])
    = Some (Return [], w')
    /\ (1000 + 5000 <= clock w')%Z.
Proof.
  destruct (lint_file 60 (lit "a.cpp") (lit "/r") (sample_world [Some (sample_server [])]))
    as [[[[|d ds]|e] w']|] eqn:E.
  - exists w'. split; [reflexivity|].
    exact (empty_result_takes_five_seconds 60 (lit "a.cpp") (lit "/r")
             (sample_world [Some (sample_server [])]) w' E).
  - vm_compute in E. discriminate E.
  - vm_compute in E. discriminate E.
  - vm_compute in E. discriminate E.
Defined.

(* ----------------------------------------------------------------- *)
(** *** The order of the messages *)

Lemma written_to_update_keep p q f w :
  (forall pr, written (f pr) = written pr) ->
  written_to p (update_proc q f w) = written_to p w.
Proof.
  intros H. unfold written_to, update_proc. cbn [procs set_procs].
  rewrite nth_error_list_update.
  destruct (Nat.eqb q p); [|reflexivity].
  destruct (nth_error (procs w) p); [apply H|reflexivity].
Qed.

Lemma written_to_tick p ms w : written_to p (tick ms w) = written_to p w.
Proof. reflexivity. Qed.

Lemma read_response_sent p q timeout w r w' :
  read_response q timeout w = Some (r, w') ->
  written_to p w' = written_to p w /\ files w' = files w.
Proof.
  unfold read_response.
  destruct (nth_error (procs w) q) as [pr|]; [|discriminate].
  destruct (script pr) as [|[extra|data] rest].
  - intros E. injection E as _ <-. auto.
  - intros E. injection E as _ <-. split; [|reflexivity].
    match goal with
    | |- written_to p (tick _ ?x) = _ => change (written_to p x = written_to p w)
    end.
    apply written_to_update_keep. reflexivity.
  - destruct (at_hand (buffer pr ++ data)); [|discriminate].
    destruct (read_message (buffer pr ++ data)) as [[o unread]|]; [|discriminate].
    intros E.
    assert (w' = update_proc q (fun pr0 =>
                   mkProcess rest unread (stdin_ok pr0) (written pr0)
                             (terminated pr0) (reaped pr0)) w) as ->
      by (destruct o; injection E as _ <-; reflexivity).
    split; [|reflexivity].
    apply written_to_update_keep. reflexivity.
Qed.

Lemma settle_sent p q fuel :
  forall acc w r w',
    settle fuel q acc w = Some (r, w') ->
    written_to p w' = written_to p w /\ files w' = files w.
Proof.
  induction fuel as [|fuel IH]; intros acc w r w' H; cbn [settle] in H; [discriminate|].
  apply bind_inv in H as [(resp & w1 & E1 & H)|(e & E1 & _)];
    apply (read_response_sent p) in E1 as [W1 F1]; [|auto].
  rewrite <- W1, <- F1.
  destruct resp as [m|]; [|injection H as _ <-; auto].
  destruct (truthy m); [|injection H as _ <-; auto].
  apply bind_inv in H as [(mv & w2 & E2 & H)|(e & E2 & _)].
  2:{ destruct (py_get m s_method JNull); injection E2 as _ <-; auto. }
  assert (w2 = w1) as -> by (destruct (py_get m s_method JNull); injection E2 as _ <-; auto).
  apply bind_inv in H as [(ds & w3 & E3 & H)|(e & E3 & _)].
  - assert (w3 = w1) as ->.
    { destruct (is_str mv s_publish); [|injection E3 as _ <-; auto].
      destruct (extend_from m acc); injection E3 as _ <-; auto. }
    exact (IH _ _ _ _ H).
  - destruct (is_str mv s_publish); [|discriminate E3].
    destruct (extend_from m acc); injection E3 as _ <-; auto.
Qed.

(** What handling a response does to the session and to what was sent:
    nothing, or the session becomes initialized and [initialized] is
    sent. *)
Lemma on_response_sent p resp st w r w' :
  on_response p resp st w = Some (r, w') ->
  files w' = files w
  /\ ((w' = w
       /\ match r with
          | Return st' =>
              initialized st' = initialized st /\ file_opened st' = file_opened st
          | Raise _ => True
          end)
      \/ (initialized st = false
          /\ r = Return (mkSession (diagnostics st) true (file_opened st))
          /\ written_to p w' = written_to p w ++ [initialized_frame])).
Proof.
  unfold on_response. destruct resp as [m|]; [|intros H; injection H as <- <-; auto].
  destruct (truthy m); [|intros H; injection H as <- <-; auto].
  intros H. apply bind_inv in H as [(mv & w1 & E1 & H)|(e & E1 & ->)].
  2:{ destruct (py_get m s_method JNull); injection E1 as _ <-; auto. }
  assert (w1 = w) as -> by (destruct (py_get m s_method JNull); injection E1 as _ <-; auto).
  destruct (is_str mv s_publish).
  - apply bind_inv in H as [(ds & w2 & E2 & H)|(e & E2 & ->)].
    + assert (w2 = w) as -> by (destruct (extend_from m (diagnostics st)); injection E2 as _ <-; auto).
      injection H as <- <-. auto.
    + destruct (extend_from m (diagnostics st)); injection E2 as _ <-; auto.
  - destruct (py_in s_result m && negb (initialized st)) eqn:B.
    + apply andb_true_iff in B as [_ B]. apply negb_true_iff in B.
      apply bind_inv in H as [(u & w2 & E2 & H)|(e & E2 & ->)].
      * injection H as <- <-. unfold send_notification in E2.
        apply write_content_inv in E2 as [(pr & Hn & Hs & _ & ->)|(pr & _ & _ & E & _)];
          [|discriminate E].
        split; [reflexivity|]. right. split; [exact B|]. split; [reflexivity|].
        rewrite (written_to_update _ _ _ _ Hn). cbn [written].
        unfold written_to. now rewrite Hn.
      * unfold send_notification in E2.
        apply write_content_inv in E2 as [(pr & _ & _ & E & _)|(pr & _ & _ & _ & ->)];
          [discriminate E|auto].
    + injection H as <- <-. auto.
Qed.

(** What lines 79-90 do: nothing, or the file is read and [didOpen] is
    sent with its text. *)
Lemma open_document_sent p path st w r w' :
  open_document p path st w = Some (r, w') ->
  files w' = files w
  /\ ((w' = w
       /\ ((r = Return st /\ initialized st && negb (file_opened st) = false)
           \/ ((exists e, r = Raise e) /\ initialized st && negb (file_opened st) = true)))
      \/ (initialized st && negb (file_opened st) = true
          /\ exists text,
               files w path = Some text
               /\ r = Return (mkSession (diagnostics st) (initialized st) true)
               /\ written_to p w' = written_to p w ++ [did_open_frame path text])).
Proof.
  unfold open_document. destruct (initialized st && negb (file_opened st)) eqn:B.
  2:{ intros H. injection H as <- <-. split; [reflexivity|]. left.
      split; [reflexivity|]. left. split; reflexivity. }
  intros H. apply bind_inv in H as [(text & w1 & E1 & H)|(e & E1 & ->)].
  - unfold open_read in E1. destruct (files w path) as [text'|] eqn:Hf; [|discriminate E1].
    injection E1 as <- <-.
    apply bind_inv in H as [(u & w2 & E2 & H)|(e & E2 & ->)].
    + injection H as <- <-. unfold send_notification in E2.
      apply write_content_inv in E2 as [(pr & Hn & Hs & _ & ->)|(pr & _ & _ & E & _)];
        [|discriminate E].
      split; [reflexivity|]. right. split; [reflexivity|]. exists text'.
      split; [reflexivity|]. split; [reflexivity|].
      rewrite (written_to_update _ _ _ _ Hn). cbn [written].
      unfold written_to. now rewrite Hn.
    + unfold send_notification in E2.
      apply write_content_inv in E2 as [(pr & _ & _ & E & _)|(pr & _ & _ & _ & ->)];
        [discriminate E|]. split; [reflexivity|]. left. split; [reflexivity|]. right. eauto.
  - unfold open_read in E1. destruct (files w path); [discriminate E1|].
    injection E1 as _ <-. split; [reflexivity|]. left. split; [reflexivity|]. right. eauto.
Qed.

Lemma lint_loop_order p first path fs start fuel :
  forall st w r w',
    at_head p first path fs st w ->
    lint_loop fuel p path start st w = Some (r, w') ->
    sent_in_order p first path fs r w'.
Proof.
  induction fuel as [|fuel IH]; intros st w r w' A H; cbn [lint_loop] in H; [discriminate|].
  assert (Done : forall r, sent_in_order p first path fs r w).
  { intros r0. destruct A as (_ & _ & A). destruct (file_opened st).
    - right. right. exact A.
    - left. exact A. }
  unfold bind at 1 in H. unfold time at 1 in H.
  destruct (clock w - start <? 5000)%Z.
  2:{ injection H as _ <-. apply Done. }
  apply bind_inv in H as [(resp & w1 & E1 & H)|(e & E1 & ->)];
    apply (read_response_sent p) in E1 as [W1 F1].
  2:{ destruct (Done (Raise e)) as [D|[(_ & D)|(text & Hf & D)]]; rewrite <- W1 in D.
      - left. exact D.
      - right. left. eauto.
      - right. right. eauto. }
  assert (A1 : at_head p first path fs st w1).
  { destruct A as (A0 & A1 & A2). split; [exact A0|]. split; [congruence|].
    destruct (file_opened st); [|congruence].
    destruct A2 as (text & Hf & D). exists text. split; [exact Hf|congruence]. }
  clear A Done W1 F1 w. rename w1 into w, A1 into A.
  assert (Done : forall r, sent_in_order p first path fs r w).
  { intros r0. destruct A as (_ & _ & A). destruct (file_opened st).
    - right. right. exact A.
    - left. exact A. }
  apply bind_inv in H as [(st1 & w1 & E1 & H)|(e & E1 & ->)];
    apply (on_response_sent p) in E1 as [F1 [[-> S1]|(I0 & R1 & W1)]]; try discriminate R1.
  - (* the response changed nothing that was sent *)
    destruct S1 as [I1 O1].
    apply bind_inv in H as [(st2 & w2 & E2 & H)|(e & E2 & ->)];
      apply (open_document_sent p) in E2
        as [F2 [[-> [[R2 B2]|[(e' & R2) B2]]]|(B2 & text & Hf & R2 & W2)]];
      try discriminate R2.
    + injection R2 as ->.
      assert (A2 : at_head p first path fs st1 w).
      { destruct A as (A0 & A1 & A2). rewrite <- I1, <- O1 in A0.
        split; [exact A0|]. split; [exact A1|]. now rewrite O1. }
      destruct (file_opened st1 && nonempty (diagnostics st1)).
      * apply bind_inv in H as [(u & w3 & E3 & H)|(e & E3 & _)]; [|discriminate E3].
        injection E3 as _ <-. apply (settle_sent p) in H as [W3 _].
        change (written_to p (tick 200 w)) with (written_to p w) in W3.
        destruct (Done r) as [D|[(X & D)|(text & Hf & D)]]; rewrite <- W3 in D.
        -- left. exact D.
        -- right. left. eauto.
        -- right. right. eauto.
      * exact (IH _ _ _ _ A2 H).
    + destruct A as (A0 & _). rewrite <- I1, <- O1 in A0. rewrite A0 in B2.
      destruct (file_opened st1); discriminate B2.
    + destruct A as (A0 & _). rewrite <- I1, <- O1 in A0. rewrite A0 in B2.
      destruct (file_opened st1); discriminate B2.
  - (* the session became initialized and [initialized] was sent *)
    injection R1 as ->.
    destruct A as (A0 & A1 & A2). rewrite I0 in A0. rewrite <- A0 in A2.
    apply bind_inv in H as [(st2 & w2 & E2 & H)|(e & E2 & ->)];
      apply (open_document_sent p) in E2
        as [F2 [[-> [[R2 B2]|[(e' & R2) B2]]]|(B2 & text & Hf & R2 & W2)]];
      cbn [initialized file_opened diagnostics] in *; rewrite <- ?A0 in *;
      try discriminate.
    + injection R2 as ->. cbn [initialized file_opened diagnostics] in H.
      assert (A3 : at_head p first path fs
                     (mkSession (diagnostics st) true true) w2).
      { split; [reflexivity|]. split; [congruence|]. cbn [file_opened].
        exists text. split; [congruence|]. rewrite W2, W1, A2. reflexivity. }
      destruct (true && nonempty (diagnostics st)).
      * apply bind_inv in H as [(u & w3 & E3 & H)|(e & E3 & _)]; [|discriminate E3].
        injection E3 as _ <-. apply (settle_sent p) in H as [W3 _].
        change (written_to p (tick 200 w2)) with (written_to p w2) in W3.
        right. right. exists text. split; [congruence|].
        rewrite W3, W2, W1, A2. reflexivity.
      * exact (IH _ _ _ _ A3 H).
    + right. left. split; [eauto|]. rewrite W1, A2. reflexivity.
  - apply Done.
Qed.

(** X10: a session sends its messages in order, each at most once.
    Whatever the server does and however the session ends, what the
    server was sent is the [initialize] request, or that and
    [initialized], or these two and [didOpen] with the text of the file;
    a session that returns has sent either the request alone or all
    three.  A server that does not take the request was sent nothing. *)
Theorem lint_file_sends_in_order fuel filepath root w l rest r w' :
  pending w = Some l :: rest ->
  lint_file fuel filepath root w = Some (r, w') ->
  (accepts_input l = false /\ r = Raise BrokenPipeError
   /\ written_to (List.length (procs w)) w' = [])
  \/ (accepts_input l = true
      /\ sent_in_order (List.length (procs w)) (initialize_frame (getpid w) root)
           (resolve w root filepath) (files w) r w').
Proof.
  intros Hp H.
  apply lint_file_cases in H
    as [(_ & _ & _ & _ & _ & E)
       |(l' & rest' & Hp' & [(Ha & -> & P & _)|(w2 & Ha & P & _ & F & _ & _ & H)])].
  - now elim (E l rest).
  - rewrite Hp in Hp'. injection Hp' as <- <-.
    left. split; [exact Ha|]. split; [reflexivity|].
    unfold written_to. rewrite P, nth_error_app2, Nat.sub_diag by lia. reflexivity.
  - rewrite Hp in Hp'. injection Hp' as <- <-.
    right. split; [exact Ha|].
    assert (A : at_head (List.length (procs w)) (initialize_frame (getpid w) root)
                  (resolve w root filepath) (files w) (mkSession [] false false) w2).
    { split; [reflexivity|]. split; [exact F|]. cbn [file_opened].
      unfold written_to. rewrite P, nth_error_app2, Nat.sub_diag by lia. reflexivity. }
    apply bind_inv in H as [(diags & w3 & L & H)|(e & L & ->)].
    + apply (lint_loop_order _ _ _ _ _ _ _ _ _ _ A) in L.
      apply finish_inv in H as [-> ->].
      assert (W : written_to (List.length (procs w))
                    (update_proc (List.length (procs w))
                       (fun pr => mkProcess (script pr) (buffer pr) (stdin_ok pr) (written pr)
                                            (terminated pr) true)
                       (update_proc (List.length (procs w))
                          (fun pr => mkProcess (script pr) (buffer pr) (stdin_ok pr)
                                               (written pr) true (reaped pr)) w3))
                  = written_to (List.length (procs w)) w3).
      { now rewrite !written_to_update_keep. }
      unfold sent_in_order in *. rewrite written_to_tick, W.
      destruct L as [D|[((e & E) & _)|D]]; [now left|discriminate E|now right; right].
    + exact (lint_loop_order _ _ _ _ _ _ _ _ _ _ A L).
Qed.

Lemma lint_file_sends_in_order_witness :
  exists r w',
    lint_file 60 (lit "b.cpp") (lit "/r") (sample_world [Some (sample_server [])])
    = Some (r, w')
    /\ written_to 0 w' = [initialize_frame 42 (lit "/r"); initialized_frame].
Proof.
  destruct (lint_file 60 (lit "b.cpp") (lit "/r") (sample_world [Some (sample_server [])]))
    as [[r w']|] eqn:E.
  - exists r, w'. split; [reflexivity|].
    destruct (lint_file_sends_in_order 60 (lit "b.cpp") (lit "/r")
                (sample_world [Some (sample_server [])]) (sample_server []) [] r w'
                eq_refl E)
      as [(Ha & _)|(_ & [D|[(_ & D)|(text & Hf & _)]])].
    + discriminate Ha.
    + vm_compute in E. injection E as _ <-. vm_compute in D. discriminate D.
    + exact D.
    + discriminate Hf.
  - vm_compute in E. discriminate E.
Defined.

(* ----------------------------------------------------------------- *)
(** *** Messages the loop cannot handle *)

(** A session whose server starts and takes the request: the loop runs in
    a world where the child is at the start of its script. *)
Lemma lint_file_started fuel filepath root w l rest :
  pending w = Some l :: rest ->
  accepts_input l = true ->
  exists w2,
    child_at (List.length (procs w)) (emits l) w2
    /\ running (List.length (procs w)) w2
    /\ clock w2 = clock w /\ files w2 = files w
    /\ written_to (List.length (procs w)) w2 = [initialize_frame (getpid w) root]
    /\ lint_file fuel filepath root w
       = bind (lint_loop fuel (List.length (procs w)) (resolve w root filepath) (clock w)
                 (mkSession [] false false))
              (fun diags =>
                 bind (terminate (List.length (procs w)))
                      (fun _ => bind (wait (List.length (procs w))) (fun _ => ret diags)))
              w2.
Proof.
  intros Hp Ha.
  set (p := List.length (procs w)).
  set (w1 := set_procs (procs w ++ [mkProcess (emits l) [] (accepts_input l) [] false false])
               (set_pending rest w)).
  assert (Hn1 : nth_error (procs w1) p
                = Some (mkProcess (emits l) [] (accepts_input l) [] false false)).
  { unfold w1, p. cbn [procs set_procs]. rewrite nth_error_app2 by lia.
    now rewrite Nat.sub_diag. }
  set (m := request_message (lit "initialize") (initialize_params (getpid w) root) (JInt 1)).
  set (w2 := update_proc p (fun pr =>
               mkProcess (script pr) (buffer pr) (stdin_ok pr)
                         (written pr ++ [map byte_of_N (content_of (json_dumps m))])
                         (terminated pr) (reaped pr)) w1).
  assert (W : send_request p (lit "initialize") (initialize_params (getpid w1) root) (JInt 1) w1
              = Some (Return tt, w2)).
  { unfold send_request. apply (write_content_dumps p m w1 _ Hn1). exact Ha. }
  assert (Hn2 : nth_error (procs w2) p
                = Some (mkProcess (emits l) [] (accepts_input l)
                          [map byte_of_N (content_of (json_dumps m))] false false)).
  { unfold w2, update_proc. cbn [procs set_procs].
    rewrite nth_error_list_update, Nat.eqb_refl, Hn1. reflexivity. }
  exists w2. split; [|split; [|split; [|split; [|split]]]]; try reflexivity.
  - eexists. split; [exact Hn2|]. cbn [script buffer stdin_ok]. auto.
  - eexists. split; [exact Hn2|]. split; reflexivity.
  - unfold written_to. rewrite Hn2. cbn [written]. unfold initialize_frame.
    now rewrite frame_bytes_ascii.
  - unfold lint_file. unfold bind at 1. rewrite (Popen_ok w l rest Hp). fold w1. fold p.
    unfold bind at 1. unfold bind at 1. unfold bind at 1. rewrite W.
    unfold bind at 1. unfold time at 1. reflexivity.
Qed.

(** X11: a message that is not an object ends the session by an
    exception.  When the first thing the server writes is a JSON value
    other than an object that is true in Python's sense (a non-empty list
    or text, a number other than 0, [true]), [lint_file] raises
    [AttributeError]; its child is left running and was sent the
    [initialize] request only. *)
Theorem non_object_message_ends_session fuel filepath root w m more rest :
  pending w = Some (mkLaunch true (Ready (frame_bytes m) :: more)) :: rest ->
  valid_json m = true ->
  truthy m = true ->
  (forall kv, m <> JDict kv) ->
  exists w',
    lint_file (S fuel) filepath root w = Some (Raise AttributeError, w')
    /\ running (List.length (procs w)) w'
    /\ written_to (List.length (procs w)) w' = [initialize_frame (getpid w) root].
Proof.
  intros Hp V T ND.
  destruct (lint_file_started (S fuel) filepath root w _ rest Hp eq_refl)
    as (w2 & C & R & K & _ & W & ->).
  cbn [emits] in C. rewrite frame_bytes_ascii in C.
  destruct (read_response_message _ m more 100%Z w2 C V) as (w3 & E & _ & _ & _ & W3).
  exists w3. split; [|split].
  - unfold bind at 1. cbn [lint_loop]. unfold bind at 1. unfold time at 1.
    rewrite K, Z.sub_diag. cbn [Z.ltb Z.compare].
    unfold bind at 1. rewrite E.
    unfold bind at 1. unfold on_response. rewrite T.
    destruct m as [| | | | |kv]; try reflexivity. now elim (ND kv).
  - exact (read_response_running _ _ _ _ _ _ R E).
  - now rewrite W3.
Qed.

Lemma non_object_message_ends_session_witness :
  exists w',
    lint_file 1 (lit "a.cpp") (lit "/r")
      (sample_world
         [Some (mkLaunch true [Ready (frame_bytes (JList [response_message 1]))])])
    = Some (Raise AttributeError, w')
    /\ running 0 w'
    /\ written_to 0 w' = [initialize_frame 42 (lit "/r")].
Proof.
  apply (non_object_message_ends_session 0 (lit "a.cpp") (lit "/r")
           (sample_world
              [Some (mkLaunch true [Ready (frame_bytes (JList [response_message 1]))])])
           (JList [response_message 1]) [] []).
  - reflexivity.
  - reflexivity.
  - reflexivity.
  - discriminate.
Defined.

(** X12: a message that is false in Python's sense ends the draining.
    When the server answers the handshake, publishes diagnostics and then
    writes a valid message that is [null], [false], [0] or empty, the
    session returns the diagnostics published before that message, whatever
    the server writes after it. *)
Theorem falsy_message_ends_draining fuel filepath root w id uri d ds m more rest text :
  pending w
  = Some (mkLaunch true
            (Ready (frame_bytes (response_message id))
               :: publication (uri, d :: ds) :: Ready (frame_bytes m) :: more)) :: rest ->
  files w (resolve w root filepath) = Some text ->
  valid_str uri = true ->
  forallb valid_json (d :: ds) = true ->
  valid_json m = true ->
  truthy m = false ->
  (3 <= fuel)%nat ->
  exists w',
    lint_file fuel filepath root w = Some (Return (d :: ds), w')
    /\ reaped_child (List.length (procs w)) w'.
Proof.
  intros Hp Hf Vu Vd Vm Tm Hfuel.
  destruct fuel as [|[|[|fuel]]]; try lia.
  destruct (lint_file_started (S (S (S fuel))) filepath root w _ rest Hp eq_refl)
    as (w2 & C & R & K & F & _ & ->).
  cbn [emits] in C. rewrite frame_bytes_ascii in C.
  destruct (handshake_iteration (S (S fuel)) _ (resolve w root filepath) (clock w) _ _ text
              w2 C)
    as (w3 & E3 & C3 & K3 & F3 & _); try reflexivity.
  { now rewrite F. }
  { rewrite K, Z.sub_diag. reflexivity. }
  destruct (publication_iteration (S fuel) _ (resolve w root filepath) (clock w)
              uri d ds _ w3 C3 Vu Vd)
    as (w4 & E4 & C4).
  { rewrite K3, K, Z.sub_diag. reflexivity. }
  rewrite frame_bytes_ascii in C4.
  destruct (read_response_message _ m more 100%Z w4 C4 Vm) as (w5 & E5 & _).
  assert (L : lint_loop (S (S (S fuel))) (List.length (procs w)) (resolve w root filepath)
                (clock w) (mkSession [] false false) w2
              = Some (Return (d :: ds), w5)).
  { unfold response_message in E3. rewrite E3, E4. cbn [settle].
    unfold bind at 1. rewrite E5. now rewrite Tm. }
  assert (R5 : running (List.length (procs w)) w5)
    by exact (lint_loop_running _ _ _ _ _ _ w2 _ w5 R L).
  destruct (terminate_wait_reaps _ w5 R5) as (w6 & X & Q & _).
  exists w6. split; [|exact Q].
  unfold bind at 1. rewrite L.
  unfold bind in X |- *.
  destruct (terminate (List.length (procs w)) w5) as [[[[]|e] w7]|]; try discriminate.
  destruct (wait (List.length (procs w)) w7) as [[[[]|e] w8]|]; try discriminate.
  injection X as <-. reflexivity.
Qed.

Lemma falsy_message_ends_draining_witness :
  exists w',
    lint_file 60 (lit "a.cpp") (lit "/r")
      (sample_world
         [Some (mkLaunch true
                  [Ready (frame_bytes (response_message 1));
                   publication (lit "file:///r/a.cpp",
                                [sample_diagnostic (Some 2%Z) 4 (lit "unused")]);
                   Ready (frame_bytes (JDict []));
                   publication (lit "file:///r/a.cpp",
                                [sample_diagnostic (Some 1%Z) 7 (lit "undeclared")])])])
    = Some (Return [sample_diagnostic (Some 2%Z) 4 (lit "unused")], w')
    /\ reaped_child 0 w'.
Proof.
  apply (falsy_message_ends_draining 60 (lit "a.cpp") (lit "/r")
           (sample_world
              [Some (mkLaunch true
                       [Ready (frame_bytes (response_message 1));
                        publication (lit "file:///r/a.cpp",
                                     [sample_diagnostic (Some 2%Z) 4 (lit "unused")]);
                        Ready (frame_bytes (JDict []));
                        publication (lit "file:///r/a.cpp",
                                     [sample_diagnostic (Some 1%Z) 7 (lit "undeclared")])])])
           1%Z (lit "file:///r/a.cpp") (sample_diagnostic (Some 2%Z) 4 (lit "unused")) []
           (JDict [])
           [publication (lit "file:///r/a.cpp",
                         [sample_diagnostic (Some 1%Z) 7 (lit "undeclared")])]
           [] (lit "int x;")).
  - reflexivity.
  - reflexivity.
  - reflexivity.
  - reflexivity.
  - reflexivity.
  - reflexivity.
  - lia.
Defined.

(* ================================================================= *)
(** ** The children of a batch *)

Lemma framed_update ps pend f w :
  framed ps pend w -> framed ps pend (update_proc (List.length ps) f w).
Proof.
  intros (Hp & pr & Hs). split; [exact Hp|]. exists (f pr).
  unfold update_proc. cbn [procs set_procs]. rewrite Hs. apply list_update_last.
Qed.

Lemma stdin_write_framed ps pend data :
  preserves (framed ps pend) (stdin_write (List.length ps) data).
Proof.
  intros w r w' H. unfold stdin_write.
  destruct (nth_error (procs w) (List.length ps)) as [pr|]; [|discriminate].
  destruct (stdin_ok pr); intros E; injection E as _ <-; [|exact H].
  now apply framed_update.
Qed.

Lemma write_content_framed ps pend content :
  preserves (framed ps pend) (write_content (List.length ps) content).
Proof.
  unfold write_content. destruct (utf8_encode content).
  - apply stdin_write_framed.
  - apply preserves_raise.
Qed.

Lemma read_response_framed ps pend timeout :
  preserves (framed ps pend) (read_response (List.length ps) timeout).
Proof.
  intros w r w' H. unfold read_response.
  destruct (nth_error (procs w) (List.length ps)) as [pr|]; [|discriminate].
  destruct (script pr) as [|[extra|data] rest].
  - intros E. injection E as _ <-. exact H.
  - intros E. injection E as _ <-.
    exact (framed_update ps pend _ w H).
  - destruct (at_hand (buffer pr ++ data)); [|discriminate].
    destruct (read_message (buffer pr ++ data)) as [[o unread]|]; [|discriminate].
    intros E.
    assert (w' = update_proc (List.length ps) (fun pr0 =>
                   mkProcess rest unread (stdin_ok pr0) (written pr0)
                             (terminated pr0) (reaped pr0)) w) as ->
      by (destruct o; injection E as _ <-; reflexivity).
    now apply framed_update.
Qed.

Lemma open_read_framed ps pend path : preserves (framed ps pend) (open_read path).
Proof.
  intros w r w' H. unfold open_read.
  destruct (files w path); intros E; injection E as _ <-; exact H.
Qed.

Lemma time_framed ps pend : preserves (framed ps pend) time.
Proof. intros w r w' H E. injection E as _ <-. exact H. Qed.

Lemma sleep_framed ps pend ms : preserves (framed ps pend) (sleep ms).
Proof. intros w r w' H E. injection E as _ <-. exact H. Qed.

Lemma on_response_framed ps pend resp st :
  preserves (framed ps pend) (on_response (List.length ps) resp st).
Proof.
  unfold on_response. destruct resp as [r|]; [|apply preserves_ret].
  apply preserves_if; [|apply preserves_ret].
  apply preserves_bind; [apply preserves_lift|]. intros m.
  apply preserves_if.
  - apply preserves_bind; [apply preserves_lift|]. intros. apply preserves_ret.
  - apply preserves_if; [|apply preserves_ret].
    apply preserves_bind; [apply write_content_framed|]. intros. apply preserves_ret.
Qed.

Lemma open_document_framed ps pend path st :
  preserves (framed ps pend) (open_document (List.length ps) path st).
Proof.
  unfold open_document. apply preserves_if; [|apply preserves_ret].
  apply preserves_bind; [apply open_read_framed|]. intros text.
  apply preserves_bind; [apply write_content_framed|]. intros. apply preserves_ret.
Qed.

Lemma settle_framed ps pend fuel diags :
  preserves (framed ps pend) (settle fuel (List.length ps) diags).
Proof.
  revert diags. induction fuel as [|fuel IH]; intros diags; cbn [settle].
  - apply preserves_unmodelled.
  - apply preserves_bind; [apply read_response_framed|]. intros [r|]; [|apply preserves_ret].
    apply preserves_if; [|apply preserves_ret].
    apply preserves_bind; [apply preserves_lift|]. intros m.
    apply preserves_bind.
    + apply preserves_if; [apply preserves_lift|apply preserves_ret].
    + intros ds. apply IH.
Qed.

Lemma lint_loop_framed ps pend fuel path start st :
  preserves (framed ps pend) (lint_loop fuel (List.length ps) path start st).
Proof.
  revert st. induction fuel as [|fuel IH]; intros st; cbn [lint_loop].
  - apply preserves_unmodelled.
  - apply preserves_bind; [apply time_framed|]. intros t.
    apply preserves_if; [|apply preserves_ret].
    apply preserves_bind; [apply read_response_framed|]. intros resp.
    apply preserves_bind; [apply on_response_framed|]. intros st1.
    apply preserves_bind; [apply open_document_framed|]. intros st2.
    apply preserves_if; [|apply IH].
    apply preserves_bind; [apply sleep_framed|]. intros. apply settle_framed.
Qed.

(** A session that returns has started one child, which is terminated and
    reaped, has used up one launch and has left the other processes as
    they were. *)
Lemma lint_file_child fuel filepath root w diags w' :
  lint_file fuel filepath root w = Some (Return diags, w') ->
  pending w' = tl (pending w)
  /\ exists pr, procs w' = procs w ++ [pr] /\ terminated pr = true /\ reaped pr = true.
Proof.
  intros H.
  apply lint_file_cases in H
    as [(E & _)|(l & rest & Hp & [(_ & E & _)|(w2 & _ & P & _ & _ & _ & Q & H)])];
    try discriminate.
  apply bind_inv in H as [(ds & w3 & L & H)|(e & _ & E)]; [|discriminate].
  assert (F2 : framed (procs w) rest w2) by (split; [exact Q|eauto]).
  pose proof (lint_loop_framed _ _ _ _ _ _ _ _ _ F2 L) as (Q3 & pr & P3).
  apply finish_inv in H as [_ ->].
  unfold update_proc. cbn [procs set_procs pending]. rewrite P3, !list_update_last, Hp.
  split; [exact Q3|]. eexists. split; [reflexivity|]. split; reflexivity.
Qed.

Lemma skipn_tl {A} n (l : list A) : skipn n (tl l) = skipn (S n) l.
Proof. destruct l; [now destruct n|reflexivity]. Qed.

Lemma main_loop_children fuel root todo :
  forall total w t lines w',
    main_loop fuel todo root total w = Some (Return t, lines, w') ->
    pending w' = skipn (List.length todo) (pending w)
    /\ exists children,
         procs w' = procs w ++ children
         /\ List.length children = List.length todo
         /\ Forall (fun pr => terminated pr = true /\ reaped pr = true) children.
Proof.
  induction todo as [|f todo IH]; intros total w t lines w' H; cbn [main_loop] in H.
  - injection H as _ _ <-. split; [reflexivity|]. exists [].
    rewrite List.app_nil_r. auto.
  - destruct (lint_file fuel f root w) as [[[diags|e] w1]|] eqn:E; try discriminate.
    destruct (report f diags) as [[[n|e] ls]|]; try discriminate.
    destruct (main_loop fuel todo root (total + n)%Z w1) as [[[r ls'] w2]|] eqn:L;
      try discriminate.
    injection H as -> _ <-.
    apply lint_file_child in E as (Q1 & pr & P1 & T1 & R1).
    apply IH in L as (Q2 & children & P2 & L2 & F2).
    split.
    + rewrite Q2, Q1. apply skipn_tl.
    + exists (pr :: children). rewrite P2, P1, <- List.app_assoc.
      split; [reflexivity|]. split; [cbn [List.length]; now rewrite L2|].
      constructor; auto.
Qed.

(** X13: a batch that returns leaves no child behind.  When [main]
    returns it has started one server for each file to check, one after
    the other, every one of them is terminated and reaped, and the
    processes that were there before are as they were. *)
Theorem main_leaves_no_child fuel argv w code out w' :
  main fuel argv w = Some (Return code, out, w') ->
  pending w' = skipn (List.length (files_of argv w)) (pending w)
  /\ exists children,
       procs w' = procs w ++ children
       /\ List.length children = List.length (files_of argv w)
       /\ Forall (fun pr => terminated pr = true /\ reaped pr = true) children.
Proof.
  unfold main. destruct (files_of argv w) as [|f todo].
  - intros H. injection H as _ _ <-. split; [reflexivity|]. exists [].
    rewrite List.app_nil_r. auto.
  - destruct (main_loop fuel (f :: todo) (getcwd w) 0 w) as [[[[total|e] lines] w1]|] eqn:L;
      try discriminate.
    intros H. injection H as _ _ <-.
    exact (main_loop_children _ _ _ _ _ _ _ _ L).
Qed.

Lemma main_leaves_no_child_witness :
  exists code out w',
    main 60 [lit "clangd_lint.py"; lit "a.cpp"; lit "a.cpp"]
      (sample_world [Some (sample_server [sample_diagnostic (Some 2%Z) 4 (lit "unused")]);
                     Some (sample_server [sample_diagnostic (Some 3%Z) 5 (lit "note")]);
                     None])
    = Some (Return code, out, w')
    /\ pending w' = [None]
    /\ exists children,
         procs w' = children
         /\ List.length children = 2%nat
         /\ Forall (fun pr => terminated pr = true /\ reaped pr = true) children.
Proof.
  destruct (main 60 [lit "clangd_lint.py"; lit "a.cpp"; lit "a.cpp"]
              (sample_world
                 [Some (sample_server [sample_diagnostic (Some 2%Z) 4 (lit "unused")]);
                  Some (sample_server [sample_diagnostic (Some 3%Z) 5 (lit "note")]);
                  None]))
    as [[[[code|e] out] w']|] eqn:E.
  - exists code, out, w'. split; [reflexivity|].
    exact (main_leaves_no_child 60 [lit "clangd_lint.py"; lit "a.cpp"; lit "a.cpp"] _
             code out w' E).
  - vm_compute in E. discriminate E.
  - vm_compute in E. discriminate E.
Defined.

(* ================================================================= *)
(** * Properties of [add_newlines.py] *)

Lemma py_endswith_newline s : py_endswith (s ++ [10]) [10] = true.
Proof. unfold py_endswith. rewrite rev_app_distr. reflexivity. Qed.

Lemma py_endswith_cons c s :
  s <> [] -> py_endswith (c :: s) [10] = py_endswith s [10].
Proof.
  intros H. unfold py_endswith. cbn [rev].
  destruct (rev s) as [|d r] eqn:E.
  - apply (f_equal (@rev N)) in E. rewrite rev_involutive in E. contradiction.
  - cbn [app strip_prefix]. destruct (10 =? d); reflexivity.
Qed.

Lemma universal_newlines_nil s : universal_newlines s = [] -> s = [].
Proof. destruct s as [|c t]; [reflexivity|]. cbn [universal_newlines]. destruct (c =? 13); discriminate. Qed.

(** A line end written after a text that does not end in one reads as one
    newline more. *)
Lemma universal_newlines_line_end e :
  e = [10] \/ e = [13; 10] ->
  forall n s,
    (List.length s <= n)%nat ->
    py_endswith (universal_newlines s) [10] = false ->
    universal_newlines (s ++ e) = universal_newlines s ++ [10].
Proof.
  intros He. induction n as [|n IH]; intros s L H.
  - destruct s; [|cbn [List.length] in L; lia]. destruct He as [-> | ->]; reflexivity.
  - destruct s as [|c t]; [destruct He as [-> | ->]; reflexivity|].
    cbn [List.length] in L. cbn [app universal_newlines] in *.
    destruct (N.eqb_spec c 13) as [->|Hc].
    + destruct t as [|d t']; [discriminate H|].
      cbn [app]. destruct (N.eqb_spec d 10) as [->|Hd].
      * destruct (universal_newlines t') as [|x u] eqn:U; [discriminate H|].
        rewrite py_endswith_cons in H by discriminate. rewrite <- U in *.
        cbn [List.length] in L. rewrite IH by first [assumption|lia]. reflexivity.
      * destruct (universal_newlines (d :: t')) as [|x u] eqn:U; [discriminate H|].
        rewrite py_endswith_cons in H by discriminate. rewrite <- U in *.
        change (d :: t' ++ e) with ((d :: t') ++ e).
        rewrite IH by first [assumption|cbn [List.length] in *; lia]. reflexivity.
    + destruct (universal_newlines t) as [|x u] eqn:U.
      * apply universal_newlines_nil in U. subst t.
        destruct He as [-> | ->]; reflexivity.
      * rewrite py_endswith_cons in H by discriminate. rewrite <- U in *.
        rewrite IH by first [assumption|lia]. reflexivity.
Qed.

(** Decoding goes through a text that decodes. *)
Lemma utf8_decode_app b :
  forall n a ta,
    (List.length a <= n)%nat ->
    utf8_decode a = Some ta ->
    utf8_decode (a ++ b) = option_map (app ta) (utf8_decode b).
Proof.
  assert (M : forall c (o : option str) ta' ,
             o = Some ta' ->
             forall o', o' = option_map (app ta') (utf8_decode b) ->
             option_map (cons c) o' = option_map (app (c :: ta')) (utf8_decode b)).
  { intros c o ta' _ o' ->. now destruct (utf8_decode b). }
  induction n as [|n IH]; intros a ta L H.
  - destruct a; [|cbn [List.length] in L; lia]. injection H as <-.
    cbn [app]. now destruct (utf8_decode b).
  - destruct a as [|b0 r0].
    { injection H as <-. cbn [app]. now destruct (utf8_decode b). }
    cbn [List.length] in L. cbn [app utf8_decode] in *.
    destruct (Byte.to_N b0 <? 128).
    { destruct (utf8_decode r0) as [t0|] eqn:D; [|discriminate H]. injection H as <-.
      rewrite (IH r0 t0) by first [assumption|lia]. now destruct (utf8_decode b). }
    destruct (Byte.to_N b0 <? 194); [discriminate H|].
    destruct (Byte.to_N b0 <? 224).
    { destruct r0 as [|b1 r1]; [discriminate H|]. cbn [app].
      destruct (is_cont b1); [|discriminate H].
      destruct (utf8_decode r1) as [t0|] eqn:D; [|discriminate H]. injection H as <-.
      cbn [List.length] in L.
      rewrite (IH r1 t0) by first [assumption|lia]. now destruct (utf8_decode b). }
    destruct (Byte.to_N b0 <? 240).
    { destruct r0 as [|b1 [|b2 r2]]; try discriminate H. cbn [app].
      match type of H with (if ?c then _ else _) = _ => destruct c end; [|discriminate H].
      destruct (utf8_decode r2) as [t0|] eqn:D; [|discriminate H]. injection H as <-.
      cbn [List.length] in L.
      rewrite (IH r2 t0) by first [assumption|lia]. now destruct (utf8_decode b). }
    destruct (Byte.to_N b0 <? 245); [|discriminate H].
    destruct r0 as [|b1 [|b2 [|b3 r3]]]; try discriminate H. cbn [app].
    match type of H with (if ?c then _ else _) = _ => destruct c end; [|discriminate H].
    destruct (utf8_decode r3) as [t0|] eqn:D; [|discriminate H]. injection H as <-.
    cbn [List.length] in L.
    rewrite (IH r3 t0) by first [assumption|lia]. now destruct (utf8_decode b).
Qed.

Lemma disk_set_same path data fs : disk_set path data fs path = Some data.
Proof. unfold disk_set. now rewrite str_eqb_refl. Qed.

Lemma disk_set_other path data fs q : q <> path -> disk_set path data fs q = fs q.
Proof.
  intros H. unfold disk_set. destruct (str_eqb q path) eqn:E; [|reflexivity].
  apply str_eqb_eq in E. contradiction.
Qed.

(** Reading back a file that was given a line end. *)
Lemma read_text_line_end linesep path raw text fs :
  linesep = [x0a] \/ linesep = [x0d; x0a] ->
  utf8_decode raw = Some text ->
  py_endswith (universal_newlines text) [10] = false ->
  read_text (disk_set path (raw ++ linesep) fs) path
  = Return (universal_newlines text ++ [10]).
Proof.
  intros Hl D E. unfold read_text. rewrite disk_set_same.
  rewrite (utf8_decode_app linesep _ raw text (Nat.le_refl _) D).
  destruct Hl as [-> | ->].
  - change (utf8_decode [x0a]) with (Some [10]). cbn [option_map].
    now rewrite (universal_newlines_line_end [10] (or_introl eq_refl) _ text (Nat.le_refl _) E).
  - change (utf8_decode [x0d; x0a]) with (Some [13; 10]). cbn [option_map].
    now rewrite (universal_newlines_line_end [13; 10] (or_intror eq_refl) _ text
                   (Nat.le_refl _) E).
Qed.

(** What a call that returns leaves behind. *)
Lemma add_newline_result linesep path fs out fs' :
  linesep = [x0a] \/ linesep = [x0d; x0a] ->
  add_newline_if_missing linesep path fs = (Return tt, out, fs') ->
  exists raw content,
    fs path = Some raw
    /\ read_text fs path = Return content
    /\ fs' path = Some (raw ++ if py_endswith content [10] then [] else linesep)
    /\ read_text fs' path
       = Return (if py_endswith content [10] then content else content ++ [10])
    /\ (forall q, q <> path -> fs' q = fs q)
    /\ add_newline_if_missing linesep path fs'
       = (Return tt, [lit "Newline already present: " ++ path], fs').
Proof.
  intros Hl. unfold add_newline_if_missing.
  destruct (read_text fs path) as [content|e] eqn:R; [|discriminate].
  unfold read_text in R. destruct (fs path) as [raw|] eqn:F; [|discriminate R].
  destruct (utf8_decode raw) as [text|] eqn:D; [|discriminate R].
  injection R as <-.
  assert (R : read_text fs path = Return (universal_newlines text))
    by (unfold read_text; now rewrite F, D).
  destruct (py_endswith (universal_newlines text) [10]) eqn:E; cbn [negb];
    intros H; injection H as _ <-; exists raw, (universal_newlines text); rewrite E.
  - rewrite List.app_nil_r, R, E. cbn [negb]. repeat split; reflexivity || assumption.
  - pose proof (read_text_line_end linesep path raw text fs Hl D E) as R'.
    split; [reflexivity|]. split; [reflexivity|].
    split; [apply disk_set_same|]. split; [exact R'|].
    split; [intros q Hq; now apply disk_set_other|].
    now rewrite R', py_endswith_newline.
Qed.

(** X14: what [add_newline_if_missing] leaves behind when it returns.
    The file holds its old bytes, followed by one line end when the text
    read from it did not end in a newline; read again, its text is the old
    text with that newline; no other file has changed; and a second call
    finds the newline present and changes nothing. *)
Theorem newline_is_added_once linesep path fs out fs' :
  linesep = [x0a] \/ linesep = [x0d; x0a] ->
  add_newline_if_missing linesep path fs = (Return tt, out, fs') ->
  exists raw content,
    fs path = Some raw
    /\ read_text fs path = Return content
    /\ fs' path = Some (raw ++ if py_endswith content [10] then [] else linesep)
    /\ read_text fs' path
       = Return (if py_endswith content [10] then content else content ++ [10])
    /\ (forall q, q <> path -> fs' q = fs q)
    /\ add_newline_if_missing linesep path fs'
       = (Return tt, [lit "Newline already present: " ++ path], fs').
Proof. exact (add_newline_result linesep path fs out fs'). Qed.

Lemma newline_is_added_once_witness :
  exists out fs',
    add_newline_if_missing [x0d; x0a] (lit "/p/src/a.cpp") sample_disk = (Return tt, out, fs')
    /\ fs' (lit "/p/src/a.cpp") = Some (ascii_bytes (lit "int x;") ++ [x0d; x0a])
    /\ read_text fs' (lit "/p/src/a.cpp") = Return (lit "int x;" ++ [10])
    /\ add_newline_if_missing [x0d; x0a] (lit "/p/src/a.cpp") fs'
       = (Return tt, [lit "Newline already present: /p/src/a.cpp"], fs').
Proof.
  eexists _, _. split; [reflexivity|].
  destruct (newline_is_added_once [x0d; x0a] (lit "/p/src/a.cpp") sample_disk _ _
              (or_intror eq_refl) eq_refl)
    as (raw & content & F & R & F' & R' & _ & A).
  vm_compute in F. injection F as <-.
  vm_compute in R. injection R as <-.
  split; [exact F'|]. split; [exact R'|exact A].
Defined.

(* ----------------------------------------------------------------- *)
(** *** The walk over a directory *)

(** One call leaves every other file alone, keeps the bytes of its file
    and creates nothing. *)
Lemma add_newline_frame linesep path fs r out fs' :
  add_newline_if_missing linesep path fs = (r, out, fs') ->
  (forall q, q <> path -> fs' q = fs q)
  /\ (forall q raw, fs q = Some raw -> exists extra, fs' q = Some (raw ++ extra))
  /\ (forall q, fs q = None -> fs' q = None).
Proof.
  unfold add_newline_if_missing.
  assert (Same : forall raw q, fs q = Some raw -> exists extra, fs q = Some (raw ++ extra)).
  { intros raw q H. exists []. now rewrite List.app_nil_r. }
  destruct (read_text fs path) as [content|e].
  2:{ intros H. injection H as _ _ <-. auto. }
  destruct (negb (py_endswith content [10])).
  2:{ intros H. injection H as _ _ <-. auto. }
  destruct (fs path) as [raw|] eqn:F.
  2:{ intros H. injection H as _ _ <-. auto. }
  intros H. injection H as _ _ <-. split; [|split].
  - intros q Hq. now apply disk_set_other.
  - intros q raw' Hq. unfold disk_set. destruct (str_eqb q path) eqn:E.
    + apply str_eqb_eq in E. subst q. rewrite F in Hq. injection Hq as <-. eauto.
    + now apply Same.
  - intros q Hq. unfold disk_set. destruct (str_eqb q path) eqn:E; [|exact Hq].
    apply str_eqb_eq in E. subst q. congruence.
Qed.

(** A file whose text ends in a newline is left as it is by a call for any
    file. *)
Lemma add_newline_keeps linesep path fs r out fs' q content :
  add_newline_if_missing linesep path fs = (r, out, fs') ->
  read_text fs q = Return content -> py_endswith content [10] = true ->
  fs' q = fs q.
Proof.
  intros H R E. destruct (str_eqb q path) eqn:Q.
  - apply str_eqb_eq in Q. subst q. unfold add_newline_if_missing in H.
    rewrite R, E in H. cbn [negb] in H. now injection H as _ _ <-.
  - apply str_eqb_neq in Q. apply add_newline_frame in H as [H _]. now apply H.
Qed.

Lemma read_text_ext fs fs' q : fs' q = fs q -> read_text fs' q = read_text fs q.
Proof. intros H. unfold read_text. now rewrite H. Qed.

Lemma process_files_frame linesep root names :
  forall fs r out fs',
    process_files linesep root names fs = (r, out, fs') ->
    (forall q,
        (forall file, In file names ->
           py_endswith file (lit ".cpp") || py_endswith file (lit ".h") = true ->
           q <> os_path_join root file) ->
        fs' q = fs q)
    /\ (forall q raw, fs q = Some raw -> exists extra, fs' q = Some (raw ++ extra))
    /\ (forall q, fs q = None -> fs' q = None)
    /\ (forall q content, read_text fs q = Return content ->
          py_endswith content [10] = true -> fs' q = fs q).
Proof.
  induction names as [|file rest IH]; intros fs r out fs' H; cbn [process_files] in H.
  - injection H as _ _ <-. repeat split; auto. intros q raw Hq. exists [].
    now rewrite List.app_nil_r.
  - destruct (py_endswith file (lit ".cpp") || py_endswith file (lit ".h")) eqn:M.
    + destruct (add_newline_if_missing linesep (os_path_join root file) fs)
        as [[r1 out1] fs1] eqn:A.
      pose proof (add_newline_frame _ _ _ _ _ _ A) as (A1 & A2 & A3).
      pose proof (fun q content => add_newline_keeps _ _ _ _ _ _ q content A) as A4.
      assert (T : (forall q,
                      (forall f, In f (file :: rest) ->
                         py_endswith f (lit ".cpp") || py_endswith f (lit ".h") = true ->
                         q <> os_path_join root f) ->
                      fs1 q = fs q)).
      { intros q Hq. apply A1. apply Hq; [now left|exact M]. }
      destruct r1 as [[]|e].
      * destruct (process_files linesep root rest fs1) as [[r2 out2] fs2] eqn:P.
        injection H as _ _ <-.
        destruct (IH _ _ _ _ P) as (I1 & I2 & I3 & I4).
        split; [|split; [|split]].
        -- intros q Hq. rewrite I1, T; trivial.
           intros f Hf. apply Hq. now right.
        -- intros q raw Hq. destruct (A2 q raw Hq) as (e1 & H1).
           destruct (I2 q _ H1) as (e2 & H2). exists (e1 ++ e2).
           now rewrite H2, List.app_assoc.
        -- intros q Hq. apply I3. now apply A3.
        -- intros q content R E. pose proof (A4 q content R E) as K.
           rewrite (I4 q content), K; trivial. now rewrite (read_text_ext _ _ _ K).
      * injection H as _ _ <-. split; [exact T|]. split; [exact A2|]. split; [exact A3|exact A4].
    + destruct (IH _ _ _ _ H) as (I1 & I2 & I3 & I4).
      split; [|split; [exact I2|split; [exact I3|exact I4]]].
      intros q Hq. apply I1. intros f Hf. apply Hq. now right.
Qed.

Lemma process_walk_frame linesep walked :
  forall fs r out fs',
    process_walk linesep walked fs = (r, out, fs') ->
    (forall q,
        (forall root names file, In (root, names) walked -> In file names ->
           py_endswith file (lit ".cpp") || py_endswith file (lit ".h") = true ->
           q <> os_path_join root file) ->
        fs' q = fs q)
    /\ (forall q raw, fs q = Some raw -> exists extra, fs' q = Some (raw ++ extra))
    /\ (forall q, fs q = None -> fs' q = None)
    /\ (forall q content, read_text fs q = Return content ->
          py_endswith content [10] = true -> fs' q = fs q).
Proof.
  induction walked as [|[root names] rest IH]; intros fs r out fs' H; cbn [process_walk] in H.
  - injection H as _ _ <-. repeat split; auto. intros q raw Hq. exists [].
    now rewrite List.app_nil_r.
  - destruct (process_files linesep root names fs) as [[r1 out1] fs1] eqn:A.
    destruct (process_files_frame _ _ _ _ _ _ _ A) as (A1 & A2 & A3 & A4).
    assert (T : (forall q,
                    (forall root' names' file, In (root', names') ((root, names) :: rest) ->
                       In file names' ->
                       py_endswith file (lit ".cpp") || py_endswith file (lit ".h") = true ->
                       q <> os_path_join root' file) ->
                    fs1 q = fs q)).
    { intros q Hq. apply A1. intros f Hf. apply (Hq root names f); [now left|exact Hf]. }
    destruct r1 as [[]|e].
    + destruct (process_walk linesep rest fs1) as [[r2 out2] fs2] eqn:P.
      injection H as _ _ <-.
      destruct (IH _ _ _ _ P) as (I1 & I2 & I3 & I4).
      split; [|split; [|split]].
      * intros q Hq. rewrite I1, T; trivial.
        intros root' names' f Hr. apply Hq. now right.
      * intros q raw Hq. destruct (A2 q raw Hq) as (e1 & H1).
        destruct (I2 q _ H1) as (e2 & H2). exists (e1 ++ e2).
        now rewrite H2, List.app_assoc.
      * intros q Hq. apply I3. now apply A3.
      * intros q content R E. pose proof (A4 q content R E) as K.
        rewrite (I4 q content), K; trivial. now rewrite (read_text_ext _ _ _ K).
    + injection H as _ _ <-. split; [exact T|]. split; [exact A2|]. split; [exact A3|exact A4].
Qed.

(** X15: the walk touches source files only, and only by adding to them.
    However [process_directory] ends, a file keeps its content unless it
    is a file of a walked directory whose name ends in [.cpp] or [.h];
    every file that was there still starts with its old bytes; and no file
    is created. *)
Theorem process_directory_touches_sources_only linesep walk directory fs r out fs' :
  process_directory linesep walk directory fs = (r, out, fs') ->
  (forall q,
      (forall root names file, In (root, names) (walk directory) -> In file names ->
         py_endswith file (lit ".cpp") || py_endswith file (lit ".h") = true ->
         q <> os_path_join root file) ->
      fs' q = fs q)
  /\ (forall q raw, fs q = Some raw -> exists extra, fs' q = Some (raw ++ extra))
  /\ (forall q, fs q = None -> fs' q = None).
Proof.
  intros H. destruct (process_walk_frame _ _ _ _ _ _ H) as (A & B & C & _). auto.
Qed.

Lemma process_directory_touches_sources_only_witness :
  exists r out fs',
    process_directory [x0a] sample_walk (lit "/p/src") sample_disk = (r, out, fs')
    /\ fs' (lit "/p/src/notes.txt") = sample_disk (lit "/p/src/notes.txt").
Proof.
  destruct (process_directory [x0a] sample_walk (lit "/p/src") sample_disk)
    as [[r out] fs'] eqn:E.
  exists r, out, fs'. split; [reflexivity|].
  apply (proj1 (process_directory_touches_sources_only [x0a] sample_walk (lit "/p/src")
                  sample_disk r out fs' E)).
  intros root names file [H|[]] Hf; injection H as <- <-.
  destruct Hf as [<-|[<-|[<-|[]]]]; intros M; vm_compute; discriminate.
Defined.

(* ----------------------------------------------------------------- *)
(** *** What a walk that returns has done *)

Lemma process_files_done linesep root names :
  linesep = [x0a] \/ linesep = [x0d; x0a] ->
  forall fs out fs',
    process_files linesep root names fs = (Return tt, out, fs') ->
    forall file,
      In file names ->
      py_endswith file (lit ".cpp") || py_endswith file (lit ".h") = true ->
      exists content,
        read_text fs' (os_path_join root file) = Return content
        /\ py_endswith content [10] = true.
Proof.
  intros Hl. induction names as [|f rest IH]; intros fs out fs' H file Hin M;
    cbn [process_files] in H; [contradiction|].
  destruct (py_endswith f (lit ".cpp") || py_endswith f (lit ".h")) eqn:Mf.
  - destruct (add_newline_if_missing linesep (os_path_join root f) fs)
      as [[[[]|e] out1] fs1] eqn:A; [|discriminate H].
    destruct (process_files linesep root rest fs1) as [[r2 out2] fs2] eqn:P.
    injection H as -> _ <-.
    destruct Hin as [<-|Hin]; [|exact (IH _ _ _ P file Hin M)].
    destruct (add_newline_result _ _ _ _ _ Hl A) as (raw & content & _ & _ & _ & R & _).
    destruct (process_files_frame _ _ _ _ _ _ _ P) as (_ & _ & _ & K).
    assert (E : py_endswith (if py_endswith content [10] then content else content ++ [10])
                  [10] = true).
    { destruct (py_endswith content [10]) eqn:E; [exact E|apply py_endswith_newline]. }
    eexists. rewrite (read_text_ext _ _ _ (K _ _ R E)). split; [exact R|exact E].
  - destruct Hin as [<-|Hin]; [congruence|exact (IH _ _ _ H file Hin M)].
Qed.

Lemma process_walk_done linesep walked :
  linesep = [x0a] \/ linesep = [x0d; x0a] ->
  forall fs out fs',
    process_walk linesep walked fs = (Return tt, out, fs') ->
    forall root names file,
      In (root, names) walked -> In file names ->
      py_endswith file (lit ".cpp") || py_endswith file (lit ".h") = true ->
      exists content,
        read_text fs' (os_path_join root file) = Return content
        /\ py_endswith content [10] = true.
Proof.
  intros Hl. induction walked as [|[root0 names0] rest IH];
    intros fs out fs' H root names file Hw Hin M; cbn [process_walk] in H; [contradiction|].
  destruct (process_files linesep root0 names0 fs) as [[[[]|e] out1] fs1] eqn:A;
    [|discriminate H].
  destruct (process_walk linesep rest fs1) as [[r2 out2] fs2] eqn:P.
  injection H as -> _ <-.
  destruct Hw as [Hw|Hw]; [|exact (IH _ _ _ P root names file Hw Hin M)].
  injection Hw as <- <-.
  destruct (process_files_done _ _ _ Hl _ _ _ A file Hin M) as (content & R & E).
  destruct (process_walk_frame _ _ _ _ _ _ P) as (_ & _ & _ & K).
  exists content. rewrite (read_text_ext _ _ _ (K _ _ R E)). auto.
Qed.

(** X16: a walk that returns has given every source file a final
    newline.  When [process_directory] returns, every file of a walked
    directory whose name ends in [.cpp] or [.h] can be read and its text
    ends in a newline. *)
Theorem process_directory_completes linesep walk directory fs out fs' :
  linesep = [x0a] \/ linesep = [x0d; x0a] ->
  process_directory linesep walk directory fs = (Return tt, out, fs') ->
  forall root names file,
    In (root, names) (walk directory) -> In file names ->
    py_endswith file (lit ".cpp") || py_endswith file (lit ".h") = true ->
    exists content,
      read_text fs' (os_path_join root file) = Return content
      /\ py_endswith content [10] = true.
Proof. intros Hl H. exact (process_walk_done _ _ Hl _ _ _ H). Qed.

Lemma process_directory_completes_witness :
  exists out fs' content,
    process_directory [x0a] sample_walk (lit "/p/src") sample_disk = (Return tt, out, fs')
    /\ read_text fs' (lit "/p/src/a.cpp") = Return content
    /\ py_endswith content [10] = true.
Proof.
  destruct (process_directory [x0a] sample_walk (lit "/p/src") sample_disk)
    as [[[[]|e] out] fs'] eqn:E.
  - destruct (process_directory_completes [x0a] sample_walk (lit "/p/src") sample_disk
                out fs' (or_introl eq_refl) E (lit "/p/src")
                [lit "a.cpp"; lit "b.h"; lit "notes.txt"] (lit "a.cpp"))
      as (content & R & K).
    + left. reflexivity.
    + left. reflexivity.
    + reflexivity.
    + exists out, fs', content. split; [reflexivity|]. split; [exact R|exact K].
  - vm_compute in E. discriminate E.
Defined.

(* ================================================================= *)
(** * Properties of [fix_lint_issues.py] *)

(** ** Lines *)

Lemma split_lines_cons s : exists l ls, split_lines s = l :: ls.
Proof.
  induction s as [|c t (l & ls & IH)]; cbn [split_lines]; [eauto|].
  destruct (c =? 10); [eauto|]. rewrite IH. eauto.
Qed.

Lemma split_lines_no_newline s : Forall (fun l => ~ In 10 l) (split_lines s).
Proof.
  induction s as [|c t IH]; cbn [split_lines].
  - constructor; [intros []|constructor].
  - destruct (N.eqb_spec c 10) as [->|Hc].
    + constructor; [intros []|exact IH].
    + destruct (split_lines t) as [|l ls]; [constructor; [|constructor]|].
      * intros [H|[]]. congruence.
      * inversion IH as [|? ? Hl Hls]; subst. constructor; [|exact Hls].
        intros [H|H]; [congruence|contradiction].
Qed.

Lemma join_split s : join_lines (split_lines s) = s.
Proof.
  induction s as [|c t IH]; [reflexivity|]. cbn [split_lines].
  destruct (split_lines_cons t) as (l & ls & E). rewrite E in *.
  destruct (N.eqb_spec c 10) as [->|Hc].
  - change (join_lines ([] :: l :: ls)) with (10 :: join_lines (l :: ls)). now rewrite IH.
  - rewrite <- IH. destruct ls; reflexivity.
Qed.

Lemma split_lines_app a s :
  ~ In 10 a ->
  split_lines (a ++ s)
  = match split_lines s with
    | l :: ls => (a ++ l) :: ls
    | [] => [a]
    end.
Proof.
  intros H. destruct (split_lines_cons s) as (l & ls & E). rewrite E.
  induction a as [|c a IH]; cbn [app split_lines]; [exact E|].
  destruct (N.eqb_spec c 10) as [->|Hc]; [elim H; now left|].
  rewrite IH by (intros K; apply H; now right). reflexivity.
Qed.

Lemma split_join lines :
  lines <> [] -> Forall (fun l => ~ In 10 l) lines ->
  split_lines (join_lines lines) = lines.
Proof.
  intros NE F. induction F as [|l rest Hl F IH]; [contradiction|].
  cbn [join_lines]. destruct rest as [|l2 rest].
  - rewrite <- (List.app_nil_r l) at 1. rewrite split_lines_app by exact Hl.
    cbn [split_lines]. now rewrite List.app_nil_r.
  - rewrite split_lines_app by exact Hl.
    change (split_lines (10 :: join_lines (l2 :: rest)))
      with ([] :: split_lines (join_lines (l2 :: rest))).
    rewrite IH by discriminate. now rewrite List.app_nil_r.
Qed.

Lemma join_lines_snoc lines :
  lines <> [] -> join_lines (lines ++ [[]]) = join_lines lines ++ [10].
Proof.
  induction lines as [|l rest IH]; [contradiction|]. intros _.
  destruct rest as [|l2 rest]; [reflexivity|].
  cbn [app join_lines] in *. rewrite IH by discriminate.
  now rewrite <- List.app_assoc.
Qed.

(** ** Stripping *)

Lemma lstrip_length space s : (List.length (lstrip space s) <= List.length s)%nat.
Proof.
  induction s as [|c t IH]; cbn [lstrip List.length]; [lia|].
  destruct (space c); cbn [List.length]; lia.
Qed.

Lemma lstrip_suffix space s : exists ws, s = ws ++ lstrip space s.
Proof.
  induction s as [|c t (ws & IH)]; cbn [lstrip]; [now exists []|].
  destruct (space c); [exists (c :: ws); cbn [app]; now rewrite <- IH|now exists []].
Qed.

Lemma py_rstrip_end a c : py_rstrip (a ++ [c]) = a ++ [c] <-> py_isspace c = false.
Proof.
  unfold py_rstrip. rewrite rev_app_distr. cbn [rev app lstrip].
  destruct (py_isspace c) eqn:E; split; intros H; try discriminate H; try reflexivity.
  - exfalso. apply (f_equal (@List.length N)) in H.
    rewrite length_rev, List.length_app in H. cbn [List.length] in H.
    pose proof (lstrip_length py_isspace (rev a)). rewrite length_rev in *. lia.
  - cbn [rev]. now rewrite rev_involutive.
Qed.

Lemma py_rstrip_idem s : py_rstrip (py_rstrip s) = py_rstrip s.
Proof.
  unfold py_rstrip. rewrite rev_involutive.
  destruct (lstrip py_isspace (rev s)) as [|c t] eqn:E; [reflexivity|].
  assert (H : py_isspace c = false).
  { clear -E. induction (rev s) as [|x r IH]; [discriminate E|]. cbn [lstrip] in E.
    destruct (py_isspace x) eqn:X; [exact (IH E)|]. injection E as <- _. exact X. }
  cbn [lstrip]. now rewrite H.
Qed.

Lemma py_rstrip_subset s c : In c (py_rstrip s) -> In c s.
Proof.
  unfold py_rstrip. intros H. apply in_rev in H.
  destruct (lstrip_suffix py_isspace (rev s)) as (ws & E).
  apply in_rev. rewrite E. apply in_or_app. now right.
Qed.

(** ** Dropping the empty lines at the end *)

Lemma drop_empty_shape lines :
  exists k, lines = repeat [] k ++ drop_empty lines
            /\ (drop_empty lines = [] \/ exists l rest, drop_empty lines = l :: rest /\ l <> []).
Proof.
  induction lines as [|l rest (k & E & H)]; cbn [drop_empty].
  - exists O. auto.
  - destruct l as [|c l].
    + exists (S k). cbn [repeat app]. now rewrite <- E.
    + exists O. split; [reflexivity|]. right. eexists _, _. split; [reflexivity|discriminate].
Qed.

Lemma rev_repeat_same {A} (x : A) k : rev (repeat x k) = repeat x k.
Proof.
  induction k as [|k IH]; [reflexivity|]. cbn [repeat rev]. rewrite IH.
  clear. induction k; [reflexivity|]. cbn [repeat app]. now f_equal.
Qed.

Lemma pop_empty_lines_shape lines :
  (exists k, lines = pop_empty_lines lines ++ repeat [] k)
  /\ (pop_empty_lines lines = []
      \/ exists ls l, pop_empty_lines lines = ls ++ [l] /\ l <> []).
Proof.
  unfold pop_empty_lines.
  destruct (drop_empty_shape (rev lines)) as (k & E & H).
  remember (drop_empty (rev lines)) as d eqn:Hd. clear Hd. split.
  - exists k. apply (f_equal (@rev str)) in E.
    rewrite rev_involutive, rev_app_distr, rev_repeat_same in E. exact E.
  - destruct H as [->|(l & rest & -> & Hl)]; [now left|].
    right. exists (rev rest), l. auto.
Qed.

(** ** Insertions *)

Lemma inserted_refl s : inserted s s.
Proof. induction s; constructor; assumption. Qed.

Lemma inserted_app a s s' : inserted s s' -> inserted (a ++ s) (a ++ s').
Proof. intros H. induction a; [exact H|]. cbn [app]. now constructor. Qed.

Lemma same_end_cons c l l' : same_end l l' -> same_end (c :: l) (c :: l').
Proof.
  intros [[-> ->]|(a & a' & x & -> & ->)].
  - right. now exists [], [], c.
  - right. now exists (c :: a), (c :: a'), x.
Qed.

(** Insertions keep the lines apart and the end of every line. *)
Lemma inserted_lines s s' :
  inserted s s' -> Forall2 same_end (split_lines s) (split_lines s').
Proof.
  induction 1 as [|c s s' H IH|ins d s s' H IH Hd Hi].
  - constructor; [now left|constructor].
  - cbn [split_lines].
    destruct (split_lines_cons s) as (l & ls & E).
    destruct (split_lines_cons s') as (l' & ls' & E'). rewrite E, E' in *.
    inversion IH; subst.
    destruct (c =? 10).
    + constructor; [now left|now constructor].
    + constructor; [now apply same_end_cons|assumption].
  - rewrite split_lines_app by exact Hi.
    cbn [split_lines] in *. destruct (N.eqb_spec d 10) as [->|_]; [contradiction|].
    destruct (split_lines_cons s) as (l & ls & E).
    destruct (split_lines_cons s') as (l' & ls' & E'). rewrite E, E' in *.
    inversion IH as [|? ? ? ? Hl Hls]; subst. constructor; [|exact Hls].
    destruct Hl as [[Hl _]|(a & a' & x & Ha & Ha')]; [discriminate Hl|].
    right. exists a, (ins ++ a'), x. split; [exact Ha|].
    rewrite Ha'. now rewrite List.app_assoc.
Qed.

Lemma strip_prefix_app p : forall s r, strip_prefix p s = Some r -> s = p ++ r.
Proof.
  induction p as [|x p IH]; intros s r H; cbn [strip_prefix] in H.
  - now injection H as ->.
  - destruct s as [|y s]; [discriminate H|].
    destruct (N.eqb_spec x y) as [->|]; [|discriminate H].
    cbn [app]. f_equal. now apply IH.
Qed.

(** A substitution that puts [ins] in before the character [d] of the
    pattern only inserts. *)
Lemma sub_literal_inserted pre ins d post :
  d <> 10 -> ~ In 10 ins ->
  forall fuel s,
    inserted s (sub_literal fuel (pre ++ d :: post) (pre ++ ins ++ d :: post) s).
Proof.
  intros Hd Hi. induction fuel as [|fuel IH]; intros s; cbn [sub_literal].
  - apply inserted_refl.
  - destruct (strip_prefix (pre ++ d :: post) s) as [rest|] eqn:E.
    + apply strip_prefix_app in E. subst s. rewrite <- !List.app_assoc.
      apply inserted_app. cbn [app].
      apply inserted_before; [|exact Hd|exact Hi].
      constructor. apply inserted_app. apply IH.
    + destruct s as [|c t]; constructor. apply IH.
Qed.

Lemma sub_comment_inserted fuel : forall s, inserted s (sub_comment fuel s).
Proof.
  induction fuel as [|fuel IH]; intros s; cbn [sub_comment].
  - apply inserted_refl.
  - destruct (match_comment s) as [[[c d] rest]|] eqn:E.
    + unfold match_comment in E. destruct s as [|c0 t]; [discriminate E|].
      destruct (c0 =? 32); [discriminate E|].
      destruct (strip_prefix s_comment t) as [[|d0 rest0]|] eqn:P; try discriminate E.
      destruct (d0 =? 47); [discriminate E|]. injection E as <- <- <-.
      apply strip_prefix_app in P. subst t.
      constructor. change (32 :: s_comment ++ d0 :: sub_comment fuel rest0)
        with ([32] ++ 32 :: (lit "// " ++ d0 :: sub_comment fuel rest0)).
      change (s_comment ++ d0 :: rest0) with (32 :: (lit "// " ++ d0 :: rest0)).
      apply inserted_before; [|discriminate|intros [H|[]]; discriminate H].
      constructor. apply inserted_app. constructor. apply IH.
    + destruct s as [|c t]; constructor. apply IH.
Qed.

Lemma same_end_trans s1 s2 s3 :
  Forall2 same_end s1 s2 -> Forall2 same_end s2 s3 -> Forall2 same_end s1 s3.
Proof.
  intros H. revert s3. induction H as [|l1 l2 r1 r2 H12 _ IH]; intros s3 H23;
    inversion H23 as [|? l3 ? r3 H23' Hr]; subst; constructor; [|now apply IH].
  destruct H12 as [[-> ->]|(a & a' & c & -> & ->)]; [exact H23'|].
  destruct H23' as [[E _]|(b & b' & c' & E & ->)]; [now destruct a'|].
  apply app_inj_tail in E as [_ <-]. right. now exists a, b', c.
Qed.

Lemma same_end_stripped l l' : same_end l l' -> py_rstrip l = l -> py_rstrip l' = l'.
Proof.
  intros [[-> ->]|(a & a' & c & -> & ->)] H; [reflexivity|].
  apply py_rstrip_end. now apply py_rstrip_end in H.
Qed.

(** The text after lines 24-33: stripped lines, the last one not empty,
    and a newline. *)
Lemma joined_lines_shape content :
  exists lines,
    join_lines (pop_empty_lines (map py_rstrip (split_lines content))) ++ [10]
    = join_lines lines ++ [10]
    /\ Forall (fun l => ~ In 10 l /\ py_rstrip l = l) lines
    /\ (lines = [[]] \/ exists ls l, lines = ls ++ [l] /\ l <> []).
Proof.
  assert (F1 : Forall (fun l => ~ In 10 l /\ py_rstrip l = l)
                      (map py_rstrip (split_lines content))).
  { apply Forall_map. eapply Forall_impl; [|apply split_lines_no_newline].
    intros l H. split; [|apply py_rstrip_idem].
    intros K. apply H. now apply py_rstrip_subset. }
  destruct (pop_empty_lines_shape (map py_rstrip (split_lines content)))
    as ((k & E) & H).
  rewrite E in F1. apply Forall_app in F1 as [F2 _].
  destruct H as [H|(ls & l & H & Hl)].
  - exists [[]]. rewrite H. split; [reflexivity|]. split; [|now left].
    constructor; [|constructor]. split; [intros []|reflexivity].
  - exists (pop_empty_lines (map py_rstrip (split_lines content))).
    split; [reflexivity|]. split; [exact F2|]. right. eauto.
Qed.

(** X17: the text [fix_file] computes is tidy.  Whatever the file holds,
    the fixed content is a sequence of lines without trailing white
    space, the last of which is not empty, each followed by one newline:
    it ends in exactly one newline (an empty file becomes a single
    newline). *)
Theorem fixed_content_is_tidy content :
  exists lines,
    fixed_content content = join_lines lines ++ [10]
    /\ Forall (fun l => ~ In 10 l /\ py_rstrip l = l) lines
    /\ (lines = [[]] \/ exists ls l, lines = ls ++ [l] /\ l <> []).
Proof.
  unfold fixed_content.
  destruct (joined_lines_shape content) as (lines3 & -> & F3 & S3).
  set (t3 := join_lines lines3 ++ [10]).
  set (t4 := sub_literal (S (List.length t3)) (lit "// TODO:") (lit "// TODO(dev):") t3).
  set (t5 := sub_literal (S (List.length t4)) (lit "} // namespace")
               (lit "}  // namespace") t4).
  set (t6 := sub_comment (S (List.length t5)) t5).
  assert (NE : lines3 <> []).
  { destruct S3 as [->|(ls & l & -> & _)]; [discriminate|now destruct ls]. }
  assert (E3 : split_lines t3 = lines3 ++ [[]]).
  { unfold t3. rewrite <- join_lines_snoc by exact NE. apply split_join.
    - now destruct lines3.
    - apply Forall_app. split.
      + eapply Forall_impl; [|exact F3]. now intros l [H _].
      + constructor; [intros []|constructor]. }
  assert (I4 : inserted t3 t4).
  { exact (sub_literal_inserted (lit "// TODO") (lit "(dev)") 58 []
             ltac:(discriminate) ltac:(vm_compute; intuition discriminate) _ t3). }
  assert (I5 : inserted t4 t5).
  { exact (sub_literal_inserted (lit "}") [32] 32 (lit "// namespace")
             ltac:(discriminate) ltac:(vm_compute; intuition discriminate) _ t4). }
  assert (I6 : inserted t5 t6) by apply sub_comment_inserted.
  assert (R : Forall2 same_end (lines3 ++ [[]]) (split_lines t6)).
  { rewrite <- E3.
    exact (same_end_trans _ _ _
             (same_end_trans _ _ _ (inserted_lines _ _ I4) (inserted_lines _ _ I5))
             (inserted_lines _ _ I6)). }
  apply Forall2_app_inv_l in R as (lines' & last' & R1 & R2 & E6).
  inversion R2 as [|? l6 ? r6 H6 Hr]; subst. inversion Hr; subst.
  destruct H6 as [[_ ->]|(a & a' & c & Ha & _)]; [|now destruct a].
  assert (NE' : lines' <> []).
  { intros ->. inversion R1. now subst. }
  exists lines'. split; [|split].
  - rewrite <- (join_split t6), E6. now apply join_lines_snoc.
  - pose proof (split_lines_no_newline t6) as N6. rewrite E6 in N6.
    apply Forall_app in N6 as [N6 _].
    clear -R1 F3 N6. induction R1 as [|l l' r r' H _ IH]; [constructor|].
    inversion F3 as [|? ? [_ Hs] F3']; subst. inversion N6; subst.
    constructor; [|now apply IH]. split; [assumption|]. eapply same_end_stripped; eauto.
  - destruct S3 as [->|(ls & l & -> & Hl)].
    + left. inversion R1 as [|? l' ? r' H Hr']; subst. inversion Hr'; subst.
      destruct H as [[_ ->]|(a & a' & c & Ha & _)]; [reflexivity|now destruct a].
    + right. apply Forall2_app_inv_l in R1 as (ls' & r' & _ & R & ->).
      inversion R as [|? l' ? r'' H Hr']; subst. inversion Hr'; subst.
      exists ls', l'. split; [reflexivity|].
      destruct H as [[H _]|(a & a' & c & _ & ->)]; [contradiction|now destruct a'].
Qed.

(* ----------------------------------------------------------------- *)
(** *** Writing and reading back *)

Lemma utf8_decode_cons b0 r0 :
  utf8_decode (b0 :: r0)
  = let n0 := Byte.to_N b0 in
    if n0 <? 128 then option_map (cons n0) (utf8_decode r0)
    else if n0 <? 194 then None
    else if n0 <? 224 then
      match r0 with
      | b1 :: r1 =>
          if is_cont b1
          then option_map (cons ((n0 - 192) * 64 + cont_bits b1)) (utf8_decode r1)
          else None
      | _ => None
      end
    else if n0 <? 240 then
      match r0 with
      | b1 :: b2 :: r2 =>
          let c := (n0 - 224) * 4096 + cont_bits b1 * 64 + cont_bits b2 in
          if is_cont b1 && is_cont b2 && (2048 <=? c)
             && negb ((55296 <=? c) && (c <=? 57343))
          then option_map (cons c) (utf8_decode r2)
          else None
      | _ => None
      end
    else if n0 <? 245 then
      match r0 with
      | b1 :: b2 :: b3 :: r3 =>
          let c := (n0 - 240) * 262144 + cont_bits b1 * 4096
                   + cont_bits b2 * 64 + cont_bits b3 in
          if is_cont b1 && is_cont b2 && is_cont b3
             && (65536 <=? c) && (c <? 1114112)
          then option_map (cons c) (utf8_decode r3)
          else None
      | _ => None
      end
    else None.
Proof. reflexivity. Qed.

Lemma utf8_char_round c b rest :
  utf8_encode_char c = Some b ->
  utf8_decode (b ++ rest) = option_map (cons c) (utf8_decode rest).
Proof.
  unfold utf8_encode_char.
  destruct (N.ltb_spec c 128) as [H1|H1].
  { intros E. apply (f_equal (fun o => match o with Some x => x | None => [] end)) in E. cbv beta iota in E. subst b. rewrite <- List.app_comm_cons. rewrite utf8_decode_cons.
    cbv zeta. unfold app.
    rewrite to_N_byte_of_N by lia.
    destruct (N.ltb_spec c 128); [reflexivity|lia]. }
  destruct (N.ltb_spec c 2048) as [H2|H2].
  { intros E. apply (f_equal (fun o => match o with Some x => x | None => [] end)) in E. cbv beta iota in E. subst b. rewrite <- List.app_comm_cons. rewrite utf8_decode_cons. cbv zeta. unfold is_cont, cont_bits, app.
    rewrite !to_N_byte_of_N by lia.
    destruct (N.ltb_spec (192 + c / 64) 128); [lia|].
    destruct (N.ltb_spec (192 + c / 64) 194); [lia|].
    destruct (N.ltb_spec (192 + c / 64) 224); [|lia].
    destruct (N.leb_spec 128 (128 + c mod 64)); [|lia].
    destruct (N.ltb_spec (128 + c mod 64) 192); [|lia].
    cbn [andb]. replace ((192 + c / 64 - 192) * 64 + (128 + c mod 64 - 128)) with c by lia.
    reflexivity. }
  destruct (N.ltb_spec c 65536) as [H3|H3].
  { destruct ((55296 <=? c) && (c <=? 57343)) eqn:S; [discriminate|].
    intros E. apply (f_equal (fun o => match o with Some x => x | None => [] end)) in E. cbv beta iota in E. subst b. rewrite <- List.app_comm_cons. rewrite utf8_decode_cons. cbv zeta. unfold is_cont, cont_bits, app.
    rewrite !to_N_byte_of_N by lia.
    destruct (N.ltb_spec (224 + c / 4096) 128); [lia|].
    destruct (N.ltb_spec (224 + c / 4096) 194); [lia|].
    destruct (N.ltb_spec (224 + c / 4096) 224); [lia|].
    destruct (N.ltb_spec (224 + c / 4096) 240); [|lia].
    destruct (N.leb_spec 128 (128 + (c / 64) mod 64)); [|lia].
    destruct (N.ltb_spec (128 + (c / 64) mod 64) 192); [|lia].
    destruct (N.leb_spec 128 (128 + c mod 64)); [|lia].
    destruct (N.ltb_spec (128 + c mod 64) 192); [|lia].
    replace ((224 + c / 4096 - 224) * 4096 + (128 + (c / 64) mod 64 - 128) * 64
             + (128 + c mod 64 - 128)) with c by lia.
    rewrite S. destruct (N.leb_spec 2048 c); [|lia]. reflexivity. }
  destruct (N.ltb_spec c 1114112) as [H4|H4]; [|discriminate].
  intros E. apply (f_equal (fun o => match o with Some x => x | None => [] end)) in E. cbv beta iota in E. subst b. rewrite <- List.app_comm_cons. rewrite utf8_decode_cons. cbv zeta. unfold is_cont, cont_bits, app.
  rewrite !to_N_byte_of_N by lia.
  destruct (N.ltb_spec (240 + c / 262144) 128); [lia|].
  destruct (N.ltb_spec (240 + c / 262144) 194); [lia|].
  destruct (N.ltb_spec (240 + c / 262144) 224); [lia|].
  destruct (N.ltb_spec (240 + c / 262144) 240); [lia|].
  destruct (N.ltb_spec (240 + c / 262144) 245); [|lia].
  destruct (N.leb_spec 128 (128 + (c / 4096) mod 64)); [|lia].
  destruct (N.ltb_spec (128 + (c / 4096) mod 64) 192); [|lia].
  destruct (N.leb_spec 128 (128 + (c / 64) mod 64)); [|lia].
  destruct (N.ltb_spec (128 + (c / 64) mod 64) 192); [|lia].
  destruct (N.leb_spec 128 (128 + c mod 64)); [|lia].
  destruct (N.ltb_spec (128 + c mod 64) 192); [|lia].
  replace ((240 + c / 262144 - 240) * 262144 + (128 + (c / 4096) mod 64 - 128) * 4096
           + (128 + (c / 64) mod 64 - 128) * 64 + (128 + c mod 64 - 128)) with c by lia.
  destruct (N.leb_spec 65536 c); [|lia].
  destruct (N.ltb_spec c 1114112); [|lia]. reflexivity.
Qed.

(** What decodes is made of scalar values. *)
Lemma utf8_decode_valid :
  forall n bs t,
    (List.length bs <= n)%nat ->
    utf8_decode bs = Some t -> Forall (fun c => valid_char c = true) t.
Proof.
  induction n as [|n IH]; intros bs t L H.
  - destruct bs; [|cbn [List.length] in L; lia]. injection H as <-. constructor.
  - destruct bs as [|b0 r0]; [injection H as <-; constructor|].
    rewrite utf8_decode_cons in H. cbv zeta in H. cbn [List.length] in L.
    destruct (N.ltb_spec (Byte.to_N b0) 128) as [H1|H1].
    { destruct (utf8_decode r0) as [t0|] eqn:D; [|discriminate H]. injection H as <-.
      constructor; [|apply (IH r0); [lia|exact D]].
      unfold valid_char. destruct (N.ltb_spec (Byte.to_N b0) 55296); [reflexivity|lia]. }
    destruct (N.ltb_spec (Byte.to_N b0) 194) as [H2|H2]; [discriminate H|].
    destruct (N.ltb_spec (Byte.to_N b0) 224) as [H3|H3].
    { destruct r0 as [|b1 r1]; [discriminate H|]. unfold is_cont, cont_bits in H.
      destruct (N.leb_spec 128 (Byte.to_N b1)); [|discriminate H].
      destruct (N.ltb_spec (Byte.to_N b1) 192); [|discriminate H]. cbn [andb] in H.
      destruct (utf8_decode r1) as [t0|] eqn:D; [|discriminate H]. injection H as <-.
      cbn [List.length] in L.
      constructor; [|apply (IH r1); [lia|exact D]].
      unfold valid_char.
      destruct (N.ltb_spec ((Byte.to_N b0 - 192) * 64 + (Byte.to_N b1 - 128)) 55296);
        [reflexivity|lia]. }
    destruct (N.ltb_spec (Byte.to_N b0) 240) as [H4|H4].
    { destruct r0 as [|b1 [|b2 r2]]; try discriminate H. cbv zeta in H.
      match type of H with (if ?c then _ else _) = _ => destruct c eqn:C end;
        [|discriminate H].
      destruct (utf8_decode r2) as [t0|] eqn:D; [|discriminate H]. injection H as <-.
      cbn [List.length] in L.
      constructor; [|apply (IH r2); [lia|exact D]].
      apply andb_true_iff in C as [C S]. apply andb_true_iff in C as [C _].
      apply andb_true_iff in C as [C1 C2]. unfold is_cont, cont_bits in *.
      apply andb_true_iff in C1 as [_ C1]. apply andb_true_iff in C2 as [_ C2].
      apply N.ltb_lt in C1, C2. apply negb_true_iff in S. unfold valid_char.
      set (c := (Byte.to_N b0 - 224) * 4096 + (Byte.to_N b1 - 128) * 64
                + (Byte.to_N b2 - 128)) in *.
      assert (c < 65536) by (unfold c; lia).
      apply andb_false_iff in S as [S|S].
      - apply N.leb_gt in S. destruct (N.ltb_spec c 55296); [reflexivity|lia].
      - apply N.leb_gt in S. destruct (N.ltb_spec c 55296); [reflexivity|].
        destruct (N.ltb_spec 57343 c); [|lia].
        destruct (N.ltb_spec c 1114112); [reflexivity|lia]. }
    destruct (N.ltb_spec (Byte.to_N b0) 245) as [H5|H5]; [|discriminate H].
    destruct r0 as [|b1 [|b2 [|b3 r3]]]; try discriminate H. cbv zeta in H.
    match type of H with (if ?c then _ else _) = _ => destruct c eqn:C end;
      [|discriminate H].
    destruct (utf8_decode r3) as [t0|] eqn:D; [|discriminate H]. injection H as <-.
    cbn [List.length] in L.
    constructor; [|apply (IH r3); [lia|exact D]].
    apply andb_true_iff in C as [C C5]. apply andb_true_iff in C as [_ C4].
    apply N.leb_le in C4. apply N.ltb_lt in C5. unfold valid_char.
    match goal with |- (?c <? _) || _ = true => set (x := c) in * end.
    destruct (N.ltb_spec x 55296); [reflexivity|].
    destruct (N.ltb_spec 57343 x); [|lia].
    destruct (N.ltb_spec x 1114112); [reflexivity|lia].
Qed.

Lemma universal_newlines_chars :
  forall n s,
    (List.length s <= n)%nat ->
    ~ In 13 (universal_newlines s)
    /\ forall c, In c (universal_newlines s) -> c = 10 \/ In c s.
Proof.
  induction n as [|n IH]; intros s L.
  - destruct s; [|cbn [List.length] in L; lia]. split; [intros []|intros c []].
  - destruct s as [|c t]; [split; [intros []|intros x []]|].
    cbn [List.length] in L. cbn [universal_newlines].
    destruct (N.eqb_spec c 13) as [->|Hc].
    + destruct t as [|d t'].
      * split; [intros [H|[]]; discriminate H|]. intros x [<-|[]]. now left.
      * cbn [List.length] in L. destruct (d =? 10).
        -- destruct (IH t' ltac:(lia)) as [A B]. split.
           ++ intros [H|H]; [discriminate H|contradiction].
           ++ intros x [<-|H]; [now left|].
              destruct (B x H) as [->|K]; [now left|right; right; now right].
        -- destruct (IH (d :: t') ltac:(cbn [List.length]; lia)) as [A B]. split.
           ++ intros [H|H]; [discriminate H|contradiction].
           ++ intros x [<-|H]; [now left|].
              destruct (B x H) as [->|K]; [now left|right; now right].
    + destruct (IH t ltac:(lia)) as [A B]. split.
      * intros [H|H]; [congruence|contradiction].
      * intros x [<-|H]; [right; now left|].
        destruct (B x H) as [->|K]; [now left|right; now right].
Qed.

(** ** The characters of the fixed content *)

Lemma sub_literal_chars pattern repl fuel :
  forall s c, In c (sub_literal fuel pattern repl s) -> In c s \/ In c repl.
Proof.
  induction fuel as [|fuel IH]; intros s c H; cbn [sub_literal] in H; [now left|].
  destruct (strip_prefix pattern s) as [rest|] eqn:E.
  - apply strip_prefix_app in E. subst s. apply in_app_or in H as [H|H]; [now right|].
    destruct (IH _ _ H) as [K|K]; [left; apply in_or_app; now right|now right].
  - destruct s as [|x t]; [contradiction|]. destruct H as [<-|H]; [left; now left|].
    destruct (IH _ _ H) as [K|K]; [left; now right|now right].
Qed.

Lemma sub_comment_chars fuel :
  forall s c, In c (sub_comment fuel s) -> In c s \/ c = 32.
Proof.
  induction fuel as [|fuel IH]; intros s c H; cbn [sub_comment] in H; [now left|].
  destruct (match_comment s) as [[[x d] rest]|] eqn:E.
  - unfold match_comment in E. destruct s as [|c0 t]; [discriminate E|].
    destruct (c0 =? 32); [discriminate E|].
    destruct (strip_prefix s_comment t) as [[|d0 rest0]|] eqn:P; try discriminate E.
    destruct (d0 =? 47); [discriminate E|]. injection E as <- <- <-.
    apply strip_prefix_app in P. subst t.
    destruct H as [<-|[<-|H]]; [left; now left|now right|].
    apply in_app_or in H as [H|[<-|H]].
    + left. right. apply in_or_app. now left.
    + left. right. apply in_or_app. right. now left.
    + destruct (IH _ _ H) as [K|K]; [|now right].
      left. right. apply in_or_app. right. now right.
  - destruct s as [|x t]; [contradiction|]. destruct H as [<-|H]; [left; now left|].
    destruct (IH _ _ H) as [K|K]; [left; now right|now right].
Qed.

Lemma join_lines_chars lines c :
  In c (join_lines lines) -> c = 10 \/ exists l, In l lines /\ In c l.
Proof.
  induction lines as [|l rest IH]; [intros []|].
  cbn [join_lines]. destruct rest as [|l2 rest].
  - intros H. right. exists l. split; [now left|exact H].
  - intros H. apply in_app_or in H as [H|[<-|H]].
    + right. exists l. split; [now left|exact H].
    + now left.
    + destruct (IH H) as [->|(l' & Hl & Hc)]; [now left|].
      right. exists l'. split; [now right|exact Hc].
Qed.

Lemma split_lines_chars s l c : In l (split_lines s) -> In c l -> In c s.
Proof.
  revert l. induction s as [|x t IH]; intros l Hl Hc; cbn [split_lines] in Hl.
  - destruct Hl as [<-|[]]. contradiction.
  - destruct (x =? 10).
    + destruct Hl as [<-|Hl]; [contradiction|]. right. exact (IH l Hl Hc).
    + destruct (split_lines t) as [|l0 ls]; destruct Hl as [<-|Hl].
      * destruct Hc as [<-|[]]. now left.
      * contradiction.
      * destruct Hc as [<-|Hc]; [now left|]. right. apply (IH l0); [now left|exact Hc].
      * right. apply (IH l); [now right|exact Hc].
Qed.

(** The fixed content holds characters of the content and ASCII
    characters other than the carriage return. *)
Lemma fixed_content_chars content c :
  In c (fixed_content content) -> In c content \/ (c < 128 /\ c <> 13).
Proof.
  unfold fixed_content. intros H.
  apply sub_comment_chars in H as [H| ->]; [|right; lia].
  apply sub_literal_chars in H as [H|H].
  2:{ right. vm_compute in H. intuition (subst; lia). }
  apply sub_literal_chars in H as [H|H].
  2:{ right. vm_compute in H. intuition (subst; lia). }
  apply in_app_or in H as [H|[<-|[]]]; [|right; lia].
  apply join_lines_chars in H as [->|(l & Hl & Hc)]; [right; lia|].
  left.
  destruct (pop_empty_lines_shape (map py_rstrip (split_lines content))) as ((k & E) & _).
  assert (Hl' : In l (map py_rstrip (split_lines content)))
    by (rewrite E; apply in_or_app; now left).
  apply in_map_iff in Hl' as (l0 & <- & Hl0).
  apply py_rstrip_subset in Hc. exact (split_lines_chars _ _ _ Hl0 Hc).
Qed.

Lemma utf8_encode_char_valid c : valid_char c = true -> exists b, utf8_encode_char c = Some b.
Proof.
  intros H. apply valid_char_cases in H. unfold utf8_encode_char.
  destruct (c <? 128); [eauto|]. destruct (c <? 2048); [eauto|].
  destruct (N.ltb_spec c 65536).
  - destruct (N.leb_spec 55296 c); cbn [andb]; [|eauto].
    destruct (N.leb_spec c 57343); [lia|eauto].
  - destruct (N.ltb_spec c 1114112); [eauto|lia].
Qed.

Lemma encode_text_valid linesep s :
  Forall (fun c => valid_char c = true) s -> exists data, encode_text linesep s = Some data.
Proof.
  induction 1 as [|c t Hc _ (data & IH)]; cbn [encode_text]; [eauto|].
  rewrite IH. destruct (c =? 10); [eauto|].
  destruct (utf8_encode_char_valid c Hc) as (b & ->). eauto.
Qed.

Lemma decode_encode_text linesep sep :
  (linesep = [x0a] /\ sep = [10]) \/ (linesep = [x0d; x0a] /\ sep = [13; 10]) ->
  forall s data,
    encode_text linesep s = Some data ->
    utf8_decode data = Some (expand_newlines sep s).
Proof.
  intros Hl. induction s as [|c t IH]; intros data H; cbn [encode_text] in H.
  - injection H as <-. reflexivity.
  - destruct (encode_text linesep t) as [bs|]; [|destruct (if c =? 10 then _ else _); discriminate H].
    specialize (IH bs eq_refl). cbn [expand_newlines flat_map].
    fold (expand_newlines sep t).
    destruct (c =? 10).
    + injection H as <-. destruct Hl as [[-> ->]|[-> ->]].
      * rewrite (utf8_char_round 10 [x0a] bs eq_refl), IH. reflexivity.
      * change ([x0d; x0a] ++ bs) with ([x0d] ++ [x0a] ++ bs).
        rewrite (utf8_char_round 13 [x0d] _ eq_refl),
                (utf8_char_round 10 [x0a] bs eq_refl), IH. reflexivity.
    + destruct (utf8_encode_char c) as [b|] eqn:E; [|discriminate H]. injection H as <-.
      rewrite (utf8_char_round c b bs E), IH. reflexivity.
Qed.

Lemma universal_expand sep s :
  sep = [10] \/ sep = [13; 10] ->
  ~ In 13 s ->
  universal_newlines (expand_newlines sep s) = s.
Proof.
  intros Hs. induction s as [|c t IH]; intros H; [reflexivity|].
  cbn [expand_newlines flat_map]. fold (expand_newlines sep t).
  assert (Hc : c <> 13) by (intros ->; apply H; now left).
  assert (Ht : ~ In 13 t) by (intros K; apply H; now right).
  destruct (N.eqb_spec c 10) as [->|H10].
  - destruct Hs as [-> | ->]; cbn [app universal_newlines N.eqb Pos.eqb]; now rewrite IH.
  - cbn [app universal_newlines]. destruct (N.eqb_spec c 13); [contradiction|].
    now rewrite IH.
Qed.

(** What [fix_file] makes of a file that can be read. *)
Lemma fix_file_result linesep path fs b out fs' :
  linesep = [x0a] \/ linesep = [x0d; x0a] ->
  fix_file linesep path fs = (b, out, fs') ->
  (forall q, q <> path -> fs' q = fs q)
  /\ (b = true ->
      exists content,
        read_text fs path = Return content
        /\ fixed_content content <> content
        /\ out = [Fixed path]
        /\ read_text fs' path = Return (fixed_content content))
  /\ (b = false -> fs' = fs).
Proof.
  intros Hl. unfold fix_file.
  destruct (read_text fs path) as [content|e] eqn:R.
  2:{ intros H. injection H as <- _ <-. repeat split; discriminate || auto. }
  destruct (str_eqb (fixed_content content) content) eqn:Q; cbn [negb].
  { intros H. injection H as <- _ <-. repeat split; discriminate || auto. }
  apply str_eqb_neq in Q.
  assert (V : Forall (fun c => valid_char c = true) (fixed_content content)
              /\ ~ In 13 (fixed_content content)).
  { unfold read_text in R. destruct (fs path) as [raw|]; [|discriminate R].
    destruct (utf8_decode raw) as [text|] eqn:D; [|discriminate R]. injection R as <-.
    pose proof (utf8_decode_valid _ raw text (Nat.le_refl _) D) as Vt.
    destruct (universal_newlines_chars _ text (Nat.le_refl _)) as [N13 Sub].
    split.
    - apply Forall_forall. intros c Hc.
      apply fixed_content_chars in Hc as [Hc|[Hc _]].
      + destruct (Sub c Hc) as [->|K]; [reflexivity|].
        exact (proj1 (Forall_forall _ _) Vt c K).
      + unfold valid_char. destruct (N.ltb_spec c 55296); [reflexivity|lia].
    - intros Hc. apply fixed_content_chars in Hc as [Hc|[_ Hc]]; [|congruence].
      contradiction. }
  destruct V as [V N13].
  destruct (encode_text_valid linesep _ V) as (data & E). rewrite E.
  intros H. injection H as <- <- <-.
  split; [intros q Hq; now apply disk_set_other|]. split; [|discriminate].
  intros _. exists content. split; [reflexivity|]. split; [exact Q|]. split; [reflexivity|].
  unfold read_text. rewrite disk_set_same.
  destruct Hl as [-> | ->].
  - rewrite (decode_encode_text [x0a] [10] (or_introl (conj eq_refl eq_refl)) _ _ E).
    now rewrite universal_expand by auto.
  - rewrite (decode_encode_text [x0d; x0a] [13; 10] (or_intror (conj eq_refl eq_refl)) _ _ E).
    now rewrite universal_expand by auto.
Qed.

(** X18: [fix_file] writes the fixed text or nothing.  When it returns
    [True] it has printed that it fixed the file, and the file, read
    again, holds the fixed content of what it held, which differs from it;
    when it returns [False] the file system is as it was (in particular a
    file is never left empty).  It never touches another file. *)
Theorem fix_file_writes_the_fixed_text linesep path fs b out fs' :
  linesep = [x0a] \/ linesep = [x0d; x0a] ->
  fix_file linesep path fs = (b, out, fs') ->
  (forall q, q <> path -> fs' q = fs q)
  /\ (b = true ->
      exists content,
        read_text fs path = Return content
        /\ fixed_content content <> content
        /\ out = [Fixed path]
        /\ read_text fs' path = Return (fixed_content content))
  /\ (b = false -> fs' = fs).
Proof. exact (fix_file_result linesep path fs b out fs'). Qed.

Lemma fix_file_writes_the_fixed_text_witness :
  exists fs',
    fix_file [x0d; x0a] (lit "/p/src/a.cpp") sample_disk
    = (true, [Fixed (lit "/p/src/a.cpp")], fs')
    /\ fs' (lit "/p/src/a.cpp") = Some (ascii_bytes (lit "int x;" ++ [13; 10]))
    /\ fs' (lit "/p/src/b.h") = sample_disk (lit "/p/src/b.h").
Proof.
  eexists. split; [reflexivity|]. split; [reflexivity|].
  apply (proj1 (fix_file_writes_the_fixed_text [x0d; x0a] (lit "/p/src/a.cpp") sample_disk
                  true [Fixed (lit "/p/src/a.cpp")] _ (or_intror eq_refl) eq_refl)).
  discriminate.
Defined.

(* ================================================================= *)
(** * Properties of [increment_version.py] *)

Lemma span_digits_inv s :
  forall ds rest,
    span_digits s = (ds, rest) ->
    Forall (fun x => is_digit x = true) ds /\ s = ds ++ rest.
Proof.
  induction s as [|c t IH]; intros ds rest H; cbn [span_digits] in H.
  - injection H as <- <-. split; [constructor|reflexivity].
  - destruct (is_digit c) eqn:D.
    + destruct (span_digits t) as [ds0 r0]. injection H as <- <-.
      destruct (IH ds0 r0 eq_refl) as [F ->]. split; [now constructor|reflexivity].
    + injection H as <- <-. split; [constructor|reflexivity].
Qed.

Lemma span_digits_stop ds rest :
  Forall (fun x => is_digit x = true) ds ->
  match rest with [] => True | x :: _ => is_digit x = false end ->
  span_digits (ds ++ rest) = (ds, rest).
Proof.
  intros F H. induction F as [|c ds Hc _ IH]; cbn [app span_digits].
  - destruct rest as [|x t]; [reflexivity|]. cbn [span_digits]. now rewrite H.
  - now rewrite Hc, IH.
Qed.

Lemma digit_run_inv s ds rest :
  digit_run s = Some (Some (ds, rest)) ->
  ds <> [] /\ Forall (fun x => is_digit x = true) ds /\ s = ds ++ rest.
Proof.
  unfold digit_run. destruct (span_digits s) as [ds0 r0] eqn:E.
  apply span_digits_inv in E as [F ->].
  destruct (match r0 with c :: _ => 128 <=? c | [] => false end); [discriminate|].
  destruct ds0 as [|d ds0]; [discriminate|]. intros H. injection H as <- <-.
  split; [discriminate|]. split; [exact F|reflexivity].
Qed.

Lemma dot_digit_run_inv s ds rest :
  dot_digit_run s = Some (Some (ds, rest)) ->
  ds <> [] /\ Forall (fun x => is_digit x = true) ds /\ s = 46 :: ds ++ rest.
Proof.
  unfold dot_digit_run. destruct s as [|c t]; [discriminate|].
  destruct (N.eqb_spec c 46) as [->|_]; [|discriminate].
  intros H. apply digit_run_inv in H as (NE & F & ->). auto.
Qed.

Lemma match_triple_inv s a b c rest :
  match_triple s = Some (Some (a, b, c, rest)) ->
  (a <> [] /\ Forall (fun x => is_digit x = true) a)
  /\ (b <> [] /\ Forall (fun x => is_digit x = true) b)
  /\ (c <> [] /\ Forall (fun x => is_digit x = true) c)
  /\ s = a ++ 46 :: b ++ 46 :: c ++ rest.
Proof.
  unfold match_triple.
  destruct (digit_run s) as [[[a0 r1]|]|] eqn:A; try discriminate.
  destruct (dot_digit_run r1) as [[[b0 r2]|]|] eqn:B; try discriminate.
  destruct (dot_digit_run r2) as [[[c0 r3]|]|] eqn:C; try discriminate.
  intros H. injection H as <- <- <- <-.
  apply digit_run_inv in A as (Na & Fa & ->).
  apply dot_digit_run_inv in B as (Nb & Fb & ->).
  apply dot_digit_run_inv in C as (Nc & Fc & ->). auto.
Qed.

Lemma digit_run_group ds rest :
  ds <> [] -> Forall (fun x => is_digit x = true) ds -> ends_number rest ->
  digit_run (ds ++ rest) = Some (Some (ds, rest)).
Proof.
  intros NE F H. unfold digit_run. rewrite span_digits_stop.
  - destruct rest as [|x t]; [now destruct ds|].
    destruct H as [_ H]. destruct (N.leb_spec 128 x); [lia|]. now destruct ds.
  - exact F.
  - destruct rest; [exact I|apply H].
Qed.

Lemma match_triple_groups a b c tail :
  (a <> [] /\ Forall (fun x => is_digit x = true) a) ->
  (b <> [] /\ Forall (fun x => is_digit x = true) b) ->
  (c <> [] /\ Forall (fun x => is_digit x = true) c) ->
  ends_number tail ->
  match_triple (a ++ 46 :: b ++ 46 :: c ++ tail) = Some (Some (a, b, c, tail)).
Proof.
  intros [Na Fa] [Nb Fb] [Nc Fc] H. unfold match_triple.
  rewrite (digit_run_group a _ Na Fa) by (split; [reflexivity|lia]).
  cbn [dot_digit_run N.eqb Pos.eqb].
  rewrite (digit_run_group b _ Nb Fb) by (split; [reflexivity|lia]).
  cbn [dot_digit_run N.eqb Pos.eqb].
  now rewrite (digit_run_group c _ Nc Fc H).
Qed.

Lemma int_of_group_digits ds :
  ds <> [] -> Forall (fun x => is_digit x = true) ds ->
  int_of_group ds
  = if (max_str_digits <? List.length ds)%nat then Some (Raise ValueError)
    else Some (Return (Z.of_N (digits_value ds))).
Proof. intros NE F. unfold int_of_group. now rewrite (py_int_digits ds NE F). Qed.

(** *** Digit strings and decimal numerals *)

Lemma length_uint_chars d : List.length (uint_chars d) = Decimal.nb_digits d.
Proof. induction d; cbn [uint_chars List.length Decimal.nb_digits]; congruence. Qed.

Lemma digits_uint ds :
  Forall (fun x => is_digit x = true) ds -> exists d, uint_chars d = ds.
Proof.
  induction 1 as [|c ds Hc _ (d & <-)]; [exists Decimal.Nil; reflexivity|].
  apply is_digit_range in Hc.
  assert (K : c = 48 \/ c = 49 \/ c = 50 \/ c = 51 \/ c = 52 \/ c = 53 \/ c = 54
              \/ c = 55 \/ c = 56 \/ c = 57) by lia.
  destruct K as [->|[->|[->|[->|[->|[->|[->|[->|[->| ->]]]]]]]]].
  - exists (Decimal.D0 d). reflexivity.
  - exists (Decimal.D1 d). reflexivity.
  - exists (Decimal.D2 d). reflexivity.
  - exists (Decimal.D3 d). reflexivity.
  - exists (Decimal.D4 d). reflexivity.
  - exists (Decimal.D5 d). reflexivity.
  - exists (Decimal.D6 d). reflexivity.
  - exists (Decimal.D7 d). reflexivity.
  - exists (Decimal.D8 d). reflexivity.
  - exists (Decimal.D9 d). reflexivity.
Qed.

(** The number a group of digits denotes is written with no more digits
    than the group has. *)
Lemma length_str_of_digits ds :
  ds <> [] -> Forall (fun x => is_digit x = true) ds ->
  (List.length (str_of_N (digits_value ds)) <= List.length ds)%nat.
Proof.
  intros NE F. destruct (digits_uint ds F) as (d & <-).
  rewrite digits_value_uint. unfold str_of_N.
  change (N.to_uint (Pos.of_uint d)) with (N.to_uint (N.of_uint d)).
  rewrite DecimalN.Unsigned.to_of, !length_uint_chars.
  apply nb_digits_unorm. intros ->. now apply NE.
Qed.

Lemma format_int_group ds :
  ds <> [] -> Forall (fun x => is_digit x = true) ds ->
  (List.length ds <= max_str_digits)%nat ->
  format_int (Z.of_N (digits_value ds)) = Return (str_of_Z (Z.of_N (digits_value ds))).
Proof.
  intros NE F L. unfold format_int. rewrite Zabs2N.id.
  pose proof (length_str_of_digits ds NE F) as K.
  destruct (Nat.ltb_spec max_str_digits (List.length (str_of_N (digits_value ds))));
    [lia|reflexivity].
Qed.

Lemma format_int_next c :
  format_int (Z.of_N (digits_value c) + 1)
  = if (max_str_digits <? List.length (str_of_N (digits_value c + 1)))%nat
    then Raise ValueError
    else Return (str_of_Z (Z.of_N (digits_value c) + 1)).
Proof.
  unfold format_int.
  replace (Z.of_N (digits_value c) + 1)%Z with (Z.of_N (digits_value c + 1)) by lia.
  now rewrite Zabs2N.id.
Qed.

(** The f-string of line 30 on the numbers of three groups: it fails only
    on the number after the last one. *)
Lemma format_version_groups a b c :
  digit_group a -> digit_group b ->
  format_version (Z.of_N (digits_value a)) (Z.of_N (digits_value b))
    (Z.of_N (digits_value c) + 1)
  = if (max_str_digits <? List.length (str_of_N (digits_value c + 1)))%nat
    then Raise ValueError
    else Return (version_text (Z.of_N (digits_value a)) (Z.of_N (digits_value b))
                   (Z.of_N (digits_value c) + 1)).
Proof.
  intros (Na & Fa & La) (Nb & Fb & Lb). unfold format_version.
  rewrite (format_int_group a Na Fa La), (format_int_group b Nb Fb Lb), format_int_next.
  cbn [obind].
  now destruct (max_str_digits <? List.length (str_of_N (digits_value c + 1)))%nat.
Qed.

Lemma texts_set_same path text fs : texts_set path text fs path = Some text.
Proof. unfold texts_set. now rewrite str_eqb_refl. Qed.

Lemma texts_set_other path text fs q : q <> path -> texts_set path text fs q = fs q.
Proof.
  intros H. unfold texts_set. destruct (str_eqb q path) eqn:E; [|reflexivity].
  apply str_eqb_eq in E. contradiction.
Qed.

Lemma update_manifest_inv v fs out fs' :
  update_manifest v fs = Some (out, fs') ->
  (forall q, q <> MANIFEST_FILE -> fs' q = fs q)
  /\ (fs MANIFEST_FILE = None -> out = [] /\ fs' = fs)
  /\ (fs MANIFEST_FILE = None <-> fs' MANIFEST_FILE = None).
Proof.
  unfold update_manifest. destruct (fs MANIFEST_FILE) as [m|] eqn:M.
  - destruct (sub_entry _ _ m) as [m'|]; [|discriminate]. intros H. injection H as <- <-.
    split; [intros q Hq; now apply texts_set_other|]. split; [discriminate|].
    rewrite texts_set_same. split; discriminate.
  - intros H. injection H as <- <-. rewrite M. repeat split; auto.
Qed.

Lemma py_print_raises s e :
  py_print s = Raise e -> e = UnicodeEncodeError /\ valid_str s = false.
Proof.
  intros H. split.
  - unfold py_print in H. destruct (utf8_encode s); [discriminate|]. now injection H.
  - destruct (valid_str s) eqn:V; [|reflexivity].
    rewrite (py_print_valid s V) in H. discriminate.
Qed.

(** The outcomes of [increment_version]. *)
Lemma increment_version_inv fs r out fs' :
  increment_version fs = Some (r, out, fs') ->
  (r = Return false /\ fs' = fs /\ exists line, out = [line])
  \/ (r = Raise UnicodeEncodeError /\ fs' = fs /\ out = []
      /\ exists text, fs VERSION_FILE = Some text /\ valid_str (py_strip text) = false)
  \/ exists a b c tail,
       (exists text, fs VERSION_FILE = Some text
                     /\ py_strip text = a ++ 46 :: b ++ 46 :: c ++ tail)
       /\ (a <> [] /\ Forall (fun x => is_digit x = true) a)
       /\ (b <> [] /\ Forall (fun x => is_digit x = true) b)
       /\ (c <> [] /\ Forall (fun x => is_digit x = true) c)
       /\ ((r = Raise ValueError /\ fs' = fs /\ out = [] /\ exceeds_limit a b c)
           \/ (r = Return true
               /\ (List.length a <= max_str_digits)%nat
               /\ (List.length b <= max_str_digits)%nat
               /\ (List.length c <= max_str_digits)%nat
               /\ next_within_limit c
               /\ exists out0,
                    update_manifest
                      (version_text (Z.of_N (digits_value a)) (Z.of_N (digits_value b))
                         (Z.of_N (digits_value c) + 1))
                      (texts_set VERSION_FILE
                         (version_text (Z.of_N (digits_value a)) (Z.of_N (digits_value b))
                            (Z.of_N (digits_value c) + 1)) fs)
                    = Some (out0, fs')
                    /\ out = out0 ++ [lit "Version incremented to "
                                        ++ version_text (Z.of_N (digits_value a))
                                             (Z.of_N (digits_value b))
                                             (Z.of_N (digits_value c) + 1)])).
Proof.
  unfold increment_version. destruct (fs VERSION_FILE) as [text|] eqn:V.
  2:{ intros H. injection H as <- <- <-. left. eauto. }
  destruct (match_triple (py_strip text)) as [[[[[a b] c] tail]|]|] eqn:M; try discriminate.
  2:{ destruct (py_print _) as [printed|e] eqn:P; intros H; injection H as <- <- <-.
      - left. eauto.
      - right. left. apply py_print_raises in P as [-> P].
        repeat split; try reflexivity. exists text. split; [reflexivity|].
        rewrite !valid_str_app in P.
        destruct (valid_str (py_strip text)); [|reflexivity].
        rewrite andb_true_r in P. vm_compute in P. discriminate P. }
  apply match_triple_inv in M as ((Na & Fa) & (Nb & Fb) & (Nc & Fc) & E).
  rewrite (int_of_group_digits a Na Fa), (int_of_group_digits b Nb Fb),
          (int_of_group_digits c Nc Fc).
  intros H. right. right. exists a, b, c, tail.
  split; [eauto|]. do 3 (split; [auto|]).
  destruct (Nat.ltb_spec max_str_digits (List.length a)) as [La|La].
  { injection H as <- <- <-. left. repeat split; try reflexivity. now left. }
  destruct (Nat.ltb_spec max_str_digits (List.length b)) as [Lb|Lb].
  { injection H as <- <- <-. left. repeat split; try reflexivity. right. now left. }
  destruct (Nat.ltb_spec max_str_digits (List.length c)) as [Lc|Lc].
  { injection H as <- <- <-. left. repeat split; try reflexivity. right. right. now left. }
  rewrite format_version_groups in H by (repeat split; assumption).
  destruct (Nat.ltb_spec max_str_digits (List.length (str_of_N (digits_value c + 1))))
    as [Ln|Ln].
  { injection H as <- <- <-. left. repeat split; try reflexivity.
    right. right. now right. }
  destruct (update_manifest _ _) as [[out0 fs2]|] eqn:U; [|discriminate].
  injection H as <- <- <-. right.
  split; [reflexivity|]. do 4 (split; [assumption|]). eauto.
Qed.

(** X19: the outcomes of [increment_version], where the model follows it
    (files that read as text, digits not followed by a character beyond
    ASCII).  It leaves every file but [VERSION] and the manifest alone
    and never creates the manifest.  When it returns [False] nothing was
    written.  When it raises, nothing was printed or written, and either
    it is [ValueError] because the version starts with three groups of
    digits one of which, or the number after the last, has more digits
    than the limit of conversions, or it is [UnicodeEncodeError] because
    the text to report as invalid holds a surrogate.  When it returns
    [True] the text of [VERSION], stripped, started with three groups of
    digits separated by dots, and [VERSION] now holds the three numbers,
    the last one incremented, and nothing else. *)
Theorem increment_version_outcome fs r out fs' :
  increment_version fs = Some (r, out, fs') ->
  (forall q, q <> VERSION_FILE -> q <> MANIFEST_FILE -> fs' q = fs q)
  /\ (fs MANIFEST_FILE = None <-> fs' MANIFEST_FILE = None)
  /\ (r = Return false -> fs' = fs)
  /\ (forall e, r = Raise e ->
        out = [] /\ fs' = fs
        /\ exists text,
             fs VERSION_FILE = Some text
             /\ ((e = UnicodeEncodeError /\ valid_str (py_strip text) = false)
                 \/ (e = ValueError
                     /\ exists a b c tail,
                          py_strip text = a ++ 46 :: b ++ 46 :: c ++ tail
                          /\ digits_only a /\ digits_only b /\ digits_only c
                          /\ exceeds_limit a b c)))
  /\ (r = Return true ->
      exists a b c tail text,
        fs VERSION_FILE = Some text
        /\ py_strip text = a ++ 46 :: b ++ 46 :: c ++ tail
        /\ digit_group a /\ digit_group b /\ digit_group c /\ next_within_limit c
        /\ fs' VERSION_FILE
           = Some (version_text (Z.of_N (digits_value a)) (Z.of_N (digits_value b))
                     (Z.of_N (digits_value c) + 1))).
Proof.
  intros H.
  apply increment_version_inv in H
    as [(-> & -> & _)
       |[(-> & -> & -> & text & V & S)
        |(a & b & c & tail & (text & V & E) & Ga & Gb & Gc
          & [(-> & -> & -> & X)|(-> & La & Lb & Lc & Ln & out0 & U & _)])]].
  - repeat split; try discriminate; auto.
  - split; [reflexivity|]. split; [reflexivity|]. split; [reflexivity|].
    split; [|discriminate].
    intros e R. injection R as <-. split; [reflexivity|]. split; [reflexivity|].
    exists text. split; [exact V|]. now left.
  - split; [reflexivity|]. split; [reflexivity|]. split; [reflexivity|].
    split; [|discriminate].
    intros e R. injection R as <-. split; [reflexivity|]. split; [reflexivity|].
    exists text. split; [exact V|].
    right. split; [reflexivity|]. exists a, b, c, tail. unfold digits_only. auto.
  - apply update_manifest_inv in U as (U1 & _ & U3).
    assert (NV : VERSION_FILE <> MANIFEST_FILE) by discriminate.
    split; [|split; [|split; [discriminate|split; [discriminate|]]]].
    + intros q Hv Hm. rewrite (U1 q Hm). now apply texts_set_other.
    + rewrite <- U3. now rewrite texts_set_other by (intros K; now apply NV).
    + intros _. exists a, b, c, tail, text.
      split; [exact V|]. split; [exact E|].
      destruct Ga as [Na Fa], Gb as [Nb Fb], Gc as [Nc Fc].
      do 3 (split; [repeat split; assumption|]). split; [exact Ln|].
      rewrite (U1 _ NV). apply texts_set_same.
Qed.

Lemma increment_version_outcome_witness :
  exists out fs',
    increment_version (sample_texts (lit "v1.2.3") None)
    = Some (Return false, out, fs')
    /\ fs' = sample_texts (lit "v1.2.3") None.
Proof.
  eexists _, _. split; [reflexivity|].
  exact (proj1 (proj2 (proj2
           (increment_version_outcome (sample_texts (lit "v1.2.3") None) (Return false)
              _ _ eq_refl))) eq_refl).
Defined.

(** ** The manifest *)

Lemma is_ascii_suffix a b : is_ascii (a ++ b) -> is_ascii b.
Proof. unfold is_ascii. intros H. now apply Forall_app in H. Qed.

Lemma digit_run_ascii s :
  is_ascii s ->
  digit_run s = Some None
  \/ exists ds rest, digit_run s = Some (Some (ds, rest)) /\ s = ds ++ rest.
Proof.
  intros A. unfold digit_run. destruct (span_digits s) as [ds rest] eqn:E.
  apply span_digits_inv in E as [_ ->].
  assert (R : match rest with c :: _ => 128 <=? c | [] => false end = false).
  { apply is_ascii_suffix in A. destruct rest as [|c t]; [reflexivity|].
    inversion A; subst. now apply N.leb_gt. }
  rewrite R. destruct ds; [now left|right; eauto].
Qed.

Lemma dot_digit_run_ascii s :
  is_ascii s ->
  dot_digit_run s = Some None
  \/ exists ds rest, dot_digit_run s = Some (Some (ds, rest)) /\ s = 46 :: ds ++ rest.
Proof.
  intros A. unfold dot_digit_run. destruct s as [|c t]; [now left|].
  destruct (N.eqb_spec c 46) as [->|_]; [|now left].
  inversion A; subst.
  destruct (digit_run_ascii t) as [H|(ds & rest & H & ->)]; [assumption|now left|].
  right. eauto.
Qed.

(** On an ASCII text the pattern either does not match or takes a piece
    of the text. *)
Lemma match_entry_ascii s :
  is_ascii s ->
  match_entry s = Some None
  \/ exists rest,
       match_entry s = Some (Some rest)
       /\ is_ascii rest /\ (List.length rest < List.length s)%nat.
Proof.
  intros A. unfold match_entry.
  destruct (strip_prefix version_key s) as [r|] eqn:P; [|now left].
  apply strip_prefix_app in P. subst s.
  pose proof (is_ascii_suffix _ _ A) as Ar.
  unfold match_triple.
  destruct (digit_run_ascii r Ar) as [->|(a & r1 & -> & ->)]; [now left|].
  pose proof (is_ascii_suffix _ _ Ar) as A1.
  destruct (dot_digit_run_ascii r1 A1) as [->|(b & r2 & -> & ->)]; [now left|].
  pose proof (is_ascii_suffix _ _ (is_ascii_suffix [46] _ A1)) as A2.
  destruct (dot_digit_run_ascii r2 A2) as [->|(c & r3 & -> & ->)]; [now left|].
  pose proof (is_ascii_suffix _ _ (is_ascii_suffix [46] _ A2)) as A3.
  destruct r3 as [|x rest]; [now left|].
  destruct (x =? 34); [|now left].
  right. exists rest. split; [reflexivity|]. split.
  - now inversion A3.
  - repeat (rewrite List.length_app; cbn [List.length]). lia.
Qed.

Lemma sub_entry_ascii repl :
  forall fuel s,
    is_ascii s -> (List.length s < fuel)%nat ->
    exists s', sub_entry fuel repl s = Some s'.
Proof.
  induction fuel as [|fuel IH]; intros s A L; [lia|]. cbn [sub_entry].
  destruct (match_entry_ascii s A) as [->|(rest & -> & Ar & Lr)].
  - destruct s as [|c t]; [eauto|].
    inversion A; subst. cbn [List.length] in L.
    destruct (IH t) as (s' & ->); [assumption|lia|]. cbn [option_map]. eauto.
  - destruct (IH rest) as (s' & ->); [assumption|lia|]. cbn [option_map]. eauto.
Qed.

(** X20: a version is incremented.  When the text of [VERSION], stripped,
    starts with three groups of digits separated by dots that do not go on
    as a number, no group has more digits than the limit of conversions
    and neither has the number after the last one, and the manifest is
    missing or holds ASCII only, [increment_version] returns [True];
    [VERSION] then holds the three numbers in decimal, the last one
    incremented, without what followed them; the last line printed gives
    the new version; and without a manifest nothing else is printed or
    written. *)
Theorem version_patch_is_incremented fs text a b c tail :
  fs VERSION_FILE = Some text ->
  py_strip text = a ++ 46 :: b ++ 46 :: c ++ tail ->
  digit_group a -> digit_group b -> digit_group c ->
  next_within_limit c ->
  ends_number tail ->
  match fs MANIFEST_FILE with Some m => is_ascii m | None => True end ->
  exists out fs',
    increment_version fs
    = Some (Return true,
            out ++ [lit "Version incremented to "
                      ++ version_text (Z.of_N (digits_value a)) (Z.of_N (digits_value b))
                           (Z.of_N (digits_value c) + 1)],
            fs')
    /\ fs' VERSION_FILE
       = Some (version_text (Z.of_N (digits_value a)) (Z.of_N (digits_value b))
                 (Z.of_N (digits_value c) + 1))
    /\ (fs MANIFEST_FILE = None ->
        out = []
        /\ fs' = texts_set VERSION_FILE
                   (version_text (Z.of_N (digits_value a)) (Z.of_N (digits_value b))
                      (Z.of_N (digits_value c) + 1)) fs).
Proof.
  intros V E Ga Gb Gc Ln T M.
  pose proof Ga as (Na & Fa & La). pose proof Gb as (Nb & Fb & Lb).
  pose proof Gc as (Nc & Fc & Lc).
  set (v := version_text (Z.of_N (digits_value a)) (Z.of_N (digits_value b))
              (Z.of_N (digits_value c) + 1)).
  assert (NV : VERSION_FILE <> MANIFEST_FILE) by discriminate.
  assert (U : exists out fs',
             update_manifest v (texts_set VERSION_FILE v fs) = Some (out, fs')).
  { unfold update_manifest.
    rewrite texts_set_other by (intros K; now apply NV).
    destruct (fs MANIFEST_FILE) as [m|]; [|eauto].
    destruct (sub_entry_ascii (version_key ++ v ++ [34]) (S (List.length m)) m M
                (Nat.lt_succ_diag_r _)) as (m' & ->). eauto. }
  destruct U as (out & fs' & U). exists out, fs'.
  pose proof (update_manifest_inv _ _ _ _ U) as (U1 & U2 & _).
  split; [|split].
  - unfold increment_version. rewrite V, E.
    rewrite (match_triple_groups a b c tail) by auto.
    rewrite (int_of_group_digits a Na Fa), (int_of_group_digits b Nb Fb),
            (int_of_group_digits c Nc Fc).
    destruct (Nat.ltb_spec max_str_digits (List.length a)); [lia|].
    destruct (Nat.ltb_spec max_str_digits (List.length b)); [lia|].
    destruct (Nat.ltb_spec max_str_digits (List.length c)); [lia|].
    rewrite (format_version_groups a b c Ga Gb).
    unfold next_within_limit in Ln.
    destruct (Nat.ltb_spec max_str_digits (List.length (str_of_N (digits_value c + 1))));
      [lia|].
    fold v. now rewrite U.
  - rewrite (U1 _ NV). apply texts_set_same.
  - intros Hm. apply U2. now rewrite texts_set_other by (intros K; now apply NV).
Qed.

Lemma version_patch_is_incremented_witness :
  exists out fs',
    increment_version
      (sample_texts (32 :: lit "1.02.9-beta" ++ [10])
         (Some (version_key ++ lit "0.0.1" ++ [34])))
    = Some (Return true, out ++ [lit "Version incremented to 1.2.10"], fs')
    /\ fs' VERSION_FILE = Some (lit "1.2.10").
Proof.
  destruct (version_patch_is_incremented
              (sample_texts (32 :: lit "1.02.9-beta" ++ [10])
                 (Some (version_key ++ lit "0.0.1" ++ [34])))
              (32 :: lit "1.02.9-beta" ++ [10])
              (lit "1") (lit "02") (lit "9") (lit "-beta"))
    as (out & fs' & E & V & _).
  - reflexivity.
  - reflexivity.
  - split; [discriminate|]. split; [repeat constructor|apply Nat.leb_le; reflexivity].
  - split; [discriminate|]. split; [repeat constructor|apply Nat.leb_le; reflexivity].
  - split; [discriminate|]. split; [repeat constructor|apply Nat.leb_le; reflexivity].
  - apply Nat.leb_le. reflexivity.
  - split; [reflexivity|reflexivity].
  - apply Forall_forall. intros x Hx. vm_compute in Hx.
    repeat (destruct Hx as [<-|Hx]; [reflexivity|]). contradiction.
  - exists out, fs'. split; [exact E|exact V].
Defined.
